(** * Patient-level data splitting: a shallow embedding of
      [src/data_splitting_algorithm.py] (class [PatientLevelDataSplitter])

    Modelling conventions.
    - Python [str] values are [string]s; the regular expression class [\d]
      is the ASCII digits.
    - Python [dict]s are association lists in insertion order.
    - Python [float] ratios are exact rationals ([Q]) in the model of the
      whole class, and [int(x)] truncates towards zero; this is used for
      the properties that hold for any cut points. The ratio check and
      the allocator are also given in IEEE 754 binary64 arithmetic
      ([Module Binary64], over the Standard Library's [SpecFloat]),
      where [int()] raises on an infinity; the properties that depend on
      how a product is rounded are stated there.
    - [list(set(...))] lists the distinct elements in one fixed order;
      Python's order depends on the string hashes of the process, and the
      properties use the members and the size of a set only.
    - Exceptions are the [Raise] results of a small error monad.
    - [hash(filename)] is the salted per-process string hash and
      [np.random.shuffle] consumes the global generator: both are explicit
      parameters ([hash], [shuffle] with its generator state).
    - The per-image dictionaries built by [group_by_patient] are shared
      objects: they live in a store and the patient groups hold their
      addresses. *)

From Stdlib Require Import List String Ascii Bool Arith ZArith QArith Qabs Qround.
From Stdlib Require Import Permutation Lia DecimalString.
From Stdlib Require DecimalPos DecimalZ.
From Stdlib Require SpecFloat.
Import ListNotations.

Local Open Scope string_scope.
Local Open Scope list_scope.

(** string concatenation, Python's [+] on [str] and f-string splicing *)
Infix "^^" := String.append (at level 60, right associativity).

(** ** Exceptions *)

Inductive exn : Type :=
| ValueError (msg : string)
| AssertionError (msg : string)
| KeyError (key : string)
| AttributeError (attr : string)
| OverflowError (msg : string)
| ZeroDivisionError.

Inductive result (A : Type) : Type :=
| Ok (a : A)
| Raise (e : exn).
Arguments Ok {A} a.
Arguments Raise {A} e.

Definition bind {A B} (m : result A) (k : A -> result B) : result B :=
  match m with
  | Ok a => k a
  | Raise e => Raise e
  end.

Notation "x <- m ;; k" := (bind m (fun x => k))
  (at level 61, m at next level, right associativity).

Definition is_ok {A} (m : result A) : bool :=
  match m with Ok _ => true | Raise _ => false end.

(** ** Strings as Python uses them *)

Module PyStr.

(** [s.startswith(p)] *)
Definition startswith (p s : string) : bool := String.prefix p s.

(** [kw in text] *)
Fixpoint contains (kw text : string) : bool :=
  String.prefix kw text ||
  match text with
  | EmptyString => false
  | String _ t => contains kw t
  end.

(** The declarative reading of [kw in text]. *)
Definition substring_of (kw text : string) : Prop :=
  exists pre post, text = pre ^^ kw ^^ post.

Definition is_digit (c : ascii) : bool :=
  (48 <=? nat_of_ascii c)%nat && (nat_of_ascii c <=? 57)%nat.

(** the longest run of digits at the head of [s]: what [(\d+)] captures *)
Fixpoint take_digits (s : string) : string :=
  match s with
  | EmptyString => EmptyString
  | String c t => if is_digit c then String c (take_digits t) else EmptyString
  end.

(** [s] with the literal [lit] removed from its head *)
Fixpoint strip_prefix (lit s : string) : option string :=
  match lit, s with
  | EmptyString, _ => Some s
  | String a lit', String b s' =>
      if Ascii.eqb a b then strip_prefix lit' s' else None
  | String _ _, EmptyString => None
  end.

(** [re.search(lit + r'(\d+)', s)]: the leftmost position where [lit] is
    followed by at least one digit; the result is [match.group(1)]. *)
Fixpoint search_digits_after (lit s : string) : option string :=
  let here :=
    match strip_prefix lit s with
    | Some rest =>
        match take_digits rest with
        | EmptyString => None
        | ds => Some ds
        end
    | None => None
    end in
  match here with
  | Some ds => Some ds
  | None =>
      match s with
      | EmptyString => None
      | String _ t => search_digits_after lit t
      end
  end.

(** [str(z)] for an integer *)
Definition of_Z (z : Z) : string := NilZero.string_of_int (Z.to_int z).

(** [str.lower()] on ASCII letters *)
Definition lower_ascii (c : ascii) : ascii :=
  let n := nat_of_ascii c in
  if (65 <=? n)%nat && (n <=? 90)%nat then ascii_of_nat (n + 32) else c.

Fixpoint lower (s : string) : string :=
  match s with
  | EmptyString => EmptyString
  | String c t => String (lower_ascii c) (lower t)
  end.

End PyStr.

(** ** Dictionaries, sets and slices *)

(** A [dict] with string keys, in insertion order. *)
Definition dict (V : Type) : Type := list (string * V).

Fixpoint dict_get {V} (k : string) (d : dict V) : option V :=
  match d with
  | [] => None
  | (k', v) :: d' => if String.eqb k k' then Some v else dict_get k d'
  end.

(** [d[k] = v] *)
Fixpoint dict_set {V} (k : string) (v : V) (d : dict V) : dict V :=
  match d with
  | [] => [(k, v)]
  | (k', v') :: d' =>
      if String.eqb k k' then (k', v) :: d' else (k', v') :: dict_set k v d'
  end.

(** [d[k].append(v)] on a [defaultdict(list)] *)
Fixpoint dict_append {V} (k : string) (v : V) (d : dict (list V)) : dict (list V) :=
  match d with
  | [] => [(k, [v])]
  | (k', vs) :: d' =>
      if String.eqb k k' then (k', vs ++ [v]) :: d' else (k', vs) :: dict_append k v d'
  end.

Definition keys {V} (d : dict V) : list string := map fst d.

(** [x in l] *)
Definition mem (x : string) (l : list string) : bool := existsb (String.eqb x) l.

(** [set(l)], kept as the list of its distinct elements in one fixed
    order; Python's order depends on the string hashes of the process. *)
Definition py_set (l : list string) : list string := nodup string_dec l.

Definition set_inter (a b : list string) : list string := filter (fun x => mem x b) a.
Definition set_union (a b : list string) : list string := py_set (a ++ b).
Definition set_eqb (a b : list string) : bool :=
  forallb (fun x => mem x b) a && forallb (fun x => mem x a) b.

(** A slice bound [i] of a list of length [n], as Python normalises it. *)
Definition slice_index (n : nat) (i : Z) : nat :=
  if (i <? 0)%Z then Z.to_nat (Z.max 0 (i + Z.of_nat n))
  else Nat.min n (Z.to_nat i).

(** [l[lo:hi]]; [None] is an omitted bound. *)
Definition slice {A} (lo hi : option Z) (l : list A) : list A :=
  let n := List.length l in
  let a := match lo with Some i => slice_index n i | None => 0%nat end in
  let b := match hi with Some i => slice_index n i | None => n end in
  firstn (b - a) (skipn a l).

(** [int(x)] on a float: truncation towards zero. *)
Definition py_int (x : Q) : Z := Z.quot (Qnum x) (Zpos (Qden x)).

Definition Qltb (x y : Q) : bool := (Qnum x * QDen y <? Qnum y * QDen x)%Z.

(** ** The inventory *)

(** One row of [master_index.csv] (the columns the splitter requires). *)
Record csv_row : Type := mk_row {
  filename : string;
  source : string;
  image_path : string;
  caption_path : string;
  has_caption : bool
}.

(** What [pd.read_csv] returns: the header and the rows; the rows are
    only read once all required columns are known to be present. *)
Record table : Type := mk_table {
  columns : list string;
  rows : list csv_row
}.

(** The dictionary [row.to_dict()] with the keys the splitter adds:
    ['patient_id'] at grouping and ['split'] ([None]: key absent) at
    expansion. *)
Record image : Type := mk_image {
  img_row : csv_row;
  img_patient_id : string;
  img_split : option string
}.

(** A [pd.DataFrame] built from a list of image dictionaries: a copy of
    their contents. Built from the empty list it has no column at all. *)
Definition dataframe : Type := list image.

(** [df[col]]: any column of a frame without columns is a [KeyError]. *)
Definition column {A} (col : string) (f : image -> A) (df : dataframe) : result (list A) :=
  match df with
  | [] => Raise (KeyError col)
  | _ => Ok (map f df)
  end.

(** [self.splits] once [create_splits] has run. *)
Record splits_t : Type := mk_splits {
  train : dataframe;
  val : dataframe;
  test : dataframe;
  train_patients : list string;
  val_patients : list string;
  test_patients : list string
}.

(** The per-split block of [split_metadata.json]. *)
Record split_info : Type := mk_split_info {
  n_patients : nat;
  n_images : nat;
  disease_distribution : dict Q;
  source_distribution : dict nat
}.

Record metadata : Type := mk_metadata {
  generated_at : string;
  meta_random_seed : Z;
  meta_train : split_info;
  meta_val : split_info;
  meta_test : split_info;
  validation_checks : dict bool
}.

(** What one output file holds. *)
Inductive artifact : Type :=
| CsvFile (df : dataframe)
| MetadataFile (m : metadata)
| MappingFile (m : dict string).

(** ** The fixed tables *)

Definition required_columns : list string :=
  ["filename"; "source"; "image_path"; "caption_path"; "has_caption"].

Definition disease_keywords : dict (list string) :=
  [ ("pneumonia", ["pneumonia"; "consolidation"; "infiltrate"]);
    ("pleural_effusion", ["pleural effusion"; "effusion"]);
    ("cardiomegaly", ["cardiomegaly"; "enlarged heart"; "cardiac enlargement"]);
    ("edema", ["edema"; "pulmonary edema"]);
    ("atelectasis", ["atelectasis"; "collapse"]);
    ("pneumothorax", ["pneumothorax"]);
    ("nodule", ["nodule"; "mass"; "lesion"]);
    ("fracture", ["fracture"; "rib fracture"]);
    ("normal", ["no acute"; "normal"; "clear lungs"; "unremarkable"]) ].

Definition priority_diseases : list string :=
  [ "pneumonia"; "pneumothorax"; "pleural_effusion";
    "cardiomegaly"; "edema"; "atelectasis";
    "nodule"; "fracture"; "normal"; "unspecified" ].

(** ** The splitter *)

Section Splitter.

(** The state of NumPy's global generator. *)
Context {G : Type}.
(** [np.random.seed] and [np.random.shuffle] (the shuffled list and the
    advanced generator). *)
Variable np_seed : Z -> G.
Variable np_shuffle : G -> list string -> list string * G.
(** [hash(filename)]: Python salts string hashes per process. *)
Variable hash : string -> Z.
(** [pd.read_csv(path)] *)
Variable read_csv : string -> result table.
(** [open(path).read()]; [None] when it raises. *)
Variable read_caption : string -> option string.
(** [pd.Timestamp.now().isoformat()] *)
Variable now : string.

(** The attributes of [self], the store of image dictionaries they
    point into, the global generator and the files written so far. *)
Record state : Type := mk_state {
  master_index_path : string;
  random_seed : Z;
  master_df : option table;
  patient_data : dict (list nat);
  disease_labels : dict (list string);
  splits : option splits_t;
  heap : list image;
  np_random : G;
  files : dict artifact
}.

Definition with_master_df (t : option table) (s : state) : state :=
  mk_state (master_index_path s) (random_seed s) t (patient_data s)
           (disease_labels s) (splits s) (heap s) (np_random s) (files s).
Definition with_patient_data (d : dict (list nat)) (s : state) : state :=
  mk_state (master_index_path s) (random_seed s) (master_df s) d
           (disease_labels s) (splits s) (heap s) (np_random s) (files s).
Definition with_disease_labels (d : dict (list string)) (s : state) : state :=
  mk_state (master_index_path s) (random_seed s) (master_df s) (patient_data s)
           d (splits s) (heap s) (np_random s) (files s).
Definition with_splits (sp : option splits_t) (s : state) : state :=
  mk_state (master_index_path s) (random_seed s) (master_df s) (patient_data s)
           (disease_labels s) sp (heap s) (np_random s) (files s).
Definition with_heap (h : list image) (s : state) : state :=
  mk_state (master_index_path s) (random_seed s) (master_df s) (patient_data s)
           (disease_labels s) (splits s) h (np_random s) (files s).
Definition with_np_random (g : G) (s : state) : state :=
  mk_state (master_index_path s) (random_seed s) (master_df s) (patient_data s)
           (disease_labels s) (splits s) (heap s) g (files s).
Definition with_files (f : dict artifact) (s : state) : state :=
  mk_state (master_index_path s) (random_seed s) (master_df s) (patient_data s)
           (disease_labels s) (splits s) (heap s) (np_random s) f.

(** A method: it runs on a state and returns a value or raises, and in
    both cases leaves the state it has reached. *)
Definition M (A : Type) : Type := state -> result A * state.

Definition ret {A} (a : A) : M A := fun s => (Ok a, s).
Definition raise {A} (e : exn) : M A := fun s => (Raise e, s).
Definition lift {A} (r : result A) : M A := fun s => (r, s).
Definition bindM {A B} (m : M A) (k : A -> M B) : M B :=
  fun s =>
    match m s with
    | (Ok a, s') => k a s'
    | (Raise e, s') => (Raise e, s')
    end.
Definition gets {A} (f : state -> A) : M A := fun s => (Ok (f s), s).
Definition modify (f : state -> state) : M unit := fun s => (Ok tt, f s).

Local Notation "x <~ m ;; k" := (bindM m (fun x => k))
  (at level 61, m at next level, right associativity).
Local Notation "m ;;; k" := (bindM m (fun _ => k))
  (at level 61, right associativity).

Fixpoint for_each {A} (l : list A) (body : A -> M unit) : M unit :=
  match l with
  | [] => ret tt
  | x :: t => body x ;;; for_each t body
  end.

(** [__init__] *)
Definition init (path : string) (seed : Z) : state :=
  mk_state path seed None [] [] None [] (np_seed seed) [].

Definition load_master_index : M table :=
  df <~ (fun s => (read_csv (master_index_path s), s)) ;;
  modify (with_master_df (Some df)) ;;;
  if forallb (fun c => mem c (columns df)) required_columns
  then ret df
  else raise (ValueError "Missing required columns").

Definition extract_patient_id (fname src : string) : result string :=
  if String.eqb src "CheXpert" then
    match PyStr.search_digits_after "patient" fname with
    | Some ds => Ok ("chexpert_patient" ^^ ds)
    | None => Ok ("chexpert_unknown_" ^^ PyStr.of_Z (hash fname))
    end
  else if String.eqb src "Radiopaedia" then
    match PyStr.search_digits_after "radiopaedia_" fname with
    | Some ds => Ok ("radiopaedia_" ^^ ds)
    | None => Ok ("radiopaedia_unknown_" ^^ PyStr.of_Z (hash fname))
    end
  else Raise (ValueError ("Unknown source: " ^^ src)).

(** One iteration of the loop of [group_by_patient]: a fresh dictionary
    is allocated for the row and its address appended to the patient's
    group. *)
Definition group_row (row : csv_row) : M unit :=
  patient_id <~ lift (extract_patient_id (filename row) (source row)) ;;
  modify (fun s =>
    let addr := List.length (heap s) in
    with_patient_data (dict_append patient_id addr (patient_data s))
      (with_heap (heap s ++ [mk_image row patient_id None]) s)).

Definition group_by_patient : M (dict (list nat)) :=
  df <~ gets master_df ;;
  match df with
  | None => raise (AttributeError "iterrows")
  | Some t => for_each (rows t) group_row ;;; gets patient_data
  end.

Definition extract_diseases_from_caption (path : string) : list string :=
  match read_caption path with
  | None => ["unspecified"]
  | Some raw =>
      let caption_text := PyStr.lower raw in
      let diseases :=
        map fst
          (filter (fun entry => existsb (fun keyword => PyStr.contains keyword caption_text)
                                        (snd entry))
                  disease_keywords) in
      match diseases with
      | [] => ["unspecified"]
      | _ => diseases
      end
  end.

(** The images of a patient group, read through the store. *)
Definition deref (h : list image) (addrs : list nat) : list image :=
  flat_map (fun a => match nth_error h a with Some im => [im] | None => [] end) addrs.

Definition patient_diseases (h : list image) (addrs : list nat) : list string :=
  py_set (flat_map (fun im => extract_diseases_from_caption (caption_path (img_row im)))
                   (deref h addrs)).

Definition extract_patient_disease_labels : M (dict (list string)) :=
  modify (fun s =>
    with_disease_labels
      (fold_left (fun labels entry =>
                    dict_set (fst entry) (patient_diseases (heap s) (snd entry)) labels)
                 (patient_data s) (disease_labels s))
      s) ;;;
  gets disease_labels.

(** The body of [get_stratification_key] once the patient's labels are
    looked up. *)
Definition stratification_key_of (diseases : list string) : string :=
  match find (fun disease => mem disease diseases) priority_diseases with
  | Some disease => disease
  | None =>
      match diseases with
      | d :: _ => d
      | [] => "unspecified"
      end
  end.

Definition get_stratification_key (labels : dict (list string)) (patient_id : string) : string :=
  stratification_key_of
    (match dict_get patient_id labels with
     | Some diseases => diseases
     | None => ["unspecified"]
     end).

(** The dictionary returned by [stratified_split_patients]. *)
Record patient_split : Type := mk_patient_split {
  ps_train : list string;
  ps_val : list string;
  ps_test : list string
}.

(** [disease_groups]: the patients grouped by stratification label. *)
Definition group_by_label (labels : dict (list string)) (patient_ids : list string)
  : dict (list string) :=
  fold_left (fun groups pid => dict_append (get_stratification_key labels pid) pid groups)
            patient_ids [].

(** The three slices taken from one shuffled group, the products being
    exact; [Binary64.cut_group] has them rounded. *)
Definition cut_group (train_ratio val_ratio : Q) (n_total : nat) (shuffled : list string)
  : patient_split :=
  let n_train := py_int (inject_Z (Z.of_nat n_total) * train_ratio) in
  let n_val := py_int (inject_Z (Z.of_nat n_total) * val_ratio) in
  mk_patient_split
    (slice None (Some n_train) shuffled)
    (slice (Some n_train) (Some (n_train + n_val)%Z) shuffled)
    (slice (Some (n_train + n_val)%Z) None shuffled).

(** The loop over [disease_groups.items()]. *)
Fixpoint split_groups (train_ratio val_ratio : Q) (groups : dict (list string))
         (g : G) (acc : patient_split) : patient_split * G :=
  match groups with
  | [] => (acc, g)
  | (_, patients) :: rest =>
      let n_total := List.length patients in
      let (shuffled, g') := np_shuffle g patients in
      let c := cut_group train_ratio val_ratio n_total shuffled in
      split_groups train_ratio val_ratio rest g'
        (mk_patient_split (ps_train acc ++ ps_train c)
                          (ps_val acc ++ ps_val c)
                          (ps_test acc ++ ps_test c))
  end.

(** The entry assertion on the ratios, the sum being exact;
    [Binary64.ratios_ok] has it rounded. *)
Definition ratios_ok (train_ratio val_ratio test_ratio : Q) : bool :=
  Qltb (Qabs (train_ratio + val_ratio + test_ratio - 1.0)) 0.001.

Definition stratified_split_patients (patient_ids : list string)
           (train_ratio val_ratio test_ratio : Q) : M patient_split :=
  if ratios_ok train_ratio val_ratio test_ratio then
    fun s =>
      let groups := group_by_label (disease_labels s) patient_ids in
      let (r, g') := split_groups train_ratio val_ratio groups (np_random s)
                                  (mk_patient_split [] [] []) in
      (Ok r, with_np_random g' s)
  else raise (AssertionError "Ratios must sum to 1.0").

(** [self.patient_data[patient_id]] for the identifiers of a split;
    they are keys of the dictionary. *)
Definition records_of (pd : dict (list nat)) (patient_list : list string) : list nat :=
  flat_map (fun pid => match dict_get pid pd with Some l => l | None => [] end)
           patient_list.

(** [image['split'] = split_name] on the dictionary at [addr] *)
Fixpoint stamp (split_name : string) (addr : nat) (h : list image) : list image :=
  match h, addr with
  | [], _ => []
  | im :: h', O => mk_image (img_row im) (img_patient_id im) (Some split_name) :: h'
  | im :: h', S a => im :: stamp split_name a h'
  end.

(** The local function of [create_splits]: every image dictionary of
    the listed patients is stamped in place, and the frame copies the
    dictionaries as they are when the loop ends. *)
Definition patients_to_dataframe (patient_list : list string) (split_name : string)
  : M dataframe :=
  fun s =>
    let records := records_of (patient_data s) patient_list in
    let h := fold_left (fun h addr => stamp split_name addr h) records (heap s) in
    (Ok (deref h records), with_heap h s).

Definition is_chexpert (pid : string) : bool := PyStr.startswith "chexpert_" pid.
Definition is_radiopaedia (pid : string) : bool := PyStr.startswith "radiopaedia_" pid.

Definition create_splits (train_ratio val_ratio test_ratio : Q) : M splits_t :=
  pd <~ gets patient_data ;;
  let chexpert_patients := filter is_chexpert (keys pd) in
  let radiopaedia_patients := filter is_radiopaedia (keys pd) in
  chexpert_splits <~ stratified_split_patients chexpert_patients
                       train_ratio val_ratio test_ratio ;;
  radiopaedia_splits <~ stratified_split_patients radiopaedia_patients
                          train_ratio val_ratio test_ratio ;;
  let train_patients := ps_train chexpert_splits ++ ps_train radiopaedia_splits in
  let val_patients := ps_val chexpert_splits ++ ps_val radiopaedia_splits in
  let test_patients := ps_test chexpert_splits ++ ps_test radiopaedia_splits in
  train_df <~ patients_to_dataframe train_patients "train" ;;
  val_df <~ patients_to_dataframe val_patients "val" ;;
  test_df <~ patients_to_dataframe test_patients "test" ;;
  let sp := mk_splits train_df val_df test_df
                      train_patients val_patients test_patients in
  modify (with_splits (Some sp)) ;;;
  ret sp.

(** [len(split_df['source'].unique()) == 2] *)
Definition has_both_sources (df : dataframe) : result bool :=
  sources <- column "source" (fun im => source (img_row im)) df ;;
  Ok (List.length (py_set sources) =? 2)%nat.

(** The body of [validate_splits] on the attributes it reads. *)
Definition validation_report (pd : dict (list nat)) (sp : splits_t) : result (dict bool) :=
  let train_set := py_set (train_patients sp) in
  let val_set := py_set (val_patients sp) in
  let test_set := py_set (test_patients sp) in
  let no_patient_overlap :=
    (List.length (set_inter train_set val_set) =? 0)%nat &&
    (List.length (set_inter train_set test_set) =? 0)%nat &&
    (List.length (set_inter val_set test_set) =? 0)%nat in
  let total_patients :=
    (List.length train_set + List.length val_set + List.length test_set)%nat in
  if (total_patients =? 0)%nat then Raise ZeroDivisionError else
  let fraction (n : nat) : Q :=
    inject_Z (Z.of_nat n) / inject_Z (Z.of_nat total_patients) in
  let train_ratio := fraction (List.length train_set) in
  let val_ratio := fraction (List.length val_set) in
  let test_ratio := fraction (List.length test_set) in
  let ratio_validation :=
    Qltb (Qabs (train_ratio - 0.80)) 0.05 &&
    Qltb (Qabs (val_ratio - 0.10)) 0.05 &&
    Qltb (Qabs (test_ratio - 0.10)) 0.05 in
  train_both <- has_both_sources (train sp) ;;
  val_both <- has_both_sources (val sp) ;;
  test_both <- has_both_sources (test sp) ;;
  let all_patients := py_set (keys pd) in
  let assigned_patients := set_union (set_union train_set val_set) test_set in
  let all_patients_assigned := set_eqb all_patients assigned_patients in
  let validation_results :=
    [ ("no_patient_overlap", no_patient_overlap);
      ("ratio_validation", ratio_validation);
      ("train_has_both_sources", train_both);
      ("val_has_both_sources", val_both);
      ("test_has_both_sources", test_both);
      ("all_patients_assigned", all_patients_assigned) ] in
  Ok (validation_results ++ [("overall_valid", forallb snd validation_results)]).

Definition validate_splits : M (dict bool) :=
  fun s =>
    match splits s with
    | None => (Raise (KeyError "train_patients"), s)
    | Some sp => (validation_report (patient_data s) sp, s)
    end.

(** [df[col].unique()]: the distinct values in order of first appearance *)
Definition unique (l : list string) : list string :=
  rev (nodup string_dec (rev l)).

(** [Counter.update] with one key *)
Fixpoint counter_incr (k : string) (c : dict nat) : dict nat :=
  match c with
  | [] => [(k, 1%nat)]
  | (k', n) :: c' =>
      if String.eqb k k' then (k', S n) :: c' else (k', n) :: counter_incr k c'
  end.

Definition get_disease_distribution (labels : dict (list string)) (df : dataframe)
  : result (dict Q) :=
  pids <- column "patient_id" img_patient_id df ;;
  let patient_ids := unique pids in
  let disease_counts :=
    fold_left (fun counts pid =>
                 fold_left (fun c d => counter_incr d c)
                           (match dict_get pid labels with Some ds => ds | None => [] end)
                           counts)
              patient_ids [] in
  let total := List.length patient_ids in
  Ok (map (fun entry => (fst entry,
                         inject_Z (Z.of_nat (snd entry)) / inject_Z (Z.of_nat total)))
          disease_counts).

(** [df['source'].value_counts().to_dict()]; pandas orders the entries
    by decreasing count, here they are in order of first appearance. *)
Definition source_counts (df : dataframe) : result (dict nat) :=
  sources <- column "source" (fun im => source (img_row im)) df ;;
  Ok (fold_left (fun c src => counter_incr src c) sources []).

Definition split_block (labels : dict (list string)) (patients : list string)
           (df : dataframe) : result split_info :=
  dd <- get_disease_distribution labels df ;;
  sd <- source_counts df ;;
  Ok (mk_split_info (List.length patients) (List.length df) dd sd).

Definition write_file (path : string) (a : artifact) : M unit :=
  modify (fun s => with_files (dict_set path a (files s)) s).

(** [patient_mapping]: every listed identifier mapped to its split, a
    later assignment replacing an earlier one. *)
Definition patient_mapping (sp : splits_t) : dict string :=
  fold_left (fun m pid => dict_set pid "test" m) (test_patients sp)
    (fold_left (fun m pid => dict_set pid "val" m) (val_patients sp)
       (fold_left (fun m pid => dict_set pid "train" m) (train_patients sp) [])).

Definition save_splits (output_dir : string) : M unit :=
  sp <~ gets splits ;;
  match sp with
  | None => raise (KeyError "train")
  | Some sp =>
      write_file (output_dir ^^ "/train_index.csv") (CsvFile (train sp)) ;;;
      write_file (output_dir ^^ "/val_index.csv") (CsvFile (val sp)) ;;;
      write_file (output_dir ^^ "/test_index.csv") (CsvFile (test sp)) ;;;
      labels <~ gets disease_labels ;;
      seed <~ gets random_seed ;;
      train_block <~ lift (split_block labels (train_patients sp) (train sp)) ;;
      val_block <~ lift (split_block labels (val_patients sp) (val sp)) ;;
      test_block <~ lift (split_block labels (test_patients sp) (test sp)) ;;
      checks <~ validate_splits ;;
      write_file (output_dir ^^ "/split_metadata.json")
        (MetadataFile (mk_metadata now seed train_block val_block test_block checks)) ;;;
      write_file (output_dir ^^ "/patient_mapping.json") (MappingFile (patient_mapping sp))
  end.

(** [run_full_pipeline]: [create_splits] is called without arguments,
    hence with its default ratios. *)
Definition run_full_pipeline (output_dir : string) : M splits_t :=
  load_master_index ;;;
  group_by_patient ;;;
  extract_patient_disease_labels ;;;
  sp <~ create_splits 0.8 0.1 0.1 ;;
  validate_splits ;;;
  save_splits output_dir ;;;
  ret sp.

(** The parsed command line. *)
Record cli_args : Type := mk_args {
  arg_master_index : string;
  arg_output_dir : string;
  arg_train_ratio : Q;
  arg_val_ratio : Q;
  arg_test_ratio : Q;
  arg_random_seed : Z
}.

(** [main]: the ratios are parsed and not passed on. *)
Definition main (args : cli_args) : result splits_t * state :=
  run_full_pipeline (arg_output_dir args)
    (init (arg_master_index args) (arg_random_seed args)).

End Splitter.

(** ** The allocator in binary64 arithmetic

    The ratios are Python floats, IEEE 754 binary64 numbers, and the cut
    sizes are [int()] of a binary64 product. Here the ratio check and the
    allocator are given with that arithmetic, for the properties that
    depend on how a product is rounded. *)

Module Binary64.

Definition float : Type := SpecFloat.spec_float.
Definition prec : Z := 53.
Definition emax : Z := 1024.

(** [float(z)] for an integer, rounded to nearest, ties to even *)
Definition of_int (z : Z) : float := SpecFloat.binary_normalize prec emax z 0 false.

Definition add : float -> float -> float := SpecFloat.SFadd prec emax.
Definition sub : float -> float -> float := SpecFloat.SFsub prec emax.
Definition mul : float -> float -> float := SpecFloat.SFmul prec emax.
Definition div : float -> float -> float := SpecFloat.SFdiv prec emax.
Definition abs : float -> float := SpecFloat.SFabs.
Definition ltb : float -> float -> bool := SpecFloat.SFltb.
Definition leb : float -> float -> bool := SpecFloat.SFleb.

(** The decimal literal [n/d] for two integers below [2^53]: literals
    and division are both correctly rounded, so [0.7] is [literal 7 10]. *)
Definition literal (n d : Z) : float := div (of_int n) (of_int d).

(** [int(x)]: truncation towards zero; infinities and NaN raise. *)
Definition to_int (x : float) : result Z :=
  match x with
  | SpecFloat.S754_zero _ => Ok 0%Z
  | SpecFloat.S754_finite s m e =>
      let magnitude := Z.shiftl (Zpos m) e in
      Ok (if s then (- magnitude)%Z else magnitude)
  | SpecFloat.S754_infinity _ =>
      Raise (OverflowError "cannot convert float infinity to integer")
  | SpecFloat.S754_nan => Raise (ValueError "cannot convert float NaN to integer")
  end.

(** [n * x] for an int [n] and a float [x]: the int is converted first. *)
Definition int_mul (n : Z) (x : float) : result float :=
  match of_int n with
  | SpecFloat.S754_infinity _ => Raise (OverflowError "int too large to convert to float")
  | f => Ok (mul f x)
  end.

(** [int(n_total * ratio)] *)
Definition cut_size (n_total : nat) (ratio : float) : result Z :=
  product <- int_mul (Z.of_nat n_total) ratio ;;
  to_int product.

(** [abs(train_ratio + val_ratio + test_ratio - 1.0) < 0.001] *)
Definition ratios_ok (train_ratio val_ratio test_ratio : float) : bool :=
  ltb (abs (sub (add (add train_ratio val_ratio) test_ratio) (of_int 1)))
      (literal 1 1000).

(** The three slices taken from one shuffled group. *)
Definition cut_group (train_ratio val_ratio : float) (n_total : nat)
           (shuffled : list string) : result patient_split :=
  n_train <- cut_size n_total train_ratio ;;
  n_val <- cut_size n_total val_ratio ;;
  Ok (mk_patient_split
        (slice None (Some n_train) shuffled)
        (slice (Some n_train) (Some (n_train + n_val)%Z) shuffled)
        (slice (Some (n_train + n_val)%Z) None shuffled)).

Section Allocation.

Context {G : Type}.
Variable np_shuffle : G -> list string -> list string * G.

Local Notation "x <~ m ;; k" := (bindM m (fun x => k))
  (at level 61, m at next level, right associativity).
Local Notation "m ;;; k" := (bindM m (fun _ => k))
  (at level 61, right associativity).

(** The loop over [disease_groups.items()]; the group is shuffled before
    its cut sizes are computed. *)
Fixpoint split_groups (train_ratio val_ratio : float) (groups : dict (list string))
         (g : G) (acc : patient_split) : result patient_split * G :=
  match groups with
  | [] => (Ok acc, g)
  | (_, patients) :: rest =>
      let n_total := List.length patients in
      let (shuffled, g') := np_shuffle g patients in
      match cut_group train_ratio val_ratio n_total shuffled with
      | Ok c =>
          split_groups train_ratio val_ratio rest g'
            (mk_patient_split (ps_train acc ++ ps_train c)
                              (ps_val acc ++ ps_val c)
                              (ps_test acc ++ ps_test c))
      | Raise e => (Raise e, g')
      end
  end.

Definition stratified_split_patients (patient_ids : list string)
           (train_ratio val_ratio test_ratio : float) : @M G patient_split :=
  if ratios_ok train_ratio val_ratio test_ratio then
    fun s =>
      let groups := group_by_label (disease_labels s) patient_ids in
      let (r, g') := split_groups train_ratio val_ratio groups (np_random s)
                                  (mk_patient_split [] [] []) in
      (r, with_np_random g' s)
  else raise (AssertionError "Ratios must sum to 1.0").

Definition create_splits (train_ratio val_ratio test_ratio : float) : @M G splits_t :=
  pd <~ gets patient_data ;;
  let chexpert_patients := filter is_chexpert (keys pd) in
  let radiopaedia_patients := filter is_radiopaedia (keys pd) in
  chexpert_splits <~ stratified_split_patients chexpert_patients
                       train_ratio val_ratio test_ratio ;;
  radiopaedia_splits <~ stratified_split_patients radiopaedia_patients
                          train_ratio val_ratio test_ratio ;;
  let train_patients := ps_train chexpert_splits ++ ps_train radiopaedia_splits in
  let val_patients := ps_val chexpert_splits ++ ps_val radiopaedia_splits in
  let test_patients := ps_test chexpert_splits ++ ps_test radiopaedia_splits in
  train_df <~ patients_to_dataframe train_patients "train" ;;
  val_df <~ patients_to_dataframe val_patients "val" ;;
  test_df <~ patients_to_dataframe test_patients "test" ;;
  let sp := mk_splits train_df val_df test_df
                      train_patients val_patients test_patients in
  modify (with_splits (Some sp)) ;;;
  ret sp.

End Allocation.

End Binary64.

(** ** A concrete generator and concrete inventories

    NumPy's Mersenne Twister is not modelled; the properties below hold
    for every shuffle that permutes its argument. The linear congruential
    selection shuffle here is one such shuffle, used to run the model. *)

Module Demo.

Definition lcg (g : N) : N := ((g * 1103515245 + 12345) mod 2147483648)%N.

(** remove the element at position [i] *)
Fixpoint pick {A} (i : nat) (l : list A) : option (A * list A) :=
  match l, i with
  | [], _ => None
  | x :: t, O => Some (x, t)
  | x :: t, S j =>
      match pick j t with
      | Some (y, r) => Some (y, x :: r)
      | None => None
      end
  end.

Fixpoint shuffle_aux (fuel : nat) (g : N) (l : list string) : list string * N :=
  match fuel with
  | O => (l, g)
  | S fuel' =>
      let g' := lcg g in
      match pick (N.to_nat (g' mod N.of_nat (List.length l))) l with
      | Some (x, r) =>
          let (t, g'') := shuffle_aux fuel' g' r in (x :: t, g'')
      | None => (l, g')
      end
  end.

Definition shuffle (g : N) (l : list string) : list string * N :=
  shuffle_aux (List.length l) g l.

Definition seed (z : Z) : N := Z.to_N z.

Definition chexpert_row (fname : string) : csv_row :=
  mk_row fname "CheXpert" ("images/" ^^ fname) ("captions/" ^^ fname ^^ ".txt") true.

Definition radiopaedia_row (fname : string) : csv_row :=
  mk_row fname "Radiopaedia" ("images/" ^^ fname) ("captions/" ^^ fname ^^ ".txt") true.

Definition all_columns : list string :=
  ["filename"; "source"; "image_path"; "caption_path"; "has_caption";
   "file_size"; "date_added"].

(** Ten CheXpert patients with one image each. *)
Definition ten_chexpert : table :=
  mk_table all_columns
    (map chexpert_row
       ["patient00001_view1.jpg"; "patient00002_view1.jpg"; "patient00003_view1.jpg";
        "patient00004_view1.jpg"; "patient00005_view1.jpg"; "patient00006_view1.jpg";
        "patient00007_view1.jpg"; "patient00008_view1.jpg"; "patient00009_view1.jpg";
        "patient00010_view1.jpg"]).

(** The same with one file name that carries no patient number. *)
Definition ten_chexpert_one_unparsed : table :=
  mk_table all_columns
    (map chexpert_row
       ["patient00001_view1.jpg"; "patient00002_view1.jpg"; "patient00003_view1.jpg";
        "patient00004_view1.jpg"; "patient00005_view1.jpg"; "patient00006_view1.jpg";
        "patient00007_view1.jpg"; "patient00008_view1.jpg"; "patient00009_view1.jpg";
        "view1_frontal.jpg"]).

(** Four CheXpert patients, the first with two images. *)
Definition four_chexpert : table :=
  mk_table all_columns
    (map chexpert_row
       ["patient00001_view1.jpg"; "patient00001_view2.jpg"; "patient00002_view1.jpg";
        "patient00003_view1.jpg"; "patient00004_view1.jpg"]).

(** Two sources. *)
Definition mixed : table :=
  mk_table all_columns
    (map chexpert_row
       ["patient00001_view1.jpg"; "patient00002_view1.jpg"; "patient00003_view1.jpg";
        "patient00004_view1.jpg"]
     ++ map radiopaedia_row
       ["radiopaedia_5_1.png"; "radiopaedia_9_1.png"; "radiopaedia_11_1.png";
        "radiopaedia_12_1.png"]).

Definition no_captions : string -> option string := fun _ => None.

Definition some_captions (path : string) : option string :=
  if String.eqb path "captions/patient00001_view1.jpg.txt"
  then Some "Right lower lobe Consolidation with small pleural effusion."
  else if String.eqb path "captions/patient00002_view1.jpg.txt"
  then Some "No acute cardiopulmonary process."
  else if String.eqb path "captions/patient00003_view1.jpg.txt"
  then Some "Lines and tubes in standard position."
  else None.

Definition hash0 : string -> Z := fun _ => 0%Z.
Definition hash_run1 : string -> Z := fun _ => 5740354900026072187%Z.
Definition hash_run2 : string -> Z := fun _ => (-3217679145888098311)%Z.

Definition args (tr vr te : Q) : cli_args :=
  mk_args "metadata/master_index.csv" "metadata/splits" tr vr te 42.

(** The state after loading, grouping and labelling an inventory. *)
Definition prepared (t : table) (captions : string -> option string) : state :=
  snd (bindM (load_master_index (fun _ => Ok t))
             (fun _ => bindM (group_by_patient hash0)
                             (fun _ => extract_patient_disease_labels captions))
             (init seed "metadata/master_index.csv" 42)).

(** [create_splits] on a prepared inventory without readable captions. *)
Definition split_of (t : table) (tr vr te : Q) : result splits_t * state :=
  create_splits shuffle tr vr te (prepared t no_captions).

(** A whole run from the command line. *)
Definition run (t : table) (h : string -> Z) (a : cli_args) : result splits_t * state :=
  main seed shuffle h (fun _ => Ok t) no_captions "2025-10-01T12:00:00" a.

End Demo.

(** ** Predicates used to state the properties *)

(** The identifier carries one of the two source prefixes that
    [create_splits] selects by. *)
Definition source_prefixed (pid : string) : Prop :=
  is_chexpert pid = true \/ is_radiopaedia pid = true.

(** The position of a tag in a list, its rank in the priority order. *)
Fixpoint index_of (x : string) (l : list string) : option nat :=
  match l with
  | [] => None
  | y :: l' =>
      if String.eqb x y then Some 0%nat
      else match index_of x l' with
           | Some i => Some (S i)
           | None => None
           end
  end.

Definition rank (disease : string) : option nat := index_of disease priority_diseases.

(** A keyword phrase of the tag occurs in the text. *)
Definition keyword_match (text tag : string) : Prop :=
  exists keywords keyword,
    In (tag, keywords) disease_keywords /\ In keyword keywords /\
    PyStr.substring_of keyword text.

(** [train], [val] and [test] are pairwise disjoint, free of repetition,
    and together hold exactly the identifiers of [all]. *)
Definition partitions (all train val test : list string) : Prop :=
  (forall x, In x train -> ~ In x val) /\
  (forall x, In x train -> ~ In x test) /\
  (forall x, In x val -> ~ In x test) /\
  NoDup train /\ NoDup val /\ NoDup test /\
  (forall x, In x all <-> In x train \/ In x val \/ In x test).

(** The image comes from one of the two sources [extract_patient_id]
    accepts. *)
Definition recognized (im : image) : Prop :=
  source (img_row im) = "CheXpert" \/ source (img_row im) = "Radiopaedia".

(** The frame has an image of that source. *)
Definition holds_source (src : string) (df : dataframe) : Prop :=
  exists im, In im df /\ source (img_row im) = src.

(** A split's share of the patients, as [validate_splits] computes it. *)
Definition patient_fraction (sp : splits_t) (patients : list string) : Q :=
  inject_Z (Z.of_nat (List.length (py_set patients))) /
  inject_Z (Z.of_nat (List.length (py_set (train_patients sp)) +
                      List.length (py_set (val_patients sp)) +
                      List.length (py_set (test_patients sp)))).

(** [im'] is [im] with, at most, its ['split'] entry stamped. *)
Definition stamped_from (im im' : image) : Prop :=
  img_row im' = img_row im /\
  img_patient_id im' = img_patient_id im /\
  (img_split im' = img_split im \/
   In (img_split im') [Some "train"; Some "val"; Some "test"]).

(** ** Further predicates *)

(** The row carries one of the two source tags [extract_patient_id]
    has a rule for. *)
Definition known_source (row : csv_row) : Prop :=
  source row = "CheXpert" \/ source row = "Radiopaedia".


(** The patient groups and the store fit together: the keys are
    distinct, every stored image dictionary is in exactly one group,
    exactly once, no group is empty, and the images of a group carry the
    group's patient identifier. *)
Definition well_grouped {G} (s : @state G) : Prop :=
  NoDup (keys (patient_data s)) /\
  Permutation (List.concat (map snd (patient_data s)))
              (seq 0 (List.length (heap s))) /\
  forall pid addrs,
    In (pid, addrs) (patient_data s) ->
    addrs <> [] /\
    Forall (fun a => exists im, nth_error (heap s) a = Some im /\
                                img_patient_id im = pid) addrs.


(** Every patient has its labels: those that the captions of its stored
    images give. *)
Definition labelled {G} (read_caption : string -> option string) (s : @state G) : Prop :=
  forall pid addrs,
    In (pid, addrs) (patient_data s) ->
    dict_get pid (disease_labels s) = Some (patient_diseases read_caption (heap s) addrs).


(** The files of a state once the three index tables of [sp] are written
    under [dir]. *)
Definition with_index_files (dir : string) (sp : splits_t) (fs : dict artifact)
  : dict artifact :=
  dict_set (dir ^^ "/test_index.csv") (CsvFile (test sp))
    (dict_set (dir ^^ "/val_index.csv") (CsvFile (val sp))
       (dict_set (dir ^^ "/train_index.csv") (CsvFile (train sp)) fs)).

(** The files once the two reports are written as well. *)
Definition with_report_files (dir : string) (sp : splits_t) (meta : metadata)
           (fs : dict artifact) : dict artifact :=
  dict_set (dir ^^ "/patient_mapping.json") (MappingFile (patient_mapping sp))
    (dict_set (dir ^^ "/split_metadata.json") (MetadataFile meta)
       (with_index_files dir sp fs)).


(** The image dictionary with its ['split'] entry set. *)
Definition with_split (name : string) (im : image) : image :=
  mk_image (img_row im) (img_patient_id im) (Some name).


(** Every character of [s] is a digit. *)
Fixpoint all_digits (s : string) : bool :=
  match s with
  | EmptyString => true
  | String c t => PyStr.is_digit c && all_digits t
  end.

Definition starts_with_digit (s : string) : bool :=
  match s with
  | EmptyString => false
  | String c _ => PyStr.is_digit c
  end.

(** [lit] followed by a digit occurs in [s]: the pattern [lit(\d+)] has
    a match in [s]. *)
Definition digits_follow (lit s : string) : Prop :=
  exists pre c rest, PyStr.is_digit c = true /\ s = pre ^^ lit ^^ String c rest.

(** [ds] is what [(\d+)] captures in the leftmost match of [lit(\d+)]
    in [s]: the whole run of digits after the first occurrence of [lit]
    that a digit follows. *)
Definition leftmost_capture (lit s ds : string) : Prop :=
  exists pre rest,
    s = pre ^^ lit ^^ ds ^^ rest /\
    ds <> "" /\ all_digits ds = true /\ starts_with_digit rest = false /\
    forall p c q, PyStr.is_digit c = true -> s = p ^^ lit ^^ String c q ->
                  (String.length pre <= String.length p)%nat.

(** The attempt of the pattern at the head of [s]. *)
Definition match_here (lit s : string) : option string :=
  match PyStr.strip_prefix lit s with
  | Some rest =>
      match PyStr.take_digits rest with
      | EmptyString => None
      | ds => Some ds
      end
  | None => None
  end.

(** The two patterns with the prefixes of the identifiers they give. *)
Definition id_patterns : list (string * string * string * string) :=
  [ ("CheXpert", "patient", "chexpert_patient", "chexpert_unknown_");
    ("Radiopaedia", "radiopaedia_", "radiopaedia_", "radiopaedia_unknown_") ].

(** [self.disease_labels.get(pid, [])] *)
Definition labels_of (labels : dict (list string)) (pid : string) : list string :=
  match dict_get pid labels with Some ds => ds | None => [] end.

(** How often [disease] is listed in the labels of the patients of
    [patient_ids]. *)
Definition carriers (labels : dict (list string)) (patient_ids : list string)
           (disease : string) : nat :=
  list_sum (map (fun pid => count_occ string_dec (labels_of labels pid) disease)
                patient_ids).

(** [counter[k]] *)
Definition counter_get (k : string) (c : dict nat) : nat :=
  match dict_get k c with Some n => n | None => 0%nat end.

(** A [Counter] as [update] builds it: keys are distinct and no count is
    zero. *)
Definition counter_ok (c : dict nat) : Prop :=
  NoDup (keys c) /\ Forall (fun entry => (0 < snd entry)%nat) c.

(** The filename of the row matches the pattern of the row's source. *)
Definition parses (row : csv_row) : Prop :=
  (source row = "CheXpert" -> digits_follow "patient" (filename row)) /\
  (source row = "Radiopaedia" -> digits_follow "radiopaedia_" (filename row)).

(** ** Predicates on the binary64 allocator *)

(** The groups as the allocator's loop meets them: each one shuffled
    with the generator that the shuffle before it left. *)
Fixpoint shuffled_groups {G} (np_shuffle : G -> list string -> list string * G)
         (groups : dict (list string)) (g : G) : list (list string) :=
  match groups with
  | [] => []
  | (_, patients) :: rest =>
      let (shuffled, g') := np_shuffle g patients in
      shuffled :: shuffled_groups np_shuffle rest g'
  end.

(** How many identifiers the cut size [int(n * ratio)] takes from the
    head of a list. *)
Definition cut_count (ratio : Binary64.float) (n : nat) : nat :=
  match Binary64.cut_size n ratio with
  | Ok z => Z.to_nat z
  | Raise _ => 0%nat
  end.

(** [0 <= x] *)
Definition not_negative (x : Binary64.float) : Prop :=
  Binary64.leb (Binary64.of_int 0) x = true.

(** No product [n * ratio] of a group overflows. *)
Definition no_overflow (train_ratio val_ratio : Binary64.float) (n : nat) : Prop :=
  is_ok (Binary64.cut_size n train_ratio) = true /\
  is_ok (Binary64.cut_size n val_ratio) = true.

Definition sign_is (s : bool) (x : Binary64.float) : Prop :=
  match x with
  | SpecFloat.S754_zero s' | SpecFloat.S754_infinity s'
  | SpecFloat.S754_finite s' _ _ => s' = s
  | SpecFloat.S754_nan => True
  end.

(** Ninety patients without labels: one stratification group. *)
Definition ninety_patients : list string :=
  map (fun i => "chexpert_patient" ^^ PyStr.of_Z (Z.of_nat i)) (seq 1 90).

(** The identifier is on one of the three lists. *)
Definition allocated (r : patient_split) (pid : string) : Prop :=
  In pid (ps_train r ++ ps_val r ++ ps_test r).

(** The group gives nobody to val: [int(n * val_ratio)] is 0, and the
    train cut size can be computed. *)
Definition starved (train_ratio val_ratio : Binary64.float)
           (group : string * list string) : Prop :=
  is_ok (Binary64.cut_size (List.length (snd group)) train_ratio) = true /\
  Binary64.cut_size (List.length (snd group)) val_ratio = Ok 0%Z.

(** * Properties *)

(** ** Strings *)

Lemma prefix_spec (p s : string) :
  String.prefix p s = true <-> exists post, s = p ^^ post.
Proof.
  revert s. induction p as [|a p IH]; intros s.
  - split; [intros _; exists s; reflexivity | destruct s; reflexivity].
  - destruct s as [|b s]; simpl.
    + split; [discriminate | intros [post H]; discriminate].
    + destruct (ascii_dec a b) as [->|Hab].
      * rewrite IH. split; intros [post H]; exists post.
        -- now rewrite H.
        -- now injection H.
      * split; [discriminate | intros [post H]; injection H; congruence].
Qed.

Lemma contains_unfold (kw text : string) :
  PyStr.contains kw text =
  String.prefix kw text ||
  match text with
  | EmptyString => false
  | String _ t => PyStr.contains kw t
  end.
Proof. destruct text; reflexivity. Qed.

Lemma contains_spec (kw text : string) :
  PyStr.contains kw text = true <-> PyStr.substring_of kw text.
Proof.
  unfold PyStr.substring_of. split.
  - induction text as [|c t IH]; rewrite contains_unfold; intros H;
      apply orb_true_iff in H as [H|H].
    + apply prefix_spec in H as [post H]. now exists EmptyString, post.
    + discriminate.
    + apply prefix_spec in H as [post H]. now exists EmptyString, post.
    + destruct (IH H) as (pre & post & Ht). exists (String c pre), post.
      simpl. now rewrite Ht.
  - intros (pre & post & H). revert text H.
    induction pre as [|c pre IH]; intros text H; rewrite contains_unfold.
    + apply orb_true_iff. left. apply prefix_spec. now exists post.
    + subst text. simpl. apply orb_true_iff. right. now apply IH.
Qed.

Lemma mem_spec (x : string) (l : list string) : mem x l = true <-> In x l.
Proof.
  unfold mem. rewrite existsb_exists. split.
  - intros (y & Hy & E). apply String.eqb_eq in E. now subst.
  - intros H. exists x. split; [assumption | apply String.eqb_refl].
Qed.

Lemma mem_false (x : string) (l : list string) : mem x l = false <-> ~ In x l.
Proof.
  rewrite <- mem_spec. destruct (mem x l); split; congruence.
Qed.

(** ** Dictionaries *)

Lemma keys_dict_append {V} (k : string) (v : V) (d : dict (list V)) :
  keys (dict_append k v d) = if mem k (keys d) then keys d else keys d ++ [k].
Proof.
  induction d as [|[k' vs] d IH]; simpl; [reflexivity|].
  unfold mem in *. simpl. destruct (String.eqb k k') eqn:E; simpl.
  - reflexivity.
  - fold (keys (dict_append k v d)). rewrite IH. fold (keys d).
    now destruct (existsb (String.eqb k) (keys d)).
Qed.

Lemma NoDup_snoc {A} (l : list A) (x : A) : NoDup l -> ~ In x l -> NoDup (l ++ [x]).
Proof.
  intros Hl Hx. apply NoDup_rev in Hl. rewrite <- (rev_involutive (l ++ [x])).
  apply NoDup_rev. rewrite rev_app_distr. simpl. constructor; [|assumption].
  now rewrite <- in_rev.
Qed.

Lemma NoDup_keys_dict_append {V} (k : string) (v : V) (d : dict (list V)) :
  NoDup (keys d) -> NoDup (keys (dict_append k v d)).
Proof.
  intros H. rewrite keys_dict_append. destruct (mem k (keys d)) eqn:E; [assumption|].
  apply NoDup_snoc; [assumption | now apply mem_false].
Qed.

(** ** The monad *)

Section Loops.
Context {G : Type}.

Lemma bindM_ok {A B} (m : @M G A) (k : A -> M B) s b s' :
  bindM m k s = (Ok b, s') ->
  exists a s1, m s = (Ok a, s1) /\ k a s1 = (Ok b, s').
Proof.
  unfold bindM. destruct (m s) as [[a|e] s1]; [|discriminate].
  intros H. now exists a, s1.
Qed.

(** An invariant of the loop body is an invariant of the loop. *)
Lemma for_each_invariant {A} (P : @state G -> Prop) (body : A -> M unit) (l : list A) :
  (forall x s s', In x l -> P s -> body x s = (Ok tt, s') -> P s') ->
  forall s s', P s -> for_each l body s = (Ok tt, s') -> P s'.
Proof.
  induction l as [|x l IH]; intros Hbody s s' Hs; simpl.
  - unfold ret. intros E. injection E as <-. exact Hs.
  - intros E. apply bindM_ok in E as ([] & s1 & E1 & E2).
    apply (IH (fun y t t' Hy => Hbody y t t' (or_intror Hy)) s1 s'); [|exact E2].
    apply (Hbody x s s1); [now left | exact Hs | exact E1].
Qed.
End Loops.

(** ** Patient identifiers and grouping *)

Lemma startswith_append (p x : string) : PyStr.startswith p (p ^^ x) = true.
Proof. apply prefix_spec. now exists x. Qed.

Lemma extract_patient_id_cases (hash : string -> Z) (fname src pid : string) :
  extract_patient_id hash fname src = Ok pid ->
  (src = "CheXpert" /\ is_chexpert pid = true) \/
  (src = "Radiopaedia" /\ is_radiopaedia pid = true).
Proof.
  unfold extract_patient_id. intros H.
  destruct (String.eqb src "CheXpert") eqn:E1.
  - apply String.eqb_eq in E1. left. split; [assumption|].
    destruct (PyStr.search_digits_after "patient" fname) as [ds|];
      injection H as <-.
    + exact (startswith_append "chexpert_" ("patient" ^^ ds)).
    + exact (startswith_append "chexpert_" ("unknown_" ^^ PyStr.of_Z (hash fname))).
  - destruct (String.eqb src "Radiopaedia") eqn:E2; [|discriminate].
    apply String.eqb_eq in E2. right. split; [assumption|].
    destruct (PyStr.search_digits_after "radiopaedia_" fname) as [ds|];
      injection H as <-.
    + exact (startswith_append "radiopaedia_" ds).
    + exact (startswith_append "radiopaedia_" ("unknown_" ^^ PyStr.of_Z (hash fname))).
Qed.

Lemma extract_patient_id_raises (hash : string -> Z) (fname src : string) :
  is_ok (extract_patient_id hash fname src) = false <->
  src <> "CheXpert" /\ src <> "Radiopaedia".
Proof.
  unfold extract_patient_id.
  destruct (String.eqb src "CheXpert") eqn:E1.
  - apply String.eqb_eq in E1.
    destruct (PyStr.search_digits_after "patient" fname); simpl;
      split; try discriminate; intros [H _]; contradiction.
  - apply String.eqb_neq in E1.
    destruct (String.eqb src "Radiopaedia") eqn:E2.
    + apply String.eqb_eq in E2.
      destruct (PyStr.search_digits_after "radiopaedia_" fname); simpl;
        split; try discriminate; intros [_ H]; contradiction.
    + apply String.eqb_neq in E2. simpl. split; [now split | reflexivity].
Qed.

Lemma source_prefix_exclusive (pid : string) :
  source_prefixed pid ->
  (is_chexpert pid = true /\ is_radiopaedia pid = false) \/
  (is_chexpert pid = false /\ is_radiopaedia pid = true).
Proof.
  unfold source_prefixed, is_chexpert, is_radiopaedia, PyStr.startswith.
  intros [H|H]; [left | right]; (split; try assumption);
    apply prefix_spec in H as [post ->]; reflexivity.
Qed.

Lemma Permutation_filter_exclusive {A} (f g : A -> bool) (l : list A) :
  Forall (fun x => (f x = true /\ g x = false) \/ (f x = false /\ g x = true)) l ->
  Permutation l (filter f l ++ filter g l).
Proof.
  induction 1 as [|x l [[Hf Hg]|[Hf Hg]] _ IH]; simpl.
  - constructor.
  - rewrite Hf, Hg. simpl. now constructor.
  - rewrite Hf, Hg. now apply Permutation_cons_app.
Qed.

Lemma group_row_ok {G} (hash : string -> Z) (row : csv_row) (s s' : @state G) :
  group_row hash row s = (Ok tt, s') ->
  exists pid,
    extract_patient_id hash (filename row) (source row) = Ok pid /\
    patient_data s' = dict_append pid (List.length (heap s)) (patient_data s) /\
    heap s' = heap s ++ [mk_image row pid None] /\
    disease_labels s' = disease_labels s /\ splits s' = splits s /\
    np_random s' = np_random s /\ files s' = files s.
Proof.
  unfold group_row, bindM, lift, modify.
  destruct (extract_patient_id hash (filename row) (source row)) as [pid|e];
    [|discriminate].
  intros H. injection H as <-. exists pid. simpl. repeat split; reflexivity.
Qed.

Lemma group_by_patient_ok {G} (hash : string -> Z) (s s' : @state G) pd :
  group_by_patient hash s = (Ok pd, s') ->
  pd = patient_data s' /\
  exists t, master_df s = Some t /\ for_each (rows t) (group_row hash) s = (Ok tt, s').
Proof.
  unfold group_by_patient. unfold bindM at 1. unfold gets at 1.
  destruct (master_df s) as [t|]; [|discriminate]. intros H.
  apply bindM_ok in H as ([] & s1 & E & H). injection H as <- <-.
  split; [reflexivity | now exists t].
Qed.

Lemma group_by_patient_keys {G} (hash : string -> Z) (s s' : @state G) pd :
  Forall source_prefixed (keys (patient_data s)) ->
  NoDup (keys (patient_data s)) ->
  group_by_patient hash s = (Ok pd, s') ->
  Forall source_prefixed (keys pd) /\ NoDup (keys pd).
Proof.
  intros HP HN E. apply group_by_patient_ok in E as (-> & t & _ & E).
  revert E. apply for_each_invariant
    with (P := fun st : @state G => Forall source_prefixed (keys (patient_data st)) /\
                       NoDup (keys (patient_data st))); [|now split].
  intros row st st' _ [HP' HN'] Erow.
  apply group_row_ok in Erow as (pid & Eid & -> & _). split.
  - rewrite keys_dict_append. destruct (mem pid (keys (patient_data st))); [assumption|].
    apply Forall_app. split; [assumption|]. constructor; [|constructor].
    apply extract_patient_id_cases in Eid as [[_ H]|[_ H]]; [now left | now right].
  - now apply NoDup_keys_dict_append.
Qed.

(** ** The stratification key *)

Lemma find_first (f : string -> bool) (l : list string) (x : string) :
  find f l = Some x ->
  f x = true /\
  exists r, index_of x l = Some r /\
            forall d r', f d = true -> index_of d l = Some r' -> (r <= r')%nat.
Proof.
  induction l as [|a l IH]; simpl; [discriminate|].
  destruct (f a) eqn:Fa.
  - intros H. injection H as <-. split; [assumption|].
    exists 0%nat. rewrite String.eqb_refl. split; [reflexivity | intros; lia].
  - intros H. destruct (IH H) as (Fx & r & Hr & Hmin). split; [assumption|].
    exists (S r). destruct (String.eqb x a) eqn:E.
    + apply String.eqb_eq in E. congruence.
    + rewrite Hr. split; [reflexivity|].
      intros d r' Fd. destruct (String.eqb d a) eqn:E'.
      * apply String.eqb_eq in E'. congruence.
      * destruct (index_of d l) as [i|] eqn:Hi; [|discriminate].
        intros H'. injection H' as <-. specialize (Hmin d i Fd Hi). lia.
Qed.

Lemma find_same (f g : string -> bool) (l : list string) :
  (forall x, In x l -> f x = g x) -> find f l = find g l.
Proof.
  induction l as [|a l IH]; simpl; intros H; [reflexivity|].
  rewrite <- (H a (or_introl eq_refl)). destruct (f a); [reflexivity|].
  apply IH. intros x Hx. apply H. now right.
Qed.

Lemma stratification_key_matched (diseases : list string) :
  (exists d, In d diseases /\ In d priority_diseases) ->
  find (fun disease => mem disease diseases) priority_diseases
  = Some (stratification_key_of diseases).
Proof.
  intros (d & Hd & Hp). unfold stratification_key_of.
  destruct (find (fun disease => mem disease diseases) priority_diseases) eqn:E;
    [reflexivity|].
  apply (find_none _ _ E) in Hp. apply mem_false in Hp. contradiction.
Qed.

(** C5. The stratification key of a label set is the one tag of the set
    that comes first in the fixed priority list (ten distinct tags,
    "normal" next-to-last, "unspecified" last); the empty set gives
    "unspecified"; the key is a function of the set alone, whatever the
    order in which its tags are listed. *)
Theorem stratification_key_priority (diseases : list string) :
  let key := stratification_key_of diseases in
  (NoDup priority_diseases /\
   List.length priority_diseases = 10%nat /\
   nth_error priority_diseases 8 = Some "normal" /\
   nth_error priority_diseases 9 = Some "unspecified") /\
  ((exists d, In d diseases /\ In d priority_diseases) ->
   In key diseases /\
   exists r, rank key = Some r /\
             forall d r', In d diseases -> rank d = Some r' -> (r <= r')%nat) /\
  (diseases = [] -> key = "unspecified") /\
  (forall diseases',
      (exists d, In d diseases /\ In d priority_diseases) ->
      (forall d, In d diseases <-> In d diseases') ->
      stratification_key_of diseases' = key) /\
  (forall labels pid,
      get_stratification_key labels pid =
      match dict_get pid labels with
      | Some ds => stratification_key_of ds
      | None => "unspecified"
      end).
Proof.
  intros key. split; [|split; [|split; [|split]]].
  - split; [|repeat split].
    repeat (constructor; [simpl; intuition discriminate|]). constructor.
  - intros Hex. pose proof (stratification_key_matched _ Hex) as E.
    apply find_first in E as (Hm & r & Hr & Hmin). split.
    + now apply mem_spec.
    + exists r. split; [exact Hr|]. intros d r' Hd. apply Hmin. now apply mem_spec.
  - intros ->. reflexivity.
  - intros diseases' Hex Hsame.
    pose proof (stratification_key_matched _ Hex) as E.
    assert (Hex' : exists d, In d diseases' /\ In d priority_diseases).
    { destruct Hex as (d & Hd & Hp). exists d. split; [now apply Hsame | assumption]. }
    pose proof (stratification_key_matched _ Hex') as E'.
    rewrite (find_same _ (fun disease => mem disease diseases)) in E'.
    + fold key in E. congruence.
    + intros x _. destruct (mem x diseases) eqn:Ex.
      * apply mem_spec. apply Hsame. now apply mem_spec.
      * apply mem_false. intros Hx. apply mem_false in Ex. apply Ex. now apply Hsame.
  - intros labels pid. unfold get_stratification_key.
    now destruct (dict_get pid labels).
Qed.

(** A patient with an effusion and a pneumonia, listed in either order. *)
Lemma stratification_key_priority_witness :
  stratification_key_of ["pleural_effusion"; "pneumonia"] = "pneumonia" /\
  stratification_key_of ["pneumonia"; "pleural_effusion"] = "pneumonia" /\
  rank "pneumonia" = Some 0%nat /\
  stratification_key_of [] = "unspecified".
Proof.
  pose proof (stratification_key_priority ["pleural_effusion"; "pneumonia"])
    as (_ & Hfirst & _ & Hset & _).
  assert (Hex : exists d, In d ["pleural_effusion"; "pneumonia"] /\ In d priority_diseases).
  { exists "pneumonia". split; simpl; tauto. }
  split; [reflexivity|]. split.
  - apply Hset; [exact Hex|]. intros d. simpl. tauto.
  - split; [reflexivity|].
    exact (proj1 (proj2 (proj2 (stratification_key_priority []))) eq_refl).
Defined.

(** ** Disease labels *)

Lemma NoDup_map_filter {A B} (g : A -> B) (f : A -> bool) (l : list A) :
  NoDup (map g l) -> NoDup (map g (filter f l)).
Proof.
  induction l as [|a l IH]; simpl; intros H; [constructor|].
  inversion H as [|? ? Hnotin Hnodup]; subst.
  destruct (f a); simpl; [|now apply IH].
  constructor; [|now apply IH].
  intros Hin. apply Hnotin. apply in_map_iff in Hin as (x & Hx & Hf).
  apply filter_In in Hf as [Hf _]. apply in_map_iff. now exists x.
Qed.

Lemma matched_tags_spec (text tag : string) :
  In tag (map fst
            (filter (fun entry => existsb (fun keyword => PyStr.contains keyword text)
                                          (snd entry))
                    disease_keywords))
  <-> keyword_match text tag.
Proof.
  unfold keyword_match. rewrite in_map_iff. split.
  - intros ([t kws] & Ht & Hf). simpl in Ht. subst t.
    apply filter_In in Hf as [Hin Hex]. simpl in Hex.
    apply existsb_exists in Hex as (kw & Hkw & Hc).
    exists kws, kw. repeat split; try assumption. now apply contains_spec.
  - intros (kws & kw & Hin & Hkw & Hsub). exists (tag, kws). split; [reflexivity|].
    apply filter_In. split; [assumption|]. simpl.
    apply existsb_exists. exists kw. split; [assumption | now apply contains_spec].
Qed.

(** Every label the extractor returns is ranked by the priority list. *)
Lemma extracted_labels_ranked (read_caption : string -> option string) (path : string) :
  Forall (fun tag => In tag priority_diseases)
         (extract_diseases_from_caption read_caption path).
Proof.
  unfold extract_diseases_from_caption.
  destruct (read_caption path) as [raw|]; [|repeat constructor; simpl; tauto].
  assert (H : Forall (fun tag => In tag priority_diseases)
                (map fst (filter (fun entry => existsb (fun keyword =>
                                    PyStr.contains keyword (PyStr.lower raw)) (snd entry))
                                 disease_keywords))).
  { apply Forall_forall. intros tag Hin. apply in_map_iff in Hin as (e & <- & He).
    apply filter_In in He as [He _]. simpl in He.
    repeat (destruct He as [<-|He]; [simpl; tauto|]). contradiction. }
  destruct (map fst _); [repeat constructor; simpl; tauto | exact H].
Qed.

(** C4. On a readable caption the extractor returns, without
    repetition, exactly the taxonomy tags one of whose keyword phrases
    occurs in the lower-cased text, and the single sentinel "unspecified"
    when there is none; on an unreadable caption it returns the sentinel
    (it returns a list in every case: nothing is raised to the caller). *)
Theorem extract_diseases_from_caption_spec
        (read_caption : string -> option string) (path : string) :
  let result := extract_diseases_from_caption read_caption path in
  (read_caption path = None -> result = ["unspecified"]) /\
  (forall raw, read_caption path = Some raw ->
     ((exists tag, keyword_match (PyStr.lower raw) tag) ->
      NoDup result /\
      forall tag, In tag result <-> keyword_match (PyStr.lower raw) tag) /\
     ((forall tag, ~ keyword_match (PyStr.lower raw) tag) ->
      result = ["unspecified"])).
Proof.
  unfold extract_diseases_from_caption. split.
  - intros ->. reflexivity.
  - intros raw ->.
    pose proof (matched_tags_spec (PyStr.lower raw)) as Hspec.
    assert (Hnd : NoDup (map fst
              (filter (fun entry => existsb (fun keyword =>
                                      PyStr.contains keyword (PyStr.lower raw))
                                            (snd entry))
                      disease_keywords))).
    { apply NoDup_map_filter.
      repeat (constructor; [simpl; intuition discriminate|]). constructor. }
    destruct (map fst (filter _ disease_keywords)) as [|d ds] eqn:E.
    + split; [|reflexivity]. intros (tag & Htag). apply Hspec in Htag. contradiction.
    + split; [now split|]. intros Hnone. destruct (Hnone d). apply Hspec. now left.
Qed.

(** A caption with a mixed-case keyword, one without any keyword, and a
    missing one. *)
Lemma extract_diseases_from_caption_spec_witness :
  extract_diseases_from_caption Demo.some_captions "captions/patient00001_view1.jpg.txt"
  = ["pneumonia"; "pleural_effusion"] /\
  (forall tag,
      In tag ["pneumonia"; "pleural_effusion"] <->
      keyword_match
        (PyStr.lower "Right lower lobe Consolidation with small pleural effusion.") tag) /\
  extract_diseases_from_caption Demo.some_captions "captions/missing.txt"
  = ["unspecified"].
Proof.
  split; [reflexivity|]. split.
  - destruct (extract_diseases_from_caption_spec Demo.some_captions
                "captions/patient00001_view1.jpg.txt") as [_ H].
    destruct (H _ eq_refl) as [Hsome _].
    apply Hsome. exists "pneumonia". apply matched_tags_spec. vm_compute. tauto.
  - apply (proj1 (extract_diseases_from_caption_spec Demo.some_captions
                    "captions/missing.txt")).
    reflexivity.
Defined.

(** ** Slices and cut points *)

Lemma firstn_min_length {A} (k : nat) (l : list A) :
  firstn (Nat.min (List.length l) k) l = firstn k l.
Proof.
  destruct (Nat.le_ge_cases k (List.length l)) as [H|H].
  - now rewrite Nat.min_r.
  - rewrite Nat.min_l by assumption. rewrite firstn_all. symmetry. now apply firstn_all2.
Qed.

Lemma skipn_min_length {A} (k : nat) (l : list A) :
  skipn (Nat.min (List.length l) k) l = skipn k l.
Proof.
  destruct (Nat.le_ge_cases k (List.length l)) as [H|H].
  - now rewrite Nat.min_r.
  - rewrite Nat.min_l by assumption. rewrite skipn_all. symmetry. now apply skipn_all2.
Qed.

Lemma slice_index_nonneg (n : nat) (i : Z) :
  (0 <= i)%Z -> slice_index n i = Nat.min n (Z.to_nat i).
Proof.
  intros H. unfold slice_index. destruct (Z.ltb_spec i 0); [lia | reflexivity].
Qed.

Lemma slice_head {A} (a : Z) (l : list A) :
  (0 <= a)%Z -> slice None (Some a) l = firstn (Z.to_nat a) l.
Proof.
  intros H. unfold slice. rewrite slice_index_nonneg by assumption.
  rewrite Nat.sub_0_r. simpl. apply firstn_min_length.
Qed.

Lemma slice_tail {A} (c : Z) (l : list A) :
  (0 <= c)%Z -> slice (Some c) None l = skipn (Z.to_nat c) l.
Proof.
  intros H. unfold slice. rewrite slice_index_nonneg by assumption.
  rewrite skipn_min_length. apply firstn_all2. rewrite length_skipn. lia.
Qed.

Lemma slice_middle {A} (a b : Z) (l : list A) :
  (0 <= a)%Z -> (0 <= b)%Z ->
  slice (Some a) (Some (a + b)%Z) l = firstn (Z.to_nat b) (skipn (Z.to_nat a) l).
Proof.
  intros Ha Hb. unfold slice. rewrite !slice_index_nonneg by lia.
  rewrite skipn_min_length.
  rewrite <- (firstn_min_length (Z.to_nat b)). rewrite length_skipn.
  f_equal. lia.
Qed.

Lemma py_int_nonneg (x : Q) : (0 <= x)%Q -> py_int x = Qfloor x /\ (0 <= py_int x)%Z.
Proof.
  destruct x as [n d]. unfold Qle, py_int, Qfloor. simpl. intros H.
  assert (0 <= n)%Z by lia. split.
  - apply Z.quot_div_nonneg; lia.
  - apply Z.quot_pos; lia.
Qed.

Lemma scaled_ratio_nonneg (n : nat) (ratio : Q) :
  (0 <= ratio)%Q -> (0 <= inject_Z (Z.of_nat n) * ratio)%Q.
Proof.
  intros H. apply Qmult_le_0_compat; [|assumption].
  unfold Qle. simpl. lia.
Qed.

(** The three slices of a group, for non-negative ratios. *)
Lemma cut_group_firstn_skipn (train_ratio val_ratio : Q) (n : nat) (l : list string) :
  (0 <= train_ratio)%Q -> (0 <= val_ratio)%Q ->
  let n_train := Z.to_nat (Qfloor (inject_Z (Z.of_nat n) * train_ratio)) in
  let n_val := Z.to_nat (Qfloor (inject_Z (Z.of_nat n) * val_ratio)) in
  cut_group train_ratio val_ratio n l =
  mk_patient_split (firstn n_train l)
                   (firstn n_val (skipn n_train l))
                   (skipn (n_train + n_val) l).
Proof.
  intros Ht Hv n_train n_val. unfold cut_group.
  destruct (py_int_nonneg _ (scaled_ratio_nonneg n _ Ht)) as [Et Pt].
  destruct (py_int_nonneg _ (scaled_ratio_nonneg n _ Hv)) as [Ev Pv].
  rewrite slice_head, slice_middle, slice_tail by lia.
  rewrite Z2Nat.inj_add by lia. rewrite Et, Ev. reflexivity.
Qed.

(** With non-negative ratios that leave room for test, the two cut
    sizes fit in the group. *)
Lemma floor_cuts_fit (n : nat) (train_ratio val_ratio : Q) :
  (0 <= train_ratio)%Q -> (0 <= val_ratio)%Q -> (train_ratio + val_ratio <= 1)%Q ->
  (Z.to_nat (Qfloor (inject_Z (Z.of_nat n) * train_ratio)) +
   Z.to_nat (Qfloor (inject_Z (Z.of_nat n) * val_ratio)) <= n)%nat.
Proof.
  intros Ht Hv Hs. set (N := inject_Z (Z.of_nat n)).
  assert (HN : (0 <= N)%Q) by (unfold N, Qle; simpl; lia).
  assert (H : (inject_Z (Qfloor (N * train_ratio) + Qfloor (N * val_ratio)) <= N)%Q).
  { rewrite inject_Z_plus.
    apply Qle_trans with (N * train_ratio + N * val_ratio)%Q.
    - apply Qplus_le_compat; apply Qfloor_le.
    - rewrite <- Qmult_plus_distr_r.
      rewrite <- (Qmult_1_r N) at 2. rewrite !(Qmult_comm N).
      now apply Qmult_le_compat_r. }
  subst N. rewrite <- Zle_Qle in H.
  destruct (py_int_nonneg _ (scaled_ratio_nonneg n _ Ht)) as [Et Pt].
  destruct (py_int_nonneg _ (scaled_ratio_nonneg n _ Hv)) as [Ev Pv].
  rewrite Et in Pt. rewrite Ev in Pv. lia.
Qed.

Lemma firstn_skipn_three {A} (a b : nat) (l : list A) :
  firstn a l ++ firstn b (skipn a l) ++ skipn (a + b) l = l.
Proof.
  rewrite <- (firstn_skipn a l) at 4. f_equal.
  rewrite <- (firstn_skipn b (skipn a l)) at 2. f_equal.
  rewrite skipn_skipn. f_equal. lia.
Qed.

(** ** Grouping by label *)

Lemma concat_dict_append (k v : string) (d : dict (list string)) :
  Permutation (List.concat (map snd (dict_append k v d))) (v :: List.concat (map snd d)).
Proof.
  induction d as [|[k' vs] d IH]; simpl; [reflexivity|].
  destruct (String.eqb k k'); simpl.
  - rewrite <- app_assoc. simpl. symmetry. apply Permutation_middle.
  - rewrite IH. symmetry. apply Permutation_middle.
Qed.

Lemma group_by_label_members (labels : dict (list string)) (patient_ids : list string) :
  Permutation (List.concat (map snd (group_by_label labels patient_ids))) patient_ids.
Proof.
  unfold group_by_label.
  assert (Hgen : forall init,
    Permutation
      (List.concat (map snd
         (fold_left (fun groups pid =>
                       dict_append (get_stratification_key labels pid) pid groups)
                    patient_ids init)))
      (List.concat (map snd init) ++ patient_ids)).
  { induction patient_ids as [|pid pids IH]; intros init; simpl.
    - now rewrite app_nil_r.
    - rewrite IH, concat_dict_append. simpl. apply Permutation_middle. }
  apply (Hgen []).
Qed.

Lemma Permutation_three_way {A} (t v te x y z : list A) :
  Permutation ((t ++ x) ++ (v ++ y) ++ te ++ z) ((t ++ v ++ te) ++ x ++ y ++ z).
Proof.
  rewrite <- !app_assoc. apply Permutation_app_head.
  rewrite Permutation_app_swap_app. apply Permutation_app_head.
  rewrite (app_assoc x y). rewrite Permutation_app_swap_app.
  apply Permutation_app_head. now rewrite <- app_assoc.
Qed.

Lemma NoDup_app_disjoint {A} (l1 l2 : list A) :
  NoDup (l1 ++ l2) -> forall x, In x l1 -> ~ In x l2.
Proof.
  induction l1 as [|a l1 IH]; simpl; intros H x; [contradiction|].
  inversion H as [|? ? Hnotin Hnd]; subst. intros [<-|Hx] Hx2.
  - apply Hnotin. apply in_or_app. now right.
  - now apply (IH Hnd x).
Qed.

Lemma partitions_of_permutation (all train val test : list string) :
  NoDup all -> Permutation all (train ++ val ++ test) ->
  partitions all train val test.
Proof.
  intros Hnd Hperm.
  assert (H : NoDup (train ++ val ++ test)) by (now apply (Permutation_NoDup Hperm)).
  pose proof (NoDup_app_remove_l _ _ H) as Hvt.
  pose proof (NoDup_app_disjoint _ _ H) as Hdis.
  unfold partitions. repeat split.
  - intros x Hx Hv. apply (Hdis x Hx). apply in_or_app. now left.
  - intros x Hx Ht. apply (Hdis x Hx). apply in_or_app. now right.
  - intros x Hx Ht. now apply (NoDup_app_disjoint _ _ Hvt x Hx).
  - now apply NoDup_app_remove_r in H.
  - now apply NoDup_app_remove_r in Hvt.
  - now apply NoDup_app_remove_l in Hvt.
  - intros Hx. apply (Permutation_in _ Hperm) in Hx.
    apply in_app_or in Hx as [Hx|Hx]; [now left|].
    apply in_app_or in Hx as [Hx|Hx]; [right; now left | right; now right].
  - intros Hx. apply (Permutation_in _ (Permutation_sym Hperm)).
    destruct Hx as [Hx|[Hx|Hx]]; apply in_or_app;
      [now left | right; apply in_or_app; now left | right; apply in_or_app; now right].
Qed.

(** ** The allocator *)

Section Allocator.
Context {G : Type}.
Variable np_shuffle : G -> list string -> list string * G.

(** What is assumed of [np.random.shuffle]: it permutes its argument. *)
Hypothesis shuffle_permutes : forall g l, Permutation l (fst (np_shuffle g l)).

Lemma split_groups_cons (train_ratio val_ratio : Q) label patients rest g acc :
  split_groups np_shuffle train_ratio val_ratio ((label, patients) :: rest) g acc =
  split_groups np_shuffle train_ratio val_ratio rest (snd (np_shuffle g patients))
    (mk_patient_split
       (ps_train acc ++ ps_train (cut_group train_ratio val_ratio (List.length patients)
                                            (fst (np_shuffle g patients))))
       (ps_val acc ++ ps_val (cut_group train_ratio val_ratio (List.length patients)
                                        (fst (np_shuffle g patients))))
       (ps_test acc ++ ps_test (cut_group train_ratio val_ratio (List.length patients)
                                          (fst (np_shuffle g patients))))).
Proof. simpl. now destruct (np_shuffle g patients). Qed.

Lemma split_groups_members (train_ratio val_ratio : Q) :
  (0 <= train_ratio)%Q -> (0 <= val_ratio)%Q ->
  forall groups g acc,
    let r := fst (split_groups np_shuffle train_ratio val_ratio groups g acc) in
    Permutation (ps_train r ++ ps_val r ++ ps_test r)
                ((ps_train acc ++ ps_val acc ++ ps_test acc)
                 ++ List.concat (map snd groups)).
Proof.
  intros Ht Hv. induction groups as [|[label patients] rest IH]; intros g acc.
  - simpl. now rewrite app_nil_r.
  - cbv zeta. rewrite split_groups_cons. cbv zeta in IH. rewrite IH.
    rewrite cut_group_firstn_skipn by assumption.
    cbn [ps_train ps_val ps_test map snd List.concat].
    set (sh := fst (np_shuffle g patients)).
    set (a := Z.to_nat _). set (b := Z.to_nat _).
    rewrite (app_assoc _ patients).
    apply Permutation_app_tail.
    transitivity ((ps_train acc ++ ps_val acc ++ ps_test acc) ++ sh);
      [|apply Permutation_app_head; symmetry; apply shuffle_permutes].
    rewrite <- (firstn_skipn_three a b sh) at 4.
    apply Permutation_three_way.
Qed.

(** The allocator on accepted, non-negative ratios: it returns, and its
    three lists are a rearrangement of the identifiers it was given. *)
Lemma stratified_split_patients_members patient_ids train_ratio val_ratio test_ratio
      (s : @state G) :
  ratios_ok train_ratio val_ratio test_ratio = true ->
  (0 <= train_ratio)%Q -> (0 <= val_ratio)%Q ->
  exists r g',
    stratified_split_patients np_shuffle patient_ids train_ratio val_ratio test_ratio s
    = (Ok r, with_np_random g' s) /\
    Permutation patient_ids (ps_train r ++ ps_val r ++ ps_test r).
Proof.
  intros Hok Ht Hv. unfold stratified_split_patients. rewrite Hok.
  pose proof (split_groups_members train_ratio val_ratio Ht Hv
                (group_by_label (disease_labels s) patient_ids) (np_random s)
                (mk_patient_split [] [] [])) as Hperm.
  destruct (split_groups np_shuffle train_ratio val_ratio _ _ _) as [r g'].
  exists r, g'. split; [reflexivity|].
  simpl in Hperm. rewrite Hperm. symmetry. apply group_by_label_members.
Qed.

Lemma create_splits_patients train_ratio val_ratio test_ratio (s : @state G) :
  ratios_ok train_ratio val_ratio test_ratio = true ->
  (0 <= train_ratio)%Q -> (0 <= val_ratio)%Q ->
  exists c r sp s',
    Permutation (filter is_chexpert (keys (patient_data s)))
                (ps_train c ++ ps_val c ++ ps_test c) /\
    Permutation (filter is_radiopaedia (keys (patient_data s)))
                (ps_train r ++ ps_val r ++ ps_test r) /\
    create_splits np_shuffle train_ratio val_ratio test_ratio s = (Ok sp, s') /\
    splits s' = Some sp /\ patient_data s' = patient_data s /\
    train_patients sp = ps_train c ++ ps_train r /\
    val_patients sp = ps_val c ++ ps_val r /\
    test_patients sp = ps_test c ++ ps_test r.
Proof.
  intros Hok Ht Hv.
  destruct (stratified_split_patients_members
              (filter is_chexpert (keys (patient_data s)))
              train_ratio val_ratio test_ratio s Hok Ht Hv) as (c & g1 & Ec & Pc).
  destruct (stratified_split_patients_members
              (filter is_radiopaedia (keys (patient_data s)))
              train_ratio val_ratio test_ratio (with_np_random g1 s) Hok Ht Hv)
    as (r & g2 & Er & Pr).
  exists c, r. unfold create_splits.
  unfold bindM at 1. unfold gets at 1.
  unfold bindM at 1. rewrite Ec.
  unfold bindM at 1. cbn [patient_data with_np_random] in Er. rewrite Er.
  unfold bindM, patients_to_dataframe, modify, ret. cbn.
  eexists. eexists. repeat split; try reflexivity; assumption.
Qed.

(** C1, for ratio triples whose train and val ratios are not negative.
    On a list of identifiers without duplicates and ratios accepted by
    the entry check, the allocator returns three lists that are pairwise
    disjoint and hold every input identifier exactly once; and for the
    patient groups that [group_by_patient] produced, [create_splits]
    returns patient lists with the same two properties with respect to
    the set of all patients. *)
Theorem stratified_split_partitions (train_ratio val_ratio test_ratio : Q) :
  ratios_ok train_ratio val_ratio test_ratio = true ->
  (0 <= train_ratio)%Q -> (0 <= val_ratio)%Q ->
  (forall patient_ids (s : @state G),
      NoDup patient_ids ->
      exists r s',
        stratified_split_patients np_shuffle patient_ids
                                  train_ratio val_ratio test_ratio s = (Ok r, s') /\
        partitions patient_ids (ps_train r) (ps_val r) (ps_test r)) /\
  (forall hash (s0 s1 s : @state G) patient_groups,
      patient_data s0 = [] ->
      group_by_patient hash s0 = (Ok patient_groups, s1) ->
      patient_data s = patient_groups ->
      exists sp s',
        create_splits np_shuffle train_ratio val_ratio test_ratio s = (Ok sp, s') /\
        splits s' = Some sp /\
        partitions (keys (patient_data s))
                   (train_patients sp) (val_patients sp) (test_patients sp)).
Proof.
  intros Hok Ht Hv. split.
  - intros patient_ids s Hnd.
    destruct (stratified_split_patients_members patient_ids
                train_ratio val_ratio test_ratio s Hok Ht Hv) as (r & g' & E & P).
    exists r, (with_np_random g' s). split; [exact E|].
    now apply partitions_of_permutation.
  - intros hash s0 s1 s pd Hempty Egroup Hsame.
    destruct (group_by_patient_keys hash s0 s1 pd) as [Hpre Hnd]; try assumption;
      try (rewrite Hempty; constructor).
    rewrite <- Hsame in Hpre, Hnd.
    destruct (create_splits_patients train_ratio val_ratio test_ratio s Hok Ht Hv)
      as (c & r & sp & s' & Pc & Pr & E & Hsp & _ & Etr & Eva & Ete).
    exists sp, s'. split; [exact E|]. split; [exact Hsp|].
    apply partitions_of_permutation; [exact Hnd|].
    rewrite Etr, Eva, Ete.
    rewrite Permutation_three_way, <- Pc, <- Pr.
    apply Permutation_filter_exclusive.
    eapply Forall_impl; [|exact Hpre]. apply source_prefix_exclusive.
Qed.
End Allocator.

(** ** The concrete shuffle permutes *)

Lemma pick_permutes {A} (i : nat) (l : list A) (x : A) (r : list A) :
  Demo.pick i l = Some (x, r) -> Permutation l (x :: r).
Proof.
  revert i x r. induction l as [|a l IH]; intros [|j] x r; simpl; try discriminate.
  - intros H. injection H as <- <-. reflexivity.
  - destruct (Demo.pick j l) as [[y r']|] eqn:E; [|discriminate].
    intros H. injection H as <- <-.
    rewrite (IH _ _ _ E). apply perm_swap.
Qed.

Lemma demo_shuffle_aux_permutes (fuel : nat) :
  forall g l, Permutation l (fst (Demo.shuffle_aux fuel g l)).
Proof.
  induction fuel as [|fuel IH]; intros g l; simpl; [reflexivity|].
  destruct (Demo.pick _ l) as [[x r]|] eqn:E; [|reflexivity].
  specialize (IH (Demo.lcg g) r).
  destruct (Demo.shuffle_aux fuel (Demo.lcg g) r) as [t g'']. simpl in *.
  rewrite (pick_permutes _ _ _ _ E). now constructor.
Qed.

Lemma demo_shuffle_permutes :
  forall g l, Permutation l (fst (Demo.shuffle g l)).
Proof. intros g l. apply demo_shuffle_aux_permutes. Qed.

(** ** The allocator on concrete inputs *)

(** The default ratios on the inventory with two sources. *)
Lemma stratified_split_partitions_witness :
  let s := Demo.prepared Demo.mixed Demo.no_captions in
  exists sp s',
    create_splits Demo.shuffle 0.8 0.1 0.1 s = (Ok sp, s') /\
    splits s' = Some sp /\
    partitions (keys (patient_data s))
               (train_patients sp) (val_patients sp) (test_patients sp).
Proof.
  intros s.
  assert (Hok : ratios_ok 0.8 0.1 0.1 = true) by reflexivity.
  assert (Ht : (0 <= 0.8)%Q) by (unfold Qle; simpl; lia).
  assert (Hv : (0 <= 0.1)%Q) by (unfold Qle; simpl; lia).
  apply (proj2 (stratified_split_partitions Demo.shuffle demo_shuffle_permutes
                  0.8 0.1 0.1 Hok Ht Hv)
               Demo.hash0
               (with_master_df (Some Demo.mixed)
                               (init Demo.seed "metadata/master_index.csv" 42))
               (snd (group_by_patient Demo.hash0
                       (with_master_df (Some Demo.mixed)
                          (init Demo.seed "metadata/master_index.csv" 42))))
               s (patient_data s)).
  - reflexivity.
  - vm_compute. reflexivity.
  - vm_compute. reflexivity.
Defined.

(** C1 as stated fails: the ratios -0.5, 0.5, 1.0 pass the entry check
    (they sum to 1.0), the cut points are -2 and 0, and the slices
    [patients[:-2]] and [patients[0:]] overlap: two patients are in both
    train and test. *)
Lemma stratified_split_negative_ratio_overlap :
  let patient_ids := ["chexpert_patient00001"; "chexpert_patient00002";
                      "chexpert_patient00003"; "chexpert_patient00004"] in
  let s := Demo.prepared Demo.four_chexpert Demo.no_captions in
  NoDup patient_ids /\
  ratios_ok (-0.5) 0.5 1.0 = true /\
  exists r s',
    stratified_split_patients Demo.shuffle patient_ids (-0.5) 0.5 1.0 s = (Ok r, s') /\
    List.length (ps_train r) = 2%nat /\ ps_val r = [] /\
    Permutation patient_ids (ps_test r) /\
    (forall x, In x (ps_train r) -> In x (ps_test r)) /\
    ~ partitions patient_ids (ps_train r) (ps_val r) (ps_test r).
Proof.
  intros patient_ids s. split; [|split; [reflexivity|]].
  - repeat (constructor; [simpl; intuition discriminate|]). constructor.
  - eexists. eexists. split; [vm_compute; reflexivity|].
    split; [reflexivity|]. split; [reflexivity|]. split; [|split].
    + apply (demo_shuffle_permutes 42%N patient_ids).
    + simpl. tauto.
    + intros (_ & Hdis & _). apply (Hdis "chexpert_patient00004"); simpl; tauto.
Defined.

(** ** The validator *)

Lemma Qltb_spec (x y : Q) : Qltb x y = true <-> (x < y)%Q.
Proof. unfold Qltb, Qlt. apply Z.ltb_lt. Qed.

Lemma two_values_length (a b : string) (l : list string) :
  a <> b -> Forall (fun x => x = a \/ x = b) l ->
  (List.length (py_set l) = 2%nat <-> In a l /\ In b l).
Proof.
  intros Hab Hall. unfold py_set.
  assert (Hnd : NoDup (nodup string_dec l)) by apply NoDup_nodup.
  assert (Hin : forall x, In x (nodup string_dec l) -> x = a \/ x = b).
  { intros x Hx. apply nodup_In in Hx. rewrite Forall_forall in Hall. now apply Hall. }
  split.
  - intros Hlen.
    destruct (nodup string_dec l) as [|x [|y [|z u]]] eqn:E; try discriminate.
    assert (Hx : In x l) by (apply (nodup_In string_dec); rewrite E; now left).
    assert (Hy : In y l) by (apply (nodup_In string_dec); rewrite E; right; now left).
    inversion Hnd as [|? ? Hnotin _]; subst.
    destruct (Hin x (or_introl eq_refl)) as [->| ->];
      destruct (Hin y (or_intror (or_introl eq_refl))) as [->| ->];
      try (exfalso; apply Hnotin; now left); now split.
  - intros [Ha Hb]. apply Nat.le_antisymm.
    + apply (NoDup_incl_length (l' := [a; b]) Hnd).
      intros x Hx. destruct (Hin x Hx) as [->| ->]; simpl; tauto.
    + apply (NoDup_incl_length (l := [a; b])).
      * constructor; [simpl; intuition congruence|]. constructor; [simpl; tauto | constructor].
      * intros x [<-|[<-|[]]]; now apply nodup_In.
Qed.

Lemma column_ok {A} (col : string) (f : image -> A) (df : dataframe) (l : list A) :
  column col f df = Ok l -> l = map f df /\ df <> [].
Proof.
  unfold column. destruct df; [discriminate|].
  intros H. injection H as <-. split; [reflexivity | discriminate].
Qed.

Lemma has_both_sources_ok (df : dataframe) (b : bool) :
  has_both_sources df = Ok b ->
  b = (List.length (py_set (map (fun im => source (img_row im)) df)) =? 2)%nat.
Proof.
  unfold has_both_sources.
  destruct (column "source" (fun im => source (img_row im)) df) as [l|e] eqn:E;
    [|discriminate].
  apply column_ok in E as [-> _]. cbn [bind]. intros H. now injection H.
Qed.

Lemma has_both_sources_spec (df : dataframe) (b : bool) :
  has_both_sources df = Ok b ->
  Forall recognized df ->
  (b = true <-> holds_source "CheXpert" df /\ holds_source "Radiopaedia" df).
Proof.
  intros H Hrec. apply has_both_sources_ok in H. subst b.
  rewrite Nat.eqb_eq.
  rewrite (two_values_length "CheXpert" "Radiopaedia"); [|discriminate|].
  - unfold holds_source. rewrite !in_map_iff.
    split; intros [(x & Hx & Hin) (y & Hy & Hin')]; split;
      first [now exists x | now exists y].
  - rewrite Forall_map. exact Hrec.
Qed.

(** The report of a validation that returns. *)
Lemma validation_report_ok (pd : dict (list nat)) (sp : splits_t) (report : dict bool) :
  validation_report pd sp = Ok report ->
  exists no_overlap assigned train_both val_both test_both,
    has_both_sources (train sp) = Ok train_both /\
    has_both_sources (val sp) = Ok val_both /\
    has_both_sources (test sp) = Ok test_both /\
    let ratio_ok :=
      Qltb (Qabs (patient_fraction sp (train_patients sp) - 0.80)) 0.05 &&
      Qltb (Qabs (patient_fraction sp (val_patients sp) - 0.10)) 0.05 &&
      Qltb (Qabs (patient_fraction sp (test_patients sp) - 0.10)) 0.05 in
    report =
    [ ("no_patient_overlap", no_overlap);
      ("ratio_validation", ratio_ok);
      ("train_has_both_sources", train_both);
      ("val_has_both_sources", val_both);
      ("test_has_both_sources", test_both);
      ("all_patients_assigned", assigned);
      ("overall_valid",
       no_overlap && (ratio_ok && (train_both && (val_both &&
         (test_both && (assigned && true)))))) ].
Proof.
  unfold validation_report.
  destruct (_ =? 0)%nat; [discriminate|].
  destruct (has_both_sources (train sp)) as [tb|]; [|discriminate].
  destruct (has_both_sources (val sp)) as [vb|]; [|discriminate].
  destruct (has_both_sources (test sp)) as [teb|]; [|discriminate].
  cbn [bind]. intros H. injection H as <-.
  eexists. eexists. exists tb, vb, teb. repeat split.
Qed.

(** C8, as the code has it. Whatever sources the inventory holds, the
    source check of a split passes exactly when the split has images of
    two distinct sources, that is an image from CheXpert and an image
    from Radiopaedia; and a failed source check makes the overall verdict
    fail. *)
Theorem source_check_needs_both_sources
        (pd : dict (list nat)) (sp : splits_t) (report : dict bool) :
  validation_report pd sp = Ok report ->
  Forall recognized (train sp ++ val sp ++ test sp) ->
  forall name df,
    In (name, df) [("train", train sp); ("val", val sp); ("test", test sp)] ->
    exists b,
      dict_get (name ^^ "_has_both_sources") report = Some b /\
      (b = true <-> holds_source "CheXpert" df /\ holds_source "Radiopaedia" df) /\
      (b = false -> dict_get "overall_valid" report = Some false).
Proof.
  intros Hrep Hrec name df Hin.
  apply validation_report_ok in Hrep
    as (no & asg & tb & vb & teb & Etr & Eva & Ete & ->).
  apply Forall_app in Hrec as [Rtr Hrec]. apply Forall_app in Hrec as [Rva Rte].
  destruct Hin as [H|[H|[H|[]]]]; injection H as <- <-.
  - exists tb. split; [reflexivity|]. split; [now apply has_both_sources_spec|].
    intros ->. cbn. now rewrite !andb_false_r.
  - exists vb. split; [reflexivity|]. split; [now apply has_both_sources_spec|].
    intros ->. cbn. now rewrite !andb_false_r.
  - exists teb. split; [reflexivity|]. split; [now apply has_both_sources_spec|].
    intros ->. cbn. now rewrite !andb_false_r.
Qed.

(** Both sources in every split. *)
Lemma source_check_needs_both_sources_witness :
  exists sp s1 report,
    Demo.split_of Demo.mixed 0.5 0.25 0.25 = (Ok sp, s1) /\
    validate_splits s1 = (Ok report, s1) /\
    exists b,
      dict_get "train_has_both_sources" report = Some b /\
      (b = true <->
       holds_source "CheXpert" (train sp) /\ holds_source "Radiopaedia" (train sp)) /\
      (b = false -> dict_get "overall_valid" report = Some false).
Proof.
  eexists. eexists. eexists.
  split; [vm_compute; reflexivity|]. split; [vm_compute; reflexivity|].
  eapply (source_check_needs_both_sources _ _ _ _ _ "train").
  - left. reflexivity.
  Unshelve.
  + exact (patient_data (snd (Demo.split_of Demo.mixed 0.5 0.25 0.25))).
  + vm_compute. reflexivity.
  + repeat (constructor; [first [now left | now right]|]). constructor.
Defined.

(** C8 as stated fails. The inventory holds CheXpert patients only and
    every split has at least one of them, so each split covers every
    source present in the inventory; the three source checks fail all
    the same, and they alone (every other check passes) make the overall
    verdict fail. *)
Lemma source_check_fails_on_single_source_inventory :
  exists sp s1 report,
    Demo.split_of Demo.ten_chexpert 0.8 0.1 0.1 = (Ok sp, s1) /\
    validate_splits s1 = (Ok report, s1) /\
    (forall src, In src (map source (rows Demo.ten_chexpert)) ->
                 holds_source src (train sp) /\ holds_source src (val sp) /\
                 holds_source src (test sp)) /\
    report = [ ("no_patient_overlap", true); ("ratio_validation", true);
               ("train_has_both_sources", false); ("val_has_both_sources", false);
               ("test_has_both_sources", false); ("all_patients_assigned", true);
               ("overall_valid", false) ].
Proof.
  eexists. eexists. eexists.
  split; [vm_compute; reflexivity|]. split; [vm_compute; reflexivity|].
  split; [|reflexivity].
  intros src Hsrc.
  assert (E : src = "CheXpert") by (simpl in Hsrc; intuition congruence).
  subst src. unfold holds_source.
  split; [|split]; eexists; (split; [left; reflexivity | reflexivity]).
Defined.

(** The ratio check of a validation that returns passes exactly when the
    three patient fractions are within 0.05 of 0.80, 0.10 and 0.10. *)
Lemma ratio_validation_spec (pd : dict (list nat)) (sp : splits_t) (report : dict bool) :
  validation_report pd sp = Ok report ->
  exists b,
    dict_get "ratio_validation" report = Some b /\
    (b = true <->
     (Qabs (patient_fraction sp (train_patients sp) - 0.80) < 0.05)%Q /\
     (Qabs (patient_fraction sp (val_patients sp) - 0.10) < 0.05)%Q /\
     (Qabs (patient_fraction sp (test_patients sp) - 0.10) < 0.05)%Q).
Proof.
  intros Hrep.
  apply validation_report_ok in Hrep as (no & asg & tb & vb & teb & _ & _ & _ & ->).
  eexists. split; [reflexivity|].
  rewrite !andb_true_iff, !Qltb_spec. tauto.
Qed.

(** C7: the code compares with 0.80, 0.10 and 0.10 whatever ratios the
    split was made with. A split made with 0.5, 0.25, 0.25 has exactly
    these patient fractions (2, 1 and 1 patients of 4), each at distance
    0 from its target, and the ratio check fails on it. *)
Theorem ratio_validation_uses_fixed_targets :
  exists sp s1 report,
    Demo.split_of Demo.four_chexpert 0.5 0.25 0.25 = (Ok sp, s1) /\
    (patient_fraction sp (train_patients sp) == 0.5)%Q /\
    (patient_fraction sp (val_patients sp) == 0.25)%Q /\
    (patient_fraction sp (test_patients sp) == 0.25)%Q /\
    validate_splits s1 = (Ok report, s1) /\
    dict_get "ratio_validation" report = Some false.
Proof.
  eexists. eexists. eexists.
  split; [vm_compute; reflexivity|].
  split; [reflexivity|]. split; [reflexivity|]. split; [reflexivity|].
  split; [vm_compute; reflexivity | reflexivity].
Qed.

(** ** What [create_splits] and the validator change *)

Lemma stamp_stamped (name : string) (h0 : list image) :
  In (Some name) [Some "train"; Some "val"; Some "test"] ->
  forall h, Forall2 stamped_from h0 h ->
  forall addr, Forall2 stamped_from h0 (stamp name addr h).
Proof.
  intros Hname h H. induction H as [|im0 im l0 l Him Hl IH]; intros addr.
  - destruct addr; constructor.
  - destruct addr as [|a]; simpl.
    + constructor; [|assumption].
      destruct Him as (Hr & Hp & _). repeat split; simpl; try assumption. now right.
    + constructor; [assumption | apply IH].
Qed.

Lemma fold_stamp_stamped (name : string) (h0 : list image) :
  In (Some name) [Some "train"; Some "val"; Some "test"] ->
  forall records h, Forall2 stamped_from h0 h ->
  Forall2 stamped_from h0 (fold_left (fun h addr => stamp name addr h) records h).
Proof.
  intros Hname. induction records as [|a records IH]; intros h H; simpl; [assumption|].
  apply IH. now apply stamp_stamped.
Qed.

Lemma stamped_from_refl (h : list image) : Forall2 stamped_from h h.
Proof.
  induction h; constructor; [|assumption]. repeat split. now left.
Qed.

Section Frame.
Context {G : Type}.
Variable np_shuffle : G -> list string -> list string * G.

Lemma stratified_split_patients_state patient_ids tr vr te (s s' : @state G) r :
  stratified_split_patients np_shuffle patient_ids tr vr te s = (Ok r, s') ->
  exists g, s' = with_np_random g s.
Proof.
  unfold stratified_split_patients. destruct (ratios_ok tr vr te); [|discriminate].
  destruct (split_groups _ _ _ _ _ _) as [r' g']. intros H. injection H as _ <-.
  now exists g'.
Qed.

Lemma create_splits_frame tr vr te (s s' : @state G) sp :
  create_splits np_shuffle tr vr te s = (Ok sp, s') ->
  master_df s' = master_df s /\
  patient_data s' = patient_data s /\
  disease_labels s' = disease_labels s /\
  files s' = files s /\
  splits s' = Some sp /\
  Forall2 stamped_from (heap s) (heap s').
Proof.
  unfold create_splits. intros H.
  apply bindM_ok in H as (pd & s1 & E1 & H). injection E1 as <- <-.
  apply bindM_ok in H as (c & s2 & E2 & H).
  apply stratified_split_patients_state in E2 as [g2 ->].
  apply bindM_ok in H as (r & s3 & E3 & H).
  apply stratified_split_patients_state in E3 as [g3 ->].
  apply bindM_ok in H as (df1 & s4 & E4 & H). injection E4 as <- <-.
  apply bindM_ok in H as (df2 & s5 & E5 & H). injection E5 as <- <-.
  apply bindM_ok in H as (df3 & s6 & E6 & H). injection E6 as <- <-.
  apply bindM_ok in H as ([] & s7 & E7 & H). injection E7 as <-.
  injection H as <- <-. cbn.
  repeat (split; [reflexivity|]).
  repeat (apply fold_stamp_stamped; [simpl; tauto|]).
  apply stamped_from_refl.
Qed.
End Frame.

Lemma Forall2_nth_error_left {A B} (R : A -> B -> Prop) (l : list A) (l' : list B) :
  Forall2 R l l' ->
  forall i x, nth_error l i = Some x -> exists y, nth_error l' i = Some y /\ R x y.
Proof.
  induction 1 as [|a b l l' Hab _ IH]; intros i x.
  - destruct i; discriminate.
  - destruct i as [|i]; simpl.
    + intros E. injection E as <-. now exists b.
    + apply IH.
Qed.

(** C9, as the code has it. Expanding the patients into image rows
    stamps the split name in place on the stored image dictionaries:
    after [create_splits] each stored dictionary has its row fields and
    patient identifier unchanged and its ['split'] entry either unchanged
    or set to a split name, while the inventory, the patient groups and
    the disease labels are the ones received. The validator changes
    nothing, so running it again gives the same report. *)
Theorem create_splits_stamps_validator_reads :
  (forall (G : Type) (np_shuffle : G -> list string -> list string * G)
          tr vr te (s s' : @state G) sp,
      create_splits np_shuffle tr vr te s = (Ok sp, s') ->
      master_df s' = master_df s /\
      patient_data s' = patient_data s /\
      disease_labels s' = disease_labels s /\
      List.length (heap s') = List.length (heap s) /\
      forall addr im,
        nth_error (heap s) addr = Some im ->
        exists im', nth_error (heap s') addr = Some im' /\ stamped_from im im') /\
  (forall (G : Type) (s : @state G),
      snd (validate_splits s) = s /\
      validate_splits (snd (validate_splits s)) = validate_splits s).
Proof.
  split.
  - intros G np_shuffle tr vr te s s' sp H.
    apply create_splits_frame in H as (Hm & Hp & Hd & _ & _ & Hh).
    repeat (split; [assumption|]). split.
    + symmetry. now apply (Forall2_length Hh).
    + now apply Forall2_nth_error_left.
  - intros G s.
    assert (E : snd (validate_splits s) = s).
    { unfold validate_splits. now destruct (splits s). }
    split; [exact E | now rewrite E].
Qed.

(** The stored dictionaries of a patient that lands in a split. *)
Lemma create_splits_stamps_validator_reads_witness :
  exists sp s1,
    Demo.split_of Demo.four_chexpert 0.5 0.25 0.25 = (Ok sp, s1) /\
    patient_data s1 = patient_data (Demo.prepared Demo.four_chexpert Demo.no_captions) /\
    (forall addr im,
        nth_error (heap (Demo.prepared Demo.four_chexpert Demo.no_captions)) addr = Some im ->
        exists im', nth_error (heap s1) addr = Some im' /\ stamped_from im im') /\
    validate_splits (snd (validate_splits s1)) = validate_splits s1.
Proof.
  eexists. eexists. split; [vm_compute; reflexivity|].
  pose proof (proj1 create_splits_stamps_validator_reads N Demo.shuffle
                0.5 0.25 0.25 (Demo.prepared Demo.four_chexpert Demo.no_captions)) as H.
  unfold Demo.split_of in *.
  destruct (create_splits Demo.shuffle 0.5 0.25 0.25
              (Demo.prepared Demo.four_chexpert Demo.no_captions)) as [[sp|e] s1] eqn:E;
    [|vm_compute in E; discriminate].
  destruct (H s1 sp eq_refl) as (_ & Hp & _ & _ & Hh).
  assert (Es : s1 = snd (create_splits Demo.shuffle 0.5 0.25 0.25
                            (Demo.prepared Demo.four_chexpert Demo.no_captions)))
    by (now rewrite E).
  split; [|split].
  - rewrite <- Hp. rewrite Es. vm_compute. reflexivity.
  - intros addr im Him. destruct (Hh addr im Him) as (im' & Him' & Hst).
    exists im'. split; [|exact Hst]. rewrite <- Him'. rewrite Es. vm_compute. reflexivity.
  - apply (proj2 create_splits_stamps_validator_reads).
Defined.

(** C9 as stated fails: the expansion does modify the stored patient
    groups. The two image dictionaries of patient 1 have no ['split']
    entry after grouping and labelling, and the same two stored
    dictionaries carry ['split'] = "test" once [create_splits] has run. *)
Lemma create_splits_modifies_stored_records :
  let s := Demo.prepared Demo.four_chexpert Demo.no_captions in
  exists sp s1,
    Demo.split_of Demo.four_chexpert 0.5 0.25 0.25 = (Ok sp, s1) /\
    dict_get "chexpert_patient00001" (patient_data s) = Some [0; 1]%nat /\
    dict_get "chexpert_patient00001" (patient_data s1) = Some [0; 1]%nat /\
    map img_split (deref (heap s) [0; 1]%nat) = [None; None] /\
    map img_split (deref (heap s1) [0; 1]%nat) = [Some "test"; Some "test"] /\
    heap s1 <> heap s.
Proof.
  intros s. eexists. eexists. split; [vm_compute; reflexivity|].
  split; [vm_compute; reflexivity|]. split; [vm_compute; reflexivity|].
  split; [vm_compute; reflexivity|]. split; [vm_compute; reflexivity|].
  intros H. apply (f_equal (map img_split)) in H. vm_compute in H. discriminate H.
Defined.

(** ** The command line *)

(** The allocator rejects a triple whose sum is off, leaving the state
    as it is. *)
Lemma stratified_split_patients_rejects {G} (np_shuffle : G -> list string -> list string * G)
      patient_ids tr vr te (s : @state G) :
  ratios_ok tr vr te = false ->
  stratified_split_patients np_shuffle patient_ids tr vr te s
  = (Raise (AssertionError "Ratios must sum to 1.0"), s).
Proof. unfold stratified_split_patients. now intros ->. Qed.

(** [main] does not depend on the ratios given on the command line. *)
Lemma main_ignores_ratios {G} (np_seed : Z -> G)
      (np_shuffle : G -> list string -> list string * G)
      hash read_csv read_caption now (args : cli_args) (tr vr te : Q) :
  main np_seed np_shuffle hash read_csv read_caption now
       (mk_args (arg_master_index args) (arg_output_dir args) tr vr te
                (arg_random_seed args))
  = main np_seed np_shuffle hash read_csv read_caption now args.
Proof. reflexivity. Qed.

(** C3: a run started with the ratios 0.7, 0.2, 0.2 does not fail. The
    triple is one the entry check rejects, yet [main] never passes it on:
    the run splits with 0.8, 0.1, 0.1, returns, and writes all five
    files. *)
Theorem main_runs_with_invalid_ratios :
  ratios_ok 0.7 0.2 0.2 = false /\
  is_ok (fst (Demo.run Demo.ten_chexpert Demo.hash0 (Demo.args 0.7 0.2 0.2))) = true /\
  keys (files (snd (Demo.run Demo.ten_chexpert Demo.hash0 (Demo.args 0.7 0.2 0.2))))
  = [ "metadata/splits/train_index.csv"; "metadata/splits/val_index.csv";
      "metadata/splits/test_index.csv"; "metadata/splits/split_metadata.json";
      "metadata/splits/patient_mapping.json" ] /\
  Demo.run Demo.ten_chexpert Demo.hash0 (Demo.args 0.7 0.2 0.2)
  = Demo.run Demo.ten_chexpert Demo.hash0 (Demo.args 0.8 0.1 0.1).
Proof.
  split; [vm_compute; reflexivity|]. split; [vm_compute; reflexivity|].
  split; [vm_compute; reflexivity|].
  apply (main_ignores_ratios Demo.seed Demo.shuffle Demo.hash0 (fun _ => Ok Demo.ten_chexpert)
           Demo.no_captions "2025-10-01T12:00:00" (Demo.args 0.8 0.1 0.1) 0.7 0.2 0.2).
Qed.

(** C6: two runs on the same inventory with the same seed, in two
    processes whose string hashes differ, write different patient
    mappings: the patient of the file name without a patient number is
    keyed by the hash of the file name. *)
Theorem patient_mapping_depends_on_hash :
  let mapping h :=
    dict_get "metadata/splits/patient_mapping.json"
      (files (snd (Demo.run Demo.ten_chexpert_one_unparsed h (Demo.args 0.8 0.1 0.1)))) in
  let written fallback_id :=
    Some (MappingFile
            [ ("chexpert_patient00008", "train"); (fallback_id, "train");
              ("chexpert_patient00002", "train"); ("chexpert_patient00003", "train");
              ("chexpert_patient00004", "train"); ("chexpert_patient00006", "train");
              ("chexpert_patient00005", "train"); ("chexpert_patient00001", "train");
              ("chexpert_patient00009", "val"); ("chexpert_patient00007", "test") ]) in
  mapping Demo.hash_run1 = written "chexpert_unknown_5740354900026072187" /\
  mapping Demo.hash_run2 = written "chexpert_unknown_-3217679145888098311" /\
  mapping Demo.hash_run1 <> mapping Demo.hash_run2.
Proof.
  intros mapping written.
  assert (E1 : mapping Demo.hash_run1 = written "chexpert_unknown_5740354900026072187")
    by (vm_compute; reflexivity).
  assert (E2 : mapping Demo.hash_run2 = written "chexpert_unknown_-3217679145888098311")
    by (vm_compute; reflexivity).
  split; [exact E1|]. split; [exact E2|].
  rewrite E1, E2. unfold written. intros H. injection H as H. discriminate H.
Qed.

(** * Further properties of the splitter *)

(** ** Loading and grouping *)

Lemma forallb_mem_incl (l m : list string) :
  forallb (fun c => mem c m) l = true <-> incl l m.
Proof.
  rewrite forallb_forall. unfold incl.
  split; intros H x Hx; [apply mem_spec | apply mem_spec]; now apply H.
Qed.

(** X1. [load_master_index] passes on the error of [pd.read_csv] and
    leaves the splitter as it is; on a table that was read it returns the
    table exactly when the five required columns are all present (other
    columns are accepted) and raises [ValueError] otherwise, and in both
    cases [self.master_df] already holds the table. *)
Theorem load_master_index_outcome {G} (read_csv : string -> result table) (s : @state G) :
  (forall e, read_csv (master_index_path s) = Raise e ->
             load_master_index read_csv s = (Raise e, s)) /\
  (forall t, read_csv (master_index_path s) = Ok t ->
     (incl required_columns (columns t) ->
      load_master_index read_csv s = (Ok t, with_master_df (Some t) s)) /\
     (~ incl required_columns (columns t) ->
      load_master_index read_csv s
      = (Raise (ValueError "Missing required columns"), with_master_df (Some t) s))).
Proof.
  unfold load_master_index, bindM, modify, ret, raise. split.
  - intros e ->. reflexivity.
  - intros t ->. split; intros H.
    + apply forallb_mem_incl in H. now rewrite H.
    + destruct (forallb (fun c => mem c (columns t)) required_columns) eqn:E;
        [|reflexivity].
      apply forallb_mem_incl in E. contradiction.
Qed.

(** A table with all columns, and one without the caption flag. *)
Lemma load_master_index_outcome_witness :
  let s := init Demo.seed "metadata/master_index.csv" 42 in
  let short := mk_table ["filename"; "source"; "image_path"; "caption_path"] [] in
  load_master_index (fun _ => Ok Demo.mixed) s
  = (Ok Demo.mixed, with_master_df (Some Demo.mixed) s) /\
  load_master_index (fun _ => Ok short) s
  = (Raise (ValueError "Missing required columns"), with_master_df (Some short) s).
Proof.
  intros s short. split.
  - apply (proj2 (load_master_index_outcome (fun _ => Ok Demo.mixed) s) Demo.mixed eq_refl).
    apply forallb_mem_incl. vm_compute. reflexivity.
  - apply (proj2 (load_master_index_outcome (fun _ => Ok short) s) short eq_refl).
    intros H. apply forallb_mem_incl in H. vm_compute in H. discriminate H.
Defined.

Lemma for_each_app {G A} (l1 l2 : list A) (body : A -> @M G unit) (s : state) :
  for_each (l1 ++ l2) body s = bindM (for_each l1 body) (fun _ => for_each l2 body) s.
Proof.
  revert s. induction l1 as [|x l1 IH]; intros s; simpl.
  - reflexivity.
  - unfold bindM. destruct (body x s) as [[[]|e] s1]; [|reflexivity].
    rewrite IH. reflexivity.
Qed.

Lemma group_row_known {G} (hash : string -> Z) (row : csv_row) (s : @state G) :
  known_source row -> exists s', group_row hash row s = (Ok tt, s').
Proof.
  intros Hk. unfold group_row, bindM, lift, modify.
  destruct (extract_patient_id hash (filename row) (source row)) as [pid|e] eqn:E.
  - eexists. reflexivity.
  - exfalso. assert (H : is_ok (extract_patient_id hash (filename row) (source row)) = false)
      by now rewrite E.
    apply extract_patient_id_raises in H. destruct H, Hk; contradiction.
Qed.

Lemma group_row_unknown {G} (hash : string -> Z) (row : csv_row) (s : @state G) :
  ~ known_source row ->
  group_row hash row s = (Raise (ValueError ("Unknown source: " ^^ source row)), s).
Proof.
  intros Hk. unfold group_row, bindM, lift, extract_patient_id.
  destruct (String.eqb (source row) "CheXpert") eqn:E1.
  - apply String.eqb_eq in E1. exfalso. apply Hk. now left.
  - destruct (String.eqb (source row) "Radiopaedia") eqn:E2; [|reflexivity].
    apply String.eqb_eq in E2. exfalso. apply Hk. now right.
Qed.

Lemma for_each_group_row_known {G} (hash : string -> Z) (l : list csv_row) :
  Forall known_source l ->
  forall s : @state G, exists s', for_each l (group_row hash) s = (Ok tt, s').
Proof.
  induction 1 as [|row l Hrow _ IH]; intros s; simpl.
  - now exists s.
  - destruct (group_row_known hash row s Hrow) as [s1 E1].
    destruct (IH s1) as [s' E']. exists s'. unfold bindM. now rewrite E1.
Qed.

(** X2. [group_by_patient] before the index is loaded raises
    [AttributeError]. On a loaded index it returns when every row has a
    known source; otherwise it raises [ValueError] naming the source of
    the first row whose source is unknown, and the rows before that one
    stay grouped in [self.patient_data]. *)
Theorem group_by_patient_outcome {G} (hash : string -> Z) (s : @state G) :
  (master_df s = None ->
   group_by_patient hash s = (Raise (AttributeError "iterrows"), s)) /\
  (forall t, master_df s = Some t ->
     (Forall known_source (rows t) ->
      exists s', group_by_patient hash s = (Ok (patient_data s'), s')) /\
     (forall done row rest,
         rows t = done ++ row :: rest ->
         Forall known_source done -> ~ known_source row ->
         exists s1,
           for_each done (group_row hash) s = (Ok tt, s1) /\
           group_by_patient hash s
           = (Raise (ValueError ("Unknown source: " ^^ source row)), s1))).
Proof.
  unfold group_by_patient. split.
  - intros E. unfold bindM, gets, raise. now rewrite E.
  - intros t E. split.
    + intros Hall. destruct (for_each_group_row_known hash (rows t) Hall s) as [s' E'].
      exists s'. unfold bindM, gets. rewrite E. now rewrite E'.
    + intros done row rest Hrows Hdone Hrow.
      destruct (for_each_group_row_known hash done Hdone s) as [s1 E1].
      exists s1. split; [exact E1|].
      unfold bindM at 1. unfold gets at 1. rewrite E, Hrows.
      unfold bindM at 1. rewrite for_each_app.
      unfold bindM at 1. rewrite E1. simpl. unfold bindM at 1.
      now rewrite group_row_unknown.
Qed.

(** An index whose third row comes from an unknown source. *)
Lemma group_by_patient_outcome_witness :
  let t := mk_table Demo.all_columns
             [Demo.chexpert_row "patient00001_view1.jpg";
              Demo.radiopaedia_row "radiopaedia_5_1.png";
              mk_row "00000001_000.png" "NIH" "images/00000001_000.png" "" false;
              Demo.chexpert_row "patient00002_view1.jpg"] in
  let s := with_master_df (Some t) (init Demo.seed "metadata/master_index.csv" 42) in
  exists s1,
    group_by_patient Demo.hash0 s = (Raise (ValueError "Unknown source: NIH"), s1) /\
    patient_data s1 = [("chexpert_patient00001", [0%nat]); ("radiopaedia_5", [1%nat])].
Proof.
  intros t s.
  destruct (proj2 (proj2 (group_by_patient_outcome Demo.hash0 s) t eq_refl)
              [Demo.chexpert_row "patient00001_view1.jpg";
               Demo.radiopaedia_row "radiopaedia_5_1.png"]
              (mk_row "00000001_000.png" "NIH" "images/00000001_000.png" "" false)
              [Demo.chexpert_row "patient00002_view1.jpg"])
    as (s1 & E1 & E).
  - reflexivity.
  - constructor; [now left|]. constructor; [now right | constructor].
  - intros [H|H]; discriminate H.
  - exists s1. split; [exact E|].
    vm_compute in E1. injection E1 as <-. reflexivity.
Defined.

Lemma concat_dict_append_any {V} (k : string) (v : V) (d : dict (list V)) :
  Permutation (List.concat (map snd (dict_append k v d))) (v :: List.concat (map snd d)).
Proof.
  induction d as [|[k' vs] d IH]; simpl; [reflexivity|].
  destruct (String.eqb k k'); simpl.
  - rewrite <- app_assoc. simpl. symmetry. apply Permutation_middle.
  - rewrite IH. symmetry. apply Permutation_middle.
Qed.

Lemma In_dict_append {V} (k : string) (v : V) (d : dict (list V)) q l :
  In (q, l) (dict_append k v d) ->
  In (q, l) d \/
  (q = k /\ (l = [v] \/ exists l0, In (k, l0) d /\ l = l0 ++ [v])).
Proof.
  induction d as [|[k' vs] d IH]; simpl.
  - intros [H|[]]. injection H as <- <-. right. split; [reflexivity | now left].
  - destruct (String.eqb k k') eqn:E; simpl.
    + apply String.eqb_eq in E. subst k'. intros [H|H].
      * injection H as <- <-. right. split; [reflexivity|]. right.
        exists vs. split; [now left | reflexivity].
      * left. now right.
    + intros [H|H]; [left; now left|].
      destruct (IH H) as [H'|(-> & [->|(l0 & Hl0 & ->)])].
      * left. now right.
      * right. split; [reflexivity | now left].
      * right. split; [reflexivity|]. right. exists l0. split; [now right | reflexivity].
Qed.

Lemma group_row_well_grouped {G} (hash : string -> Z) (row : csv_row) (s s' : @state G) :
  well_grouped s -> group_row hash row s = (Ok tt, s') -> well_grouped s'.
Proof.
  intros (Hnd & Hperm & Hgroups) E.
  apply group_row_ok in E as (pid & _ & Epd & Eheap & _).
  unfold well_grouped. rewrite Epd, Eheap. split; [|split].
  - now apply NoDup_keys_dict_append.
  - rewrite concat_dict_append_any, length_app, Nat.add_1_r, seq_S. simpl.
    rewrite Hperm. apply Permutation_cons_append.
  - intros q l Hin.
    assert (Hold : forall l0, In (q, l0) (patient_data s) ->
              Forall (fun a => exists im,
                        nth_error (heap s ++ [mk_image row pid None]) a = Some im /\
                        img_patient_id im = q) l0).
    { intros l0 Hl0. destruct (Hgroups q l0 Hl0) as [_ Hall].
      eapply Forall_impl; [|exact Hall]. intros a (im & Ha & Hq).
      exists im. split; [|exact Hq].
      rewrite nth_error_app1; [exact Ha|]. apply nth_error_Some. congruence. }
    assert (Hnew : exists im,
               nth_error (heap s ++ [mk_image row pid None]) (List.length (heap s))
               = Some im /\ img_patient_id im = pid).
    { exists (mk_image row pid None). split; [|reflexivity].
      rewrite nth_error_app2 by lia. now rewrite Nat.sub_diag. }
    apply In_dict_append in Hin as [Hin|(-> & [->|(l0 & Hl0 & ->)])].
    + split; [now apply (Hgroups q l)|now apply Hold].
    + split; [discriminate|]. constructor; [exact Hnew | constructor].
    + split; [now destruct l0|]. apply Forall_app. split; [now apply Hold|].
      constructor; [exact Hnew | constructor].
Qed.

Lemma for_each_group_row_heap {G} (hash : string -> Z) (l : list csv_row) :
  forall s s' : @state G,
    for_each l (group_row hash) s = (Ok tt, s') ->
    map img_row (heap s') = map img_row (heap s) ++ l /\
    (Forall (fun im => extract_patient_id hash (filename (img_row im)) (source (img_row im))
                       = Ok (img_patient_id im) /\ img_split im = None) (heap s) ->
     Forall (fun im => extract_patient_id hash (filename (img_row im)) (source (img_row im))
                       = Ok (img_patient_id im) /\ img_split im = None) (heap s')).
Proof.
  induction l as [|row l IH]; intros s s'; simpl.
  - unfold ret. intros E. injection E as <-. now rewrite app_nil_r.
  - intros E. apply bindM_ok in E as ([] & s1 & E1 & E2).
    apply group_row_ok in E1 as (pid & Eid & _ & Eheap & _).
    destruct (IH s1 s' E2) as [Hrows Hok]. split.
    + rewrite Hrows, Eheap, map_app, <- app_assoc. reflexivity.
    + intros Hs. apply Hok. rewrite Eheap. apply Forall_app. split; [exact Hs|].
      constructor; [|constructor]. simpl. now split.
Qed.

(** X3. Grouping a loaded index from the initial state gives each row
    one stored image dictionary, in row order, that carries the patient
    identifier of its row and no split; the groups have distinct keys,
    none is empty, every image is in exactly one group exactly once, and
    an image is in the group of its own patient identifier. *)
Theorem group_by_patient_groups_every_image {G} (hash : string -> Z)
        (s s' : @state G) (t : table) patient_groups :
  master_df s = Some t -> patient_data s = [] -> heap s = [] ->
  group_by_patient hash s = (Ok patient_groups, s') ->
  patient_groups = patient_data s' /\
  well_grouped s' /\
  map img_row (heap s') = rows t /\
  Forall (fun im => extract_patient_id hash (filename (img_row im)) (source (img_row im))
                    = Ok (img_patient_id im) /\ img_split im = None) (heap s').
Proof.
  intros Edf Epd Eheap E.
  apply group_by_patient_ok in E as (-> & t' & Edf' & E).
  assert (t' = t) by congruence. subst t'.
  split; [reflexivity|]. split; [|split].
  - revert E. apply for_each_invariant.
    + intros row st st' _. apply group_row_well_grouped.
    + unfold well_grouped. rewrite Epd, Eheap. simpl.
      split; [constructor|]. split; [constructor|]. intros pid addrs [].
  - destruct (for_each_group_row_heap hash (rows t) s s' E) as [H _].
    now rewrite H, Eheap.
  - destruct (for_each_group_row_heap hash (rows t) s s' E) as [_ H].
    apply H. rewrite Eheap. constructor.
Qed.

(** Four CheXpert patients, the first with two images. *)
Lemma group_by_patient_groups_every_image_witness :
  let s := with_master_df (Some Demo.four_chexpert)
                          (init Demo.seed "metadata/master_index.csv" 42) in
  let s' := snd (group_by_patient Demo.hash0 s) in
  well_grouped s' /\
  map img_row (heap s') = rows Demo.four_chexpert /\
  patient_data s' = [ ("chexpert_patient00001", [0; 1]%nat);
                      ("chexpert_patient00002", [2%nat]);
                      ("chexpert_patient00003", [3%nat]);
                      ("chexpert_patient00004", [4%nat]) ].
Proof.
  intros s s'.
  destruct (group_by_patient_groups_every_image Demo.hash0 s s' Demo.four_chexpert
              (patient_data s')) as (_ & Hwg & Hrows & _).
  - reflexivity.
  - reflexivity.
  - reflexivity.
  - vm_compute. reflexivity.
  - split; [exact Hwg|]. split; [exact Hrows | vm_compute; reflexivity].
Defined.

(** ** Lookup and update of dictionaries *)

Lemma dict_get_set_same {V} (k : string) (v : V) (d : dict V) :
  dict_get k (dict_set k v d) = Some v.
Proof.
  induction d as [|[k' v'] d IH]; simpl.
  - now rewrite String.eqb_refl.
  - destruct (String.eqb k k') eqn:E; simpl; rewrite E; [reflexivity | exact IH].
Qed.

Lemma dict_get_set_other {V} (k q : string) (v : V) (d : dict V) :
  q <> k -> dict_get q (dict_set k v d) = dict_get q d.
Proof.
  intros Hqk. induction d as [|[k' v'] d IH]; simpl.
  - apply String.eqb_neq in Hqk. now rewrite Hqk.
  - destruct (String.eqb k k') eqn:E; simpl.
    + apply String.eqb_eq in E. subst k'.
      apply String.eqb_neq in Hqk. now rewrite Hqk.
    + destruct (String.eqb q k'); [reflexivity | exact IH].
Qed.

Lemma dict_get_None {V} (k : string) (d : dict V) :
  dict_get k d = None <-> ~ In k (keys d).
Proof.
  induction d as [|[k' v] d IH]; simpl; [tauto|].
  destruct (String.eqb k k') eqn:E.
  - apply String.eqb_eq in E. subst. split; [discriminate | intros H; exfalso; apply H; now left].
  - apply String.eqb_neq in E. rewrite IH. split; [intros H [H'|H']; congruence | tauto].
Qed.

Lemma dict_get_In_NoDup {V} (k : string) (v : V) (d : dict V) :
  NoDup (keys d) -> In (k, v) d -> dict_get k d = Some v.
Proof.
  induction d as [|[k' v'] d IH]; simpl; [contradiction|].
  intros Hnd [H|H]; inversion Hnd as [|? ? Hnotin Hnd']; subst.
  - injection H as -> ->. now rewrite String.eqb_refl.
  - destruct (String.eqb k k') eqn:E.
    + apply String.eqb_eq in E. subst k'. exfalso. apply Hnotin.
      apply in_map_iff. now exists (k, v).
    + now apply IH.
Qed.

Lemma dict_get_Some_In {V} (k : string) (v : V) (d : dict V) :
  dict_get k d = Some v -> In (k, v) d.
Proof.
  induction d as [|[k' v'] d IH]; simpl; [discriminate|].
  destruct (String.eqb k k') eqn:E.
  - apply String.eqb_eq in E. subst k'. intros H. injection H as ->. now left.
  - intros H. right. now apply IH.
Qed.

Lemma dict_set_fresh {V} (k : string) (v : V) (d : dict V) :
  ~ In k (keys d) -> dict_set k v d = d ++ [(k, v)].
Proof.
  induction d as [|[k' v'] d IH]; simpl; [reflexivity|].
  intros H. destruct (String.eqb k k') eqn:E.
  - apply String.eqb_eq in E. subst. exfalso. apply H. now left.
  - rewrite IH; [reflexivity|]. intros H'. apply H. now right.
Qed.

Lemma fold_dict_set_fresh {V W} (f : V -> W) (d : dict V) :
  forall acc : dict W,
    NoDup (keys acc ++ keys d) ->
    fold_left (fun labels entry => dict_set (fst entry) (f (snd entry)) labels) d acc
    = acc ++ map (fun entry => (fst entry, f (snd entry))) d.
Proof.
  induction d as [|[k v] d IH]; intros acc Hnd; simpl.
  - now rewrite app_nil_r.
  - simpl in Hnd. rewrite dict_set_fresh.
    + rewrite IH.
      * now rewrite <- app_assoc.
      * unfold keys. rewrite map_app. simpl. rewrite <- app_assoc. exact Hnd.
    + intros Hin. apply (NoDup_app_disjoint _ _ Hnd k Hin). now left.
Qed.

(** ** Disease labels of the patients *)

Lemma extract_diseases_nonempty (read_caption : string -> option string) (path : string) :
  extract_diseases_from_caption read_caption path <> [].
Proof.
  unfold extract_diseases_from_caption.
  destruct (read_caption path); [|discriminate].
  destruct (map fst _); discriminate.
Qed.

Lemma patient_diseases_spec (read_caption : string -> option string)
      (h : list image) (addrs : list nat) :
  let labels := patient_diseases read_caption h addrs in
  NoDup labels /\
  (forall tag, In tag labels <->
     exists im, In im (deref h addrs) /\
                In tag (extract_diseases_from_caption read_caption
                          (caption_path (img_row im)))) /\
  Forall (fun tag => In tag priority_diseases) labels /\
  (deref h addrs <> [] -> labels <> []).
Proof.
  unfold patient_diseases, py_set. set (all := flat_map _ _).
  assert (Hin : forall tag, In tag (nodup string_dec all) <->
            exists im, In im (deref h addrs) /\
                       In tag (extract_diseases_from_caption read_caption
                                 (caption_path (img_row im)))).
  { intros tag. rewrite nodup_In. unfold all. rewrite in_flat_map. reflexivity. }
  split; [apply NoDup_nodup|]. split; [exact Hin|]. split.
  - apply Forall_forall. intros tag Htag. apply Hin in Htag as (im & _ & Htag).
    pose proof (extracted_labels_ranked read_caption (caption_path (img_row im))) as H.
    rewrite Forall_forall in H. now apply H.
  - intros Hne Hempty.
    assert (Him : exists im, In im (deref h addrs)).
    { destruct (deref h addrs) as [|im ims]; [now destruct Hne|]. exists im. now left. }
    destruct Him as [im Him].
    pose proof (extract_diseases_nonempty read_caption (caption_path (img_row im))) as H.
    destruct (extract_diseases_from_caption read_caption (caption_path (img_row im)))
      as [|tag tags] eqn:Et; [now apply H|].
    assert (Hin' : In tag (nodup string_dec all)).
    { apply Hin. exists im. split; [exact Him | rewrite Et; now left]. }
    rewrite Hempty in Hin'. contradiction.
Qed.

(** X4. [extract_patient_disease_labels] on groups with distinct keys and
    no labels yet changes nothing but the labels; afterwards the labelled
    patients are the grouped patients, in the same order, and the labels
    of a patient are, without repetition, exactly the tags extracted from
    the caption of one of its images; they are all tags of the priority
    list. *)
Theorem extract_patient_disease_labels_spec {G}
        (read_caption : string -> option string) (s : @state G) :
  NoDup (keys (patient_data s)) -> disease_labels s = [] ->
  exists labels,
    extract_patient_disease_labels read_caption s
    = (Ok labels, with_disease_labels labels s) /\
    keys labels = keys (patient_data s) /\
    labelled read_caption (with_disease_labels labels s) /\
    forall pid addrs,
      In (pid, addrs) (patient_data s) ->
      exists tags,
        dict_get pid labels = Some tags /\ NoDup tags /\
        Forall (fun tag => In tag priority_diseases) tags /\
        forall tag,
          In tag tags <->
          exists im, In im (deref (heap s) addrs) /\
                     In tag (extract_diseases_from_caption read_caption
                               (caption_path (img_row im))).
Proof.
  intros Hnd Hempty.
  set (labels := map (fun entry => (fst entry,
                                    patient_diseases read_caption (heap s) (snd entry)))
                     (patient_data s)).
  assert (Hkeys : keys labels = keys (patient_data s)).
  { unfold labels, keys. rewrite map_map. reflexivity. }
  assert (Hget : forall pid addrs, In (pid, addrs) (patient_data s) ->
            dict_get pid labels = Some (patient_diseases read_caption (heap s) addrs)).
  { intros pid addrs Hin. apply dict_get_In_NoDup; [now rewrite Hkeys|].
    unfold labels. apply in_map_iff. now exists (pid, addrs). }
  exists labels. split; [|split; [exact Hkeys|split]].
  - unfold extract_patient_disease_labels, bindM, modify, gets.
    rewrite Hempty, fold_dict_set_fresh by exact Hnd. reflexivity.
  - exact Hget.
  - intros pid addrs Hin. exists (patient_diseases read_caption (heap s) addrs).
    destruct (patient_diseases_spec read_caption (heap s) addrs) as (H1 & H2 & H3 & _).
    split; [now apply Hget|]. split; [exact H1|]. split; [exact H3 | exact H2].
Qed.

(** The first patient has a caption with two findings and one unreadable
    caption. *)
Lemma extract_patient_disease_labels_spec_witness :
  let s := snd (group_by_patient Demo.hash0
                  (with_master_df (Some Demo.four_chexpert)
                                  (init Demo.seed "metadata/master_index.csv" 42))) in
  exists labels,
    extract_patient_disease_labels Demo.some_captions s
    = (Ok labels, with_disease_labels labels s) /\
    keys labels = keys (patient_data s) /\
    dict_get "chexpert_patient00001" labels
    = Some ["pneumonia"; "pleural_effusion"; "unspecified"].
Proof.
  intros s.
  destruct (extract_patient_disease_labels_spec Demo.some_captions s)
    as (labels & E & Hk & _).
  - vm_compute. repeat (constructor; [simpl; intuition discriminate|]). constructor.
  - reflexivity.
  - exists labels. split; [exact E|]. split; [exact Hk|].
    vm_compute in E. injection E as <-. reflexivity.
Defined.

Lemma deref_nonempty (h : list image) (addrs : list nat) :
  addrs <> [] ->
  Forall (fun a => exists im, nth_error h a = Some im) addrs ->
  deref h addrs <> [].
Proof.
  destruct addrs as [|a addrs]; [congruence|].
  intros _ Hall. inversion Hall as [|? ? (im & Him) _]; subst.
  simpl. rewrite Him. discriminate.
Qed.

(** X5. For a grouped and labelled patient the stratification key is
    one of the patient's own labels, hence a tag extracted from the
    caption of one of its images, and a tag of the priority list: neither
    the default of the lookup nor the fallback to the first label is
    used. *)
Theorem stratification_key_is_a_label {G} (read_caption : string -> option string)
        (s : @state G) (pid : string) (addrs : list nat) :
  well_grouped s -> labelled read_caption s ->
  In (pid, addrs) (patient_data s) ->
  let key := get_stratification_key (disease_labels s) pid in
  In key priority_diseases /\
  exists im, In im (deref (heap s) addrs) /\
             In key (extract_diseases_from_caption read_caption
                       (caption_path (img_row im))).
Proof.
  intros (_ & _ & Hgroups) Hlab Hin key.
  destruct (Hgroups pid addrs Hin) as [Hne Hvalid].
  destruct (patient_diseases_spec read_caption (heap s) addrs)
    as (_ & Hspec & Hranked & Hnonempty).
  assert (Hlabels : patient_diseases read_caption (heap s) addrs <> []).
  { apply Hnonempty. apply deref_nonempty; [exact Hne|].
    eapply Forall_impl; [|exact Hvalid]. intros a (im & Him & _). now exists im. }
  unfold key, get_stratification_key. rewrite (Hlab pid addrs Hin).
  destruct (patient_diseases read_caption (heap s) addrs) as [|tag tags] eqn:E;
    [congruence|].
  assert (Hex : exists d, In d (tag :: tags) /\ In d priority_diseases).
  { exists tag. split; [now left|]. inversion Hranked; assumption. }
  pose proof (stratification_key_matched _ Hex) as Hfind.
  pose proof (find_some _ _ Hfind) as [Hprio Hmem].
  split; [exact Hprio|]. apply Hspec. now apply mem_spec.
Qed.

(** The key of the first patient is its finding of highest priority. *)
Lemma stratification_key_is_a_label_witness :
  let s := Demo.prepared Demo.four_chexpert Demo.some_captions in
  let key := get_stratification_key (disease_labels s) "chexpert_patient00001" in
  key = "pneumonia" /\
  In key priority_diseases /\
  exists im, In im (deref (heap s) [0; 1]%nat) /\
             In key (extract_diseases_from_caption Demo.some_captions
                       (caption_path (img_row im))).
Proof.
  intros s key. split; [vm_compute; reflexivity|].
  assert (Epd : patient_data s = [ ("chexpert_patient00001", [0; 1]%nat);
                                   ("chexpert_patient00002", [2%nat]);
                                   ("chexpert_patient00003", [3%nat]);
                                   ("chexpert_patient00004", [4%nat]) ])
    by (vm_compute; reflexivity).
  assert (Hwg : well_grouped s).
  { unfold well_grouped. rewrite Epd. split; [|split].
    - repeat (constructor; [simpl; intuition discriminate|]). constructor.
    - replace (List.length (heap s)) with 5%nat by (vm_compute; reflexivity).
      apply Permutation_refl.
    - intros pid addrs Hin.
      repeat (destruct Hin as [Hin|Hin];
              [injection Hin as <- <-; split; [discriminate|];
               repeat (constructor; [eexists; split; vm_compute; reflexivity|]);
               constructor|]).
      destruct Hin. }
  assert (Hlab : labelled Demo.some_captions s).
  { unfold labelled. rewrite Epd. intros pid addrs Hin.
    repeat (destruct Hin as [Hin|Hin];
            [injection Hin as <- <-; vm_compute; reflexivity|]).
    destruct Hin. }
  assert (Hin : In ("chexpert_patient00001", [0; 1]%nat) (patient_data s))
    by (rewrite Epd; now left).
  exact (stratification_key_is_a_label Demo.some_captions s "chexpert_patient00001"
           [0; 1]%nat Hwg Hlab Hin).
Defined.

(** ** [create_splits] and the entry check *)

Lemma bindM_cases {G A B} (m : @M G A) (k : A -> M B) s r s' :
  bindM m k s = (r, s') ->
  (exists e, m s = (Raise e, s') /\ r = Raise e) \/
  (exists a s1, m s = (Ok a, s1) /\ k a s1 = (r, s')).
Proof.
  unfold bindM. destruct (m s) as [[a|e] s1]; intros H.
  - right. now exists a, s1.
  - left. exists e. injection H as <- <-. now split.
Qed.

Lemma ratios_ok_spec (train_ratio val_ratio test_ratio : Q) :
  ratios_ok train_ratio val_ratio test_ratio = true <->
  (Qabs (train_ratio + val_ratio + test_ratio - 1) < 1 # 1000)%Q.
Proof.
  unfold ratios_ok. rewrite Qltb_spec.
  assert (E : (Qabs (train_ratio + val_ratio + test_ratio - 1.0) ==
               Qabs (train_ratio + val_ratio + test_ratio - 1))%Q)
    by (apply Qabs_wd; apply Qplus_comp; reflexivity).
  rewrite E. reflexivity.
Qed.

Lemma stratified_split_patients_accepts {G}
      (np_shuffle : G -> list string -> list string * G)
      patient_ids tr vr te (s : @state G) :
  ratios_ok tr vr te = true ->
  exists r g, stratified_split_patients np_shuffle patient_ids tr vr te s
              = (Ok r, with_np_random g s).
Proof.
  intros Hok. unfold stratified_split_patients. rewrite Hok.
  destruct (split_groups _ _ _ _ _ _) as [r g]. now exists r, g.
Qed.

Lemma create_splits_accepted {G} (np_shuffle : G -> list string -> list string * G)
      (train_ratio val_ratio test_ratio : Q) (s : @state G) :
  ratios_ok train_ratio val_ratio test_ratio = true ->
  exists sp s',
    create_splits np_shuffle train_ratio val_ratio test_ratio s = (Ok sp, s') /\
    splits s' = Some sp.
Proof.
  intros Hsum.
  destruct (stratified_split_patients_accepts np_shuffle
              (filter is_chexpert (keys (patient_data s)))
              train_ratio val_ratio test_ratio s Hsum) as (c & g1 & Ec).
  destruct (stratified_split_patients_accepts np_shuffle
              (filter is_radiopaedia (keys (patient_data s)))
              train_ratio val_ratio test_ratio (with_np_random g1 s) Hsum)
    as (r & g2 & Er).
  unfold create_splits.
  unfold bindM at 1. unfold gets at 1.
  unfold bindM at 1. rewrite Ec.
  unfold bindM at 1. cbn [patient_data with_np_random] in Er. rewrite Er.
  unfold bindM, patients_to_dataframe, modify, ret. cbn.
  eexists. eexists. split; reflexivity.
Qed.

(** ** The validator: when it returns and what its checks mean *)

Lemma py_set_nil (l : list string) : py_set l = [] <-> l = [].
Proof.
  unfold py_set. split; [|now intros ->].
  destruct l as [|x l]; [reflexivity|]. intros H.
  assert (Hin : In x (nodup string_dec (x :: l))) by (apply nodup_In; now left).
  rewrite H in Hin. contradiction.
Qed.

Lemma py_set_In (x : string) (l : list string) : In x (py_set l) <-> In x l.
Proof. apply nodup_In. Qed.

Lemma set_inter_empty (a b : list string) :
  (List.length (set_inter (py_set a) (py_set b)) =? 0)%nat = true <->
  forall x, In x a -> ~ In x b.
Proof.
  rewrite Nat.eqb_eq, length_zero_iff_nil. unfold set_inter. split.
  - intros H x Ha Hb.
    assert (Hin : In x (filter (fun y => mem y (py_set b)) (py_set a))).
    { apply filter_In. split; [now apply py_set_In|]. apply mem_spec. now apply py_set_In. }
    rewrite H in Hin. contradiction.
  - intros H. destruct (filter _ _) as [|x l] eqn:E; [reflexivity|].
    assert (Hin : In x (filter (fun y => mem y (py_set b)) (py_set a)))
      by (rewrite E; now left).
    apply filter_In in Hin as [Ha Hb]. apply mem_spec in Hb.
    exfalso. apply (H x); now apply py_set_In.
Qed.

Lemma set_eqb_spec (a b : list string) :
  set_eqb a b = true <-> forall x, In x a <-> In x b.
Proof.
  unfold set_eqb. rewrite andb_true_iff, !forallb_forall. split.
  - intros [H1 H2] x. split; intros Hx; apply mem_spec; [now apply H1 | now apply H2].
  - intros H. split; intros x Hx; apply mem_spec; now apply H.
Qed.

Lemma set_union_In (x : string) (a b : list string) :
  In x (set_union a b) <-> In x a \/ In x b.
Proof. unfold set_union. rewrite py_set_In. apply in_app_iff. Qed.

Lemma has_both_sources_empty : has_both_sources [] = Raise (KeyError "source").
Proof. reflexivity. Qed.

Lemma has_both_sources_nonempty (df : dataframe) :
  df <> [] -> exists b, has_both_sources df = Ok b.
Proof.
  destruct df as [|im df]; [congruence|]. intros _.
  unfold has_both_sources, column. cbn [bind]. eexists. reflexivity.
Qed.

Lemma total_patients_zero (sp : splits_t) :
  (List.length (py_set (train_patients sp)) + List.length (py_set (val_patients sp)) +
   List.length (py_set (test_patients sp)) =? 0)%nat = true <->
  train_patients sp ++ val_patients sp ++ test_patients sp = [].
Proof.
  rewrite Nat.eqb_eq. split.
  - intros H.
    assert (H1 : py_set (train_patients sp) = []) by (apply length_zero_iff_nil; lia).
    assert (H2 : py_set (val_patients sp) = []) by (apply length_zero_iff_nil; lia).
    assert (H3 : py_set (test_patients sp) = []) by (apply length_zero_iff_nil; lia).
    apply (proj1 (py_set_nil _)) in H1. apply (proj1 (py_set_nil _)) in H2.
    apply (proj1 (py_set_nil _)) in H3. now rewrite H1, H2, H3.
  - intros H. apply app_eq_nil in H as [-> H]. apply app_eq_nil in H as [-> ->].
    reflexivity.
Qed.

(** The report of the validator, check by check. *)
Lemma validation_report_value (pd : dict (list nat)) (sp : splits_t) (report : dict bool) :
  validation_report pd sp = Ok report ->
  train_patients sp ++ val_patients sp ++ test_patients sp <> [] /\
  train sp <> [] /\ val sp <> [] /\ test sp <> [] /\
  exists ratio_ok train_both val_both test_both,
    let no_overlap :=
      (List.length (set_inter (py_set (train_patients sp)) (py_set (val_patients sp)))
       =? 0)%nat &&
      (List.length (set_inter (py_set (train_patients sp)) (py_set (test_patients sp)))
       =? 0)%nat &&
      (List.length (set_inter (py_set (val_patients sp)) (py_set (test_patients sp)))
       =? 0)%nat in
    let assigned :=
      set_eqb (py_set (keys pd))
              (set_union (set_union (py_set (train_patients sp))
                                    (py_set (val_patients sp)))
                         (py_set (test_patients sp))) in
    report =
    [ ("no_patient_overlap", no_overlap);
      ("ratio_validation", ratio_ok);
      ("train_has_both_sources", train_both);
      ("val_has_both_sources", val_both);
      ("test_has_both_sources", test_both);
      ("all_patients_assigned", assigned);
      ("overall_valid",
       no_overlap && (ratio_ok && (train_both && (val_both &&
         (test_both && (assigned && true)))))) ].
Proof.
  unfold validation_report.
  destruct (_ =? 0)%nat eqn:Etot; [discriminate|].
  assert (Hsome : train_patients sp ++ val_patients sp ++ test_patients sp <> []).
  { intros H. apply total_patients_zero in H. congruence. }
  destruct (train sp) as [|i1 l1] eqn:E1; [discriminate|].
  destruct (has_both_sources (i1 :: l1)) as [tb|]; [|discriminate].
  destruct (val sp) as [|i2 l2] eqn:E2; [discriminate|].
  destruct (has_both_sources (i2 :: l2)) as [vb|]; [|discriminate].
  destruct (test sp) as [|i3 l3] eqn:E3; [discriminate|].
  destruct (has_both_sources (i3 :: l3)) as [teb|]; [|discriminate].
  cbn [bind]. intros H. injection H as <-.
  split; [exact Hsome|]. repeat (split; [discriminate|]).
  eexists. exists tb, vb, teb. reflexivity.
Qed.

(** X7. [validate_splits] before any split was made raises [KeyError].
    On a split without any patient it raises [ZeroDivisionError] when it
    divides by the patient total; on a split with patients but with an
    image table that is empty it raises [KeyError] for the missing
    'source' column; in every other case it returns a report with the
    seven checks in their fixed order. The splitter is never changed. *)
Theorem validate_splits_outcome {G} (s : @state G) :
  (splits s = None -> validate_splits s = (Raise (KeyError "train_patients"), s)) /\
  (forall sp, splits s = Some sp ->
     (train_patients sp ++ val_patients sp ++ test_patients sp = [] ->
      validate_splits s = (Raise ZeroDivisionError, s)) /\
     (train_patients sp ++ val_patients sp ++ test_patients sp <> [] ->
      (train sp = [] \/ val sp = [] \/ test sp = [] ->
       validate_splits s = (Raise (KeyError "source"), s)) /\
      (train sp <> [] -> val sp <> [] -> test sp <> [] ->
       exists report,
         validate_splits s = (Ok report, s) /\
         keys report = [ "no_patient_overlap"; "ratio_validation";
                         "train_has_both_sources"; "val_has_both_sources";
                         "test_has_both_sources"; "all_patients_assigned";
                         "overall_valid" ]))).
Proof.
  unfold validate_splits. split; [now intros ->|].
  intros sp ->. unfold validation_report. split.
  - intros Hnone. apply total_patients_zero in Hnone. now rewrite Hnone.
  - intros Hsome.
    destruct (_ =? 0)%nat eqn:Etot;
      [apply total_patients_zero in Etot; contradiction|].
    split.
    + intros Hempty.
      destruct (train sp) as [|i1 l1]; [reflexivity|].
      destruct (has_both_sources_nonempty (i1 :: l1)) as [tb ->]; [discriminate|].
      destruct (val sp) as [|i2 l2]; [reflexivity|].
      destruct (has_both_sources_nonempty (i2 :: l2)) as [vb ->]; [discriminate|].
      destruct (test sp) as [|i3 l3]; [reflexivity|].
      destruct Hempty as [H|[H|H]]; discriminate H.
    + intros H1 H2 H3.
      destruct (has_both_sources_nonempty _ H1) as [tb ->].
      destruct (has_both_sources_nonempty _ H2) as [vb ->].
      destruct (has_both_sources_nonempty _ H3) as [teb ->].
      cbn [bind]. eexists. split; reflexivity.
Qed.

(** Four patients in one group with the default ratios: nobody goes to
    val, its image table is empty. *)
Lemma validate_splits_outcome_witness :
  let s := snd (Demo.split_of Demo.four_chexpert 0.8 0.1 0.1) in
  validate_splits s = (Raise (KeyError "source"), s).
Proof.
  intros s.
  destruct (splits s) as [sp|] eqn:E; [|vm_compute in E; discriminate E].
  apply (proj2 (validate_splits_outcome s) sp E).
  - vm_compute in E. injection E as <-. discriminate.
  - vm_compute in E. injection E as <-. right. left. reflexivity.
Defined.

Lemma no_overlap_check_spec (a b c : list string) :
  (List.length (set_inter (py_set a) (py_set b)) =? 0)%nat &&
  (List.length (set_inter (py_set a) (py_set c)) =? 0)%nat &&
  (List.length (set_inter (py_set b) (py_set c)) =? 0)%nat = true <->
  (forall x, In x a -> ~ In x b) /\
  (forall x, In x a -> ~ In x c) /\
  (forall x, In x b -> ~ In x c).
Proof. rewrite !andb_true_iff, !set_inter_empty. tauto. Qed.

Lemma assigned_check_spec (all a b c : list string) :
  set_eqb (py_set all) (set_union (set_union (py_set a) (py_set b)) (py_set c)) = true <->
  forall x, In x all <-> In x a \/ In x b \/ In x c.
Proof.
  rewrite set_eqb_spec. split; intros H x; specialize (H x);
    rewrite !set_union_In, !py_set_In in *; tauto.
Qed.

(** X8. In a report that the validator returns, the no-overlap check is
    true exactly when no patient is listed in two of the three splits,
    the all-assigned check is true exactly when the patients listed in
    the splits are the keys of the patient groups, and the overall
    verdict is true exactly when each of the six checks is. *)
Theorem validation_checks_meaning (pd : dict (list nat)) (sp : splits_t)
        (report : dict bool) :
  validation_report pd sp = Ok report ->
  (dict_get "no_patient_overlap" report = Some true <->
   (forall x, In x (train_patients sp) -> ~ In x (val_patients sp)) /\
   (forall x, In x (train_patients sp) -> ~ In x (test_patients sp)) /\
   (forall x, In x (val_patients sp) -> ~ In x (test_patients sp))) /\
  (dict_get "all_patients_assigned" report = Some true <->
   forall x, In x (keys pd) <->
             In x (train_patients sp) \/ In x (val_patients sp) \/
             In x (test_patients sp)) /\
  (dict_get "overall_valid" report = Some true <->
   forall check,
     In check [ "no_patient_overlap"; "ratio_validation"; "train_has_both_sources";
                "val_has_both_sources"; "test_has_both_sources";
                "all_patients_assigned" ] ->
     dict_get check report = Some true).
Proof.
  intros Hrep.
  apply validation_report_value in Hrep
    as (_ & _ & _ & _ & ratio & tb & vb & teb & Hrep).
  cbv zeta in Hrep.
  set (no := (_ && _ && _)%bool) in Hrep.
  set (asg := set_eqb _ _) in Hrep.
  subst report. cbn [dict_get String.eqb Ascii.eqb Bool.eqb].
  split; [|split].
  - rewrite <- no_overlap_check_spec. fold no. split; [now intros [= ->] | now intros ->].
  - rewrite <- assigned_check_spec. fold asg. split; [now intros [= ->] | now intros ->].
  - split.
    + intros [= H]. rewrite !andb_true_iff in H.
      destruct H as (-> & -> & -> & -> & -> & -> & _).
      intros check Hin. simpl in Hin.
      destruct Hin as [<-|[<-|[<-|[<-|[<-|[<-|[]]]]]]]; reflexivity.
    + intros H.
      pose proof (H "no_patient_overlap") as H1.
      pose proof (H "ratio_validation") as H2.
      pose proof (H "train_has_both_sources") as H3.
      pose proof (H "val_has_both_sources") as H4.
      pose proof (H "test_has_both_sources") as H5.
      pose proof (H "all_patients_assigned") as H6.
      cbn [dict_get String.eqb Ascii.eqb Bool.eqb] in H1, H2, H3, H4, H5, H6.
      assert (E1 : Some no = Some true) by (apply H1; simpl; tauto).
      assert (E2 : Some ratio = Some true) by (apply H2; simpl; tauto).
      assert (E3 : Some tb = Some true) by (apply H3; simpl; tauto).
      assert (E4 : Some vb = Some true) by (apply H4; simpl; tauto).
      assert (E5 : Some teb = Some true) by (apply H5; simpl; tauto).
      assert (E6 : Some asg = Some true) by (apply H6; simpl; tauto).
      injection E1 as ->. injection E2 as ->. injection E3 as ->.
      injection E4 as ->. injection E5 as ->. injection E6 as ->. reflexivity.
Qed.

(** A split of the two-source inventory. *)
Lemma validation_checks_meaning_witness :
  exists sp s1 report,
    Demo.split_of Demo.mixed 0.5 0.25 0.25 = (Ok sp, s1) /\
    validation_report (patient_data s1) sp = Ok report /\
    dict_get "no_patient_overlap" report = Some true /\
    (forall x, In x (train_patients sp) -> ~ In x (val_patients sp)).
Proof.
  destruct (Demo.split_of Demo.mixed 0.5 0.25 0.25) as [[sp|e] s1] eqn:E;
    [|vm_compute in E; discriminate E].
  destruct (validation_report (patient_data s1) sp) as [report|e] eqn:Er.
  2: { exfalso. vm_compute in E. injection E as <- <-.
       vm_compute in Er. discriminate Er. }
  exists sp, s1, report. split; [reflexivity|]. split; [exact Er|].
  pose proof (validation_checks_meaning _ _ _ Er) as [[Hno _] _].
  assert (Hd : dict_get "no_patient_overlap" report = Some true).
  { vm_compute in E. injection E as <- <-. vm_compute in Er. injection Er as <-.
    reflexivity. }
  split; [exact Hd|]. apply (Hno Hd).
Defined.

Section Pipeline.
Context {G : Type}.
Variable np_shuffle : G -> list string -> list string * G.
Hypothesis shuffle_permutes : forall g l, Permutation l (fst (np_shuffle g l)).

(** [create_splits] on groups with distinct, source-prefixed keys. *)
Lemma create_splits_partitions train_ratio val_ratio test_ratio (s s' : @state G) sp :
  NoDup (keys (patient_data s)) ->
  Forall source_prefixed (keys (patient_data s)) ->
  ratios_ok train_ratio val_ratio test_ratio = true ->
  (0 <= train_ratio)%Q -> (0 <= val_ratio)%Q ->
  create_splits np_shuffle train_ratio val_ratio test_ratio s = (Ok sp, s') ->
  partitions (keys (patient_data s))
             (train_patients sp) (val_patients sp) (test_patients sp) /\
  patient_data s' = patient_data s /\ splits s' = Some sp.
Proof.
  intros Hnd Hpre Hok Ht Hv E.
  destruct (create_splits_patients np_shuffle shuffle_permutes
              train_ratio val_ratio test_ratio s Hok Ht Hv)
    as (c & r & sp0 & s0 & Pc & Pr & E0 & Hsp & Hpd & Etr & Eva & Ete).
  rewrite E in E0. injection E0 as <- <-.
  split; [|now split].
  apply partitions_of_permutation; [exact Hnd|].
  rewrite Etr, Eva, Ete.
  rewrite Permutation_three_way, <- Pc, <- Pr.
  apply Permutation_filter_exclusive.
  eapply Forall_impl; [|exact Hpre]. apply source_prefix_exclusive.
Qed.

(** X9. On a split that [create_splits] made from patient groups with
    distinct, source-prefixed keys and accepted ratios that are not
    negative, the validator, whenever it returns a report, reports both
    the no-overlap check and the all-assigned check as true. *)
Theorem created_split_passes_structural_checks
        train_ratio val_ratio test_ratio (s s' : @state G) sp report :
  NoDup (keys (patient_data s)) ->
  Forall source_prefixed (keys (patient_data s)) ->
  ratios_ok train_ratio val_ratio test_ratio = true ->
  (0 <= train_ratio)%Q -> (0 <= val_ratio)%Q ->
  create_splits np_shuffle train_ratio val_ratio test_ratio s = (Ok sp, s') ->
  fst (validate_splits s') = Ok report ->
  dict_get "no_patient_overlap" report = Some true /\
  dict_get "all_patients_assigned" report = Some true.
Proof.
  intros Hnd Hpre Hok Ht Hv E Hval.
  destruct (create_splits_partitions _ _ _ _ _ _ Hnd Hpre Hok Ht Hv E)
    as ((D1 & D2 & D3 & _ & _ & _ & Hall) & Hpd & Hsp).
  unfold validate_splits in Hval. rewrite Hsp, Hpd in Hval. simpl in Hval.
  apply validation_report_value in Hval
    as (_ & _ & _ & _ & ratio & tb & vb & teb & ->).
  cbn [dict_get String.eqb Ascii.eqb Bool.eqb]. split; f_equal.
  - apply no_overlap_check_spec. now repeat split.
  - apply assigned_check_spec. exact Hall.
Qed.
End Pipeline.

(** The two-source inventory split in halves and quarters. *)
Lemma created_split_passes_structural_checks_witness :
  exists sp s1 report,
    Demo.split_of Demo.mixed 0.5 0.25 0.25 = (Ok sp, s1) /\
    fst (validate_splits s1) = Ok report /\
    dict_get "no_patient_overlap" report = Some true /\
    dict_get "all_patients_assigned" report = Some true.
Proof.
  eexists. eexists. eexists.
  split; [vm_compute; reflexivity|]. split; [vm_compute; reflexivity|].
  eapply (created_split_passes_structural_checks Demo.shuffle demo_shuffle_permutes
            0.5 0.25 0.25 (Demo.prepared Demo.mixed Demo.no_captions)).
  - vm_compute. repeat (constructor; [simpl; intuition discriminate|]). constructor.
  - vm_compute.
    repeat (constructor; [first [left; reflexivity | right; reflexivity]|]). constructor.
  - reflexivity.
  - unfold Qle; simpl; lia.
  - unfold Qle; simpl; lia.
  - vm_compute. reflexivity.
  - vm_compute. reflexivity.
Defined.

(** ** The patient mapping *)

Lemma keys_dict_set {V} (k : string) (v : V) (d : dict V) :
  keys (dict_set k v d) = if mem k (keys d) then keys d else keys d ++ [k].
Proof.
  induction d as [|[k' v'] d IH]; simpl; [reflexivity|].
  unfold mem in *. simpl. destruct (String.eqb k k') eqn:E; simpl.
  - reflexivity.
  - fold (keys (dict_set k v d)). rewrite IH. fold (keys d).
    now destruct (existsb (String.eqb k) (keys d)).
Qed.

Lemma fold_dict_set_const {V} (v : V) (l : list string) :
  forall (m : dict V) (q : string),
    dict_get q (fold_left (fun m pid => dict_set pid v m) l m)
    = if mem q l then Some v else dict_get q m.
Proof.
  induction l as [|p l IH]; intros m q; simpl; [reflexivity|].
  rewrite IH. unfold mem. simpl.
  destruct (existsb (String.eqb q) l); [now rewrite orb_true_r|].
  rewrite orb_false_r. destruct (String.eqb q p) eqn:E.
  - apply String.eqb_eq in E. subst. apply dict_get_set_same.
  - apply String.eqb_neq in E. now apply dict_get_set_other.
Qed.

Lemma fold_dict_set_const_keys {V} (v : V) (l : list string) :
  forall m : dict V,
    NoDup (keys m) ->
    NoDup (keys (fold_left (fun m pid => dict_set pid v m) l m)) /\
    forall x, In x (keys (fold_left (fun m pid => dict_set pid v m) l m)) <->
              In x (keys m) \/ In x l.
Proof.
  induction l as [|p l IH]; intros m Hnd; simpl; [tauto|].
  assert (Hset : NoDup (keys (dict_set p v m)) /\
                 forall x, In x (keys (dict_set p v m)) <-> In x (keys m) \/ x = p).
  { rewrite keys_dict_set. destruct (mem p (keys m)) eqn:E.
    - split; [exact Hnd|]. intros x. apply mem_spec in E.
      split; [tauto | intros [H| ->]; assumption].
    - apply mem_false in E. split; [now apply NoDup_snoc|].
      intros x. rewrite in_app_iff. simpl. intuition congruence. }
  destruct Hset as [Hnd' Hin']. destruct (IH _ Hnd') as [H1 H2].
  split; [exact H1|]. intros x. rewrite H2, Hin'. intuition congruence.
Qed.

(** X10. The patient mapping has one entry for each patient listed in a
    split and no other; it maps a patient to the split that lists it,
    and a patient that several splits list to the last of train, val,
    test that does. *)
Theorem patient_mapping_lookup (sp : splits_t) :
  NoDup (keys (patient_mapping sp)) /\
  (forall pid,
      In pid (keys (patient_mapping sp)) <->
      In pid (train_patients sp) \/ In pid (val_patients sp) \/
      In pid (test_patients sp)) /\
  (forall pid,
      dict_get pid (patient_mapping sp) =
      if mem pid (test_patients sp) then Some "test"
      else if mem pid (val_patients sp) then Some "val"
      else if mem pid (train_patients sp) then Some "train"
      else None).
Proof.
  unfold patient_mapping. split; [|split].
  - repeat (apply fold_dict_set_const_keys). constructor.
  - intros pid.
    destruct (fold_dict_set_const_keys "train" (train_patients sp) []) as [N1 K1];
      [constructor|].
    destruct (fold_dict_set_const_keys "val" (val_patients sp) _ N1) as [N2 K2].
    destruct (fold_dict_set_const_keys "test" (test_patients sp) _ N2) as [_ K3].
    rewrite K3, K2, K1. simpl. tauto.
  - intros pid. now rewrite !fold_dict_set_const.
Qed.

(** ** Saving *)

Lemma split_block_cases (labels : dict (list string)) (patients : list string)
      (df : dataframe) :
  (df = [] /\ split_block labels patients df = Raise (KeyError "patient_id")) \/
  (df <> [] /\ exists b, split_block labels patients df = Ok b /\
                         n_patients b = List.length patients /\
                         n_images b = List.length df).
Proof.
  destruct df as [|im df]; [left; now split|].
  right. split; [discriminate|].
  unfold split_block, get_disease_distribution, source_counts, column.
  cbn [bind]. eexists. split; [reflexivity|]. now split.
Qed.

(** [save_splits] once the splits are there, step by step. *)
Lemma save_splits_steps {G} (now dir : string) (s : @state G) (sp : splits_t) :
  splits s = Some sp ->
  let indexed := with_files (with_index_files dir sp (files s)) s in
  save_splits now dir s =
  match split_block (disease_labels s) (train_patients sp) (train sp) with
  | Raise e => (Raise e, indexed)
  | Ok train_block =>
      match split_block (disease_labels s) (val_patients sp) (val sp) with
      | Raise e => (Raise e, indexed)
      | Ok val_block =>
          match split_block (disease_labels s) (test_patients sp) (test sp) with
          | Raise e => (Raise e, indexed)
          | Ok test_block =>
              match validation_report (patient_data s) sp with
              | Raise e => (Raise e, indexed)
              | Ok checks =>
                  (Ok tt,
                   with_files
                     (with_report_files dir sp
                        (mk_metadata now (random_seed s) train_block val_block
                                     test_block checks)
                        (files s)) s)
              end
          end
      end
  end.
Proof.
  intros Hsp indexed. unfold save_splits.
  unfold bindM at 1. unfold gets at 1. rewrite Hsp.
  unfold bindM, write_file, modify, gets, lift, validate_splits. cbn.
  rewrite Hsp.
  destruct (split_block (disease_labels s) (train_patients sp) (train sp));
    [|reflexivity].
  destruct (split_block (disease_labels s) (val_patients sp) (val sp));
    [|reflexivity].
  destruct (split_block (disease_labels s) (test_patients sp) (test sp));
    [|reflexivity].
  destruct (validation_report (patient_data s) sp); reflexivity.
Qed.

(** [save_splits] on a split that the validator accepts to report on. *)
Lemma save_splits_returns {G} (now dir : string) (s : @state G) (sp : splits_t)
      (report : dict bool) :
  splits s = Some sp ->
  validation_report (patient_data s) sp = Ok report ->
  exists meta,
    save_splits now dir s
    = (Ok tt, with_files (with_report_files dir sp meta (files s)) s) /\
    validation_checks meta = report /\
    generated_at meta = now /\
    meta_random_seed meta = random_seed s /\
    n_patients (meta_train meta) = List.length (train_patients sp) /\
    n_patients (meta_val meta) = List.length (val_patients sp) /\
    n_patients (meta_test meta) = List.length (test_patients sp) /\
    n_images (meta_train meta) = List.length (train sp) /\
    n_images (meta_val meta) = List.length (val sp) /\
    n_images (meta_test meta) = List.length (test sp).
Proof.
  intros Hsp Hrep. rewrite (save_splits_steps now dir s sp Hsp). cbv zeta.
  rewrite Hrep.
  apply validation_report_value in Hrep as (_ & H1 & H2 & H3 & _).
  destruct (split_block_cases (disease_labels s) (train_patients sp) (train sp))
    as [[E _]|(_ & b1 & -> & P1 & I1)]; [contradiction|].
  destruct (split_block_cases (disease_labels s) (val_patients sp) (val sp))
    as [[E _]|(_ & b2 & -> & P2 & I2)]; [contradiction|].
  destruct (split_block_cases (disease_labels s) (test_patients sp) (test sp))
    as [[E _]|(_ & b3 & -> & P3 & I3)]; [contradiction|].
  eexists. split; [reflexivity|]. simpl. repeat split; assumption.
Qed.

(** X11. [save_splits] without a split raises [KeyError] and writes
    nothing. With a split it first writes the three index tables; it then
    returns, having also written the metadata report and the patient
    mapping, exactly when the validator returns a report on that split
    (the report is the one embedded in the metadata, beside the seed and
    the patient and image counts); when the validator raises, so does
    [save_splits], and the three index tables stay written without the
    two reports. *)
Theorem save_splits_outcome {G} (now dir : string) (s : @state G) :
  (splits s = None -> save_splits now dir s = (Raise (KeyError "train"), s)) /\
  (forall sp, splits s = Some sp ->
     (forall report,
         validation_report (patient_data s) sp = Ok report ->
         exists meta,
           save_splits now dir s
           = (Ok tt, with_files (with_report_files dir sp meta (files s)) s) /\
           validation_checks meta = report /\
           generated_at meta = now /\
           meta_random_seed meta = random_seed s /\
           n_patients (meta_train meta) = List.length (train_patients sp) /\
           n_patients (meta_val meta) = List.length (val_patients sp) /\
           n_patients (meta_test meta) = List.length (test_patients sp) /\
           n_images (meta_train meta) = List.length (train sp) /\
           n_images (meta_val meta) = List.length (val sp) /\
           n_images (meta_test meta) = List.length (test sp)) /\
     (forall e,
         validation_report (patient_data s) sp = Raise e ->
         exists e',
           save_splits now dir s
           = (Raise e', with_files (with_index_files dir sp (files s)) s))).
Proof.
  split.
  - intros Hsp. unfold save_splits, bindM, gets, raise. now rewrite Hsp.
  - intros sp Hsp. split.
    + intros report Hrep. now apply save_splits_returns.
    + intros e Hrep. rewrite (save_splits_steps now dir s sp Hsp). cbv zeta.
      rewrite Hrep.
      destruct (split_block _ _ (train sp)); [|eexists; reflexivity].
      destruct (split_block _ _ (val sp)); [|eexists; reflexivity].
      destruct (split_block _ _ (test sp)); eexists; reflexivity.
Qed.

(** A split whose val table is empty: three files and an error. *)
Lemma save_splits_outcome_witness :
  let s := snd (Demo.split_of Demo.four_chexpert 0.8 0.1 0.1) in
  exists e' s',
    save_splits "2025-10-01T12:00:00" "metadata/splits" s = (Raise e', s') /\
    keys (files s') = [ "metadata/splits/train_index.csv";
                        "metadata/splits/val_index.csv";
                        "metadata/splits/test_index.csv" ].
Proof.
  intros s.
  destruct (splits s) as [sp|] eqn:Hsp; [|vm_compute in Hsp; discriminate Hsp].
  destruct (validation_report (patient_data s) sp) as [report|e] eqn:Hrep.
  { exfalso. vm_compute in Hsp. injection Hsp as <-. vm_compute in Hrep.
    discriminate Hrep. }
  destruct (proj2 (proj2 (save_splits_outcome "2025-10-01T12:00:00" "metadata/splits" s)
                     sp Hsp) e Hrep) as [e' E].
  exists e'. eexists. split; [exact E|].
  vm_compute in Hsp. injection Hsp as <-. vm_compute. reflexivity.
Defined.

(** ** The whole run *)

Lemma for_each_preserves {G A B} (f : @state G -> B) (body : A -> M unit) (l : list A) :
  (forall x s r s', body x s = (r, s') -> f s' = f s) ->
  forall s r s', for_each l body s = (r, s') -> f s' = f s.
Proof.
  intros Hbody. induction l as [|x l IH]; intros s r s'; simpl.
  - unfold ret. intros E. now injection E as _ <-.
  - intros E. apply bindM_cases in E as [(e & E & _)|(a & s1 & E1 & E2)].
    + now apply (Hbody x s _ _ E).
    + rewrite (IH _ _ _ E2). now apply (Hbody x s _ _ E1).
Qed.

Lemma load_master_index_files {G} (read_csv : string -> result table)
      (s s' : @state G) r :
  load_master_index read_csv s = (r, s') -> files s' = files s.
Proof.
  unfold load_master_index, bindM, modify, ret, raise.
  destruct (read_csv (master_index_path s)) as [t|e].
  - destruct (forallb _ _); intros E; now injection E as _ <-.
  - intros E. now injection E as _ <-.
Qed.

Lemma group_row_files {G} (hash : string -> Z) (row : csv_row) (s s' : @state G) r :
  group_row hash row s = (r, s') -> files s' = files s.
Proof.
  unfold group_row, bindM, lift, modify.
  destruct (extract_patient_id _ _ _); intros E; now injection E as _ <-.
Qed.

Lemma group_by_patient_files {G} (hash : string -> Z) (s s' : @state G) r :
  group_by_patient hash s = (r, s') -> files s' = files s.
Proof.
  unfold group_by_patient. unfold bindM at 1. unfold gets at 1.
  destruct (master_df s) as [t|].
  - intros E. apply bindM_cases in E as [(e & E & _)|([] & s1 & E1 & E2)].
    + revert E. apply for_each_preserves. intros x st r0 st'. apply group_row_files.
    + unfold gets in E2. injection E2 as _ <-.
      revert E1. apply for_each_preserves. intros x st r0 st'. apply group_row_files.
  - unfold raise. intros E. now injection E as _ <-.
Qed.

(** The steps of a run, from loading to saving. *)
Lemma run_full_pipeline_cases {G} (np_shuffle : G -> list string -> list string * G)
      (hash : string -> Z) (read_csv : string -> result table)
      (read_caption : string -> option string) (now dir : string)
      (s s' : @state G) r :
  run_full_pipeline np_shuffle hash read_csv read_caption now dir s = (r, s') ->
  (exists e, r = Raise e /\ files s' = files s) \/
  (exists sp s5 report,
      files s5 = files s /\ splits s5 = Some sp /\
      validation_report (patient_data s5) sp = Ok report /\
      bindM (save_splits now dir) (fun _ => ret sp) s5 = (r, s')).
Proof.
  unfold run_full_pipeline. intros E.
  apply bindM_cases in E as [(e & E & ->)|(t & s1 & E1 & E)];
    [left; exists e; split; [reflexivity | now apply load_master_index_files in E]|].
  apply load_master_index_files in E1.
  apply bindM_cases in E as [(e & E & ->)|(pd & s2 & E2 & E)];
    [left; exists e; split; [reflexivity|];
     apply group_by_patient_files in E; congruence|].
  apply group_by_patient_files in E2.
  apply bindM_cases in E as [(e & E & ->)|(labels & s3 & E3 & E)];
    [unfold extract_patient_disease_labels, bindM, modify, gets in E; discriminate E|].
  assert (F3 : files s3 = files s2).
  { unfold extract_patient_disease_labels, bindM, modify, gets in E3.
    now injection E3 as _ <-. }
  apply bindM_cases in E as [(e & E & ->)|(sp & s4 & E4 & E)].
  { exfalso.
    destruct (create_splits_accepted np_shuffle 0.8 0.1 0.1 s3)
      as (sp' & s4' & E' & _); [reflexivity|].
    rewrite E' in E. discriminate E. }
  apply create_splits_frame in E4 as (_ & _ & _ & F4 & Hsp & _).
  apply bindM_cases in E as [(e & E & ->)|(report & s5 & E5 & E)].
  - left. exists e. split; [reflexivity|].
    unfold validate_splits in E. rewrite Hsp in E. injection E as _ <-. congruence.
  - right. unfold validate_splits in E5. rewrite Hsp in E5. injection E5 as E5 <-.
    exists sp, s4, report. repeat split; try assumption. congruence.
Qed.

(** X12. A run from loading to saving either returns, and then it has
    written the three index tables, the metadata report with the
    validator's report in it and the patient mapping, and [self.splits]
    holds the split it returns; or it raises, and then it has written no
    file at all. *)
Theorem run_full_pipeline_all_or_nothing {G}
        (np_shuffle : G -> list string -> list string * G)
        (hash : string -> Z) (read_csv : string -> result table)
        (read_caption : string -> option string) (now dir : string)
        (s s' : @state G) r :
  run_full_pipeline np_shuffle hash read_csv read_caption now dir s = (r, s') ->
  match r with
  | Raise _ => files s' = files s
  | Ok sp =>
      splits s' = Some sp /\
      exists meta,
        files s' = with_report_files dir sp meta (files s) /\
        validation_report (patient_data s') sp = Ok (validation_checks meta)
  end.
Proof.
  intros E.
  apply run_full_pipeline_cases in E
    as [(e & -> & F)|(sp & s5 & report & F5 & Hsp & Hrep & E)]; [exact F|].
  destruct (save_splits_returns now dir s5 sp report Hsp Hrep)
    as (meta & Esave & Hchecks & _).
  unfold bindM in E. rewrite Esave in E. unfold ret in E. injection E as <- <-.
  cbn [splits files patient_data with_files]. split; [exact Hsp|].
  exists meta. rewrite F5, Hchecks. now split.
Qed.

(** A run that raises in the validator (nobody goes to val) has written
    nothing. *)
Lemma run_full_pipeline_all_or_nothing_witness :
  let run := run_full_pipeline Demo.shuffle Demo.hash0 (fun _ => Ok Demo.four_chexpert)
               Demo.no_captions "2025-10-01T12:00:00" "metadata/splits"
               (init Demo.seed "metadata/master_index.csv" 42) in
  is_ok (fst run) = false /\ files (snd run) = [].
Proof.
  intros run.
  assert (Hr : is_ok (fst run) = false) by (vm_compute; reflexivity).
  split; [exact Hr|].
  pose proof (run_full_pipeline_all_or_nothing
                Demo.shuffle Demo.hash0 (fun _ => Ok Demo.four_chexpert)
                Demo.no_captions "2025-10-01T12:00:00" "metadata/splits"
                (init Demo.seed "metadata/master_index.csv" 42)
                (snd run) (fst run) (surjective_pairing run)) as H.
  destruct (fst run) as [sp|e]; [discriminate Hr | exact H].
Defined.

(** ** The image tables that [create_splits] builds *)

Lemma nth_error_stamp (name : string) (a : nat) (h : list image) (b : nat) :
  nth_error (stamp name a h) b =
  if (a =? b)%nat then option_map (with_split name) (nth_error h b) else nth_error h b.
Proof.
  revert a b. induction h as [|im h IH]; intros a b.
  - destruct a as [|a], b as [|b]; simpl; try reflexivity.
    now destruct (a =? b)%nat.
  - destruct a as [|a], b as [|b]; simpl; try reflexivity. apply IH.
Qed.

Lemma nth_error_fold_stamp (name : string) (records : list nat) :
  forall (h : list image) (b : nat),
    nth_error (fold_left (fun h addr => stamp name addr h) records h) b =
    if existsb (Nat.eqb b) records
    then option_map (with_split name) (nth_error h b)
    else nth_error h b.
Proof.
  induction records as [|a records IH]; intros h b; simpl; [reflexivity|].
  rewrite IH, nth_error_stamp. rewrite (Nat.eqb_sym b a).
  destruct (a =? b)%nat; simpl; [|reflexivity].
  destruct (existsb (Nat.eqb b) records); [|reflexivity].
  now destruct (nth_error h b).
Qed.

Lemma deref_fold_stamp (name : string) (records : list nat) (h : list image) :
  deref (fold_left (fun h addr => stamp name addr h) records h) records
  = map (with_split name) (deref h records).
Proof.
  unfold deref.
  assert (Hgen : forall l, incl l records ->
    flat_map (fun a => match nth_error (fold_left (fun h addr => stamp name addr h)
                                                  records h) a with
                       | Some im => [im] | None => [] end) l
    = map (with_split name)
          (flat_map (fun a => match nth_error h a with
                              | Some im => [im] | None => [] end) l)).
  { induction l as [|a l IH]; intros Hl; simpl; [reflexivity|].
    rewrite map_app, IH by (intros x Hx; apply Hl; now right). f_equal.
    rewrite nth_error_fold_stamp.
    assert (E : existsb (Nat.eqb a) records = true).
    { apply existsb_exists. exists a. split; [apply Hl; now left | apply Nat.eqb_refl]. }
    rewrite E. now destruct (nth_error h a). }
  apply Hgen, incl_refl.
Qed.

Lemma deref_stamped (h0 h : list image) (l : list nat) :
  Forall2 stamped_from h0 h -> Forall2 stamped_from (deref h0 l) (deref h l).
Proof.
  intros H. unfold deref. induction l as [|a l IH]; simpl; [constructor|].
  apply Forall2_app; [|exact IH].
  destruct (nth_error h0 a) as [im0|] eqn:E0.
  - destruct (Forall2_nth_error_left _ _ _ H a im0 E0) as (im & -> & R).
    constructor; [exact R | constructor].
  - apply nth_error_None in E0. rewrite (Forall2_length H) in E0.
    apply nth_error_None in E0. rewrite E0. constructor.
Qed.

Lemma with_split_stamped (name : string) (l0 l : list image) :
  Forall2 stamped_from l0 l -> map (with_split name) l = map (with_split name) l0.
Proof.
  induction 1 as [|im0 im l0 l (Hr & Hp & _) _ IH]; simpl; [reflexivity|].
  rewrite IH. f_equal. unfold with_split. now rewrite Hr, Hp.
Qed.

(** What a [create_splits] that returns has done, table by table. *)
Lemma create_splits_tables {G} (np_shuffle : G -> list string -> list string * G)
      tr vr te (s s' : @state G) sp :
  create_splits np_shuffle tr vr te s = (Ok sp, s') ->
  let pd := patient_data s in
  train sp = map (with_split "train") (deref (heap s) (records_of pd (train_patients sp))) /\
  val sp = map (with_split "val") (deref (heap s) (records_of pd (val_patients sp))) /\
  test sp = map (with_split "test") (deref (heap s) (records_of pd (test_patients sp))).
Proof.
  unfold create_splits. intros H.
  apply bindM_ok in H as (pd & s1 & E1 & H). injection E1 as <- <-.
  apply bindM_ok in H as (c & s2 & E2 & H).
  apply stratified_split_patients_state in E2 as [g2 ->].
  apply bindM_ok in H as (r & s3 & E3 & H).
  apply stratified_split_patients_state in E3 as [g3 ->].
  apply bindM_ok in H as (df1 & s4 & E4 & H). injection E4 as <- <-.
  apply bindM_ok in H as (df2 & s5 & E5 & H). injection E5 as <- <-.
  apply bindM_ok in H as (df3 & s6 & E6 & H). injection E6 as <- <-.
  apply bindM_ok in H as ([] & s7 & E7 & H). injection E7 as <-.
  injection H as <- _.
  cbn [train val test train_patients val_patients test_patients
       patient_data heap with_np_random with_heap].
  set (rec1 := records_of _ (ps_train c ++ ps_train r)).
  set (rec2 := records_of _ (ps_val c ++ ps_val r)).
  set (rec3 := records_of _ (ps_test c ++ ps_test r)).
  set (h1 := fold_left (fun h addr => stamp "train" addr h) rec1 (heap s)).
  set (h2 := fold_left (fun h addr => stamp "val" addr h) rec2 h1).
  assert (S1 : Forall2 stamped_from (heap s) h1).
  { apply fold_stamp_stamped; [simpl; tauto | apply stamped_from_refl]. }
  assert (S2 : Forall2 stamped_from (heap s) h2).
  { apply fold_stamp_stamped; [simpl; tauto | exact S1]. }
  split; [|split].
  - unfold h1. apply deref_fold_stamp.
  - unfold h2. rewrite deref_fold_stamp.
    apply with_split_stamped. now apply deref_stamped.
  - rewrite deref_fold_stamp.
    apply with_split_stamped. now apply deref_stamped.
Qed.

(** X13. Each image table that [create_splits] returns lists, patient by
    patient in the order of the split's patient list and image by image
    in the order of the patient's group, the image dictionaries stored
    for the patients of that split, each with its row fields and patient
    identifier as stored and with ['split'] set to the name of the
    split. *)
Theorem create_splits_tables_list_the_groups {G}
        (np_shuffle : G -> list string -> list string * G)
        (train_ratio val_ratio test_ratio : Q) (s s' : @state G) (sp : splits_t) :
  create_splits np_shuffle train_ratio val_ratio test_ratio s = (Ok sp, s') ->
  forall name df patients,
    In (name, df, patients)
       [ ("train", train sp, train_patients sp); ("val", val sp, val_patients sp);
         ("test", test sp, test_patients sp) ] ->
    df = map (with_split name)
             (deref (heap s) (records_of (patient_data s) patients)).
Proof.
  intros E name df patients Hin.
  destruct (create_splits_tables np_shuffle _ _ _ s s' sp E) as (H1 & H2 & H3).
  destruct Hin as [H|[H|[H|[]]]]; injection H as <- <- <-; assumption.
Qed.

(** The test table of a split of four patients. *)
Lemma create_splits_tables_list_the_groups_witness :
  let s := Demo.prepared Demo.four_chexpert Demo.no_captions in
  let run := create_splits Demo.shuffle 0.5 0.25 0.25 s in
  exists sp,
    fst run = Ok sp /\
    test sp = map (with_split "test")
                  (deref (heap s) (records_of (patient_data s) (test_patients sp))).
Proof.
  intros s run.
  assert (Hok : is_ok (fst run) = true) by (vm_compute; reflexivity).
  pose proof (surjective_pairing run) as E.
  destruct (fst run) as [sp|e]; [|discriminate Hok].
  exists sp. split; [reflexivity|].
  apply (create_splits_tables_list_the_groups Demo.shuffle 0.5 0.25 0.25 s (snd run) sp E
           "test" (test sp) (test_patients sp)).
  right. right. left. reflexivity.
Defined.

(** ** Patients and images of a split *)

Lemma deref_In (h : list image) (l : list nat) (im : image) :
  In im (deref h l) <-> exists a, In a l /\ nth_error h a = Some im.
Proof.
  unfold deref. rewrite in_flat_map. split.
  - intros (a & Ha & Him). exists a. split; [exact Ha|].
    destruct (nth_error h a) as [im'|]; [|contradiction].
    destruct Him as [->|[]]. reflexivity.
  - intros (a & Ha & Him). exists a. split; [exact Ha|]. rewrite Him. now left.
Qed.

Lemma records_of_In (pd : dict (list nat)) (l : list string) (a : nat) :
  In a (records_of pd l) <->
  exists pid addrs, In pid l /\ dict_get pid pd = Some addrs /\ In a addrs.
Proof.
  unfold records_of. rewrite in_flat_map. split.
  - intros (pid & Hpid & Ha). destruct (dict_get pid pd) as [addrs|] eqn:E;
      [|contradiction]. now exists pid, addrs.
  - intros (pid & addrs & Hpid & E & Ha). exists pid. split; [exact Hpid|].
    now rewrite E.
Qed.

(** The stored images of listed patients of a well-grouped state. *)
Lemma deref_records_patient {G} (s : @state G) (patients : list string) (im : image) :
  well_grouped s ->
  In im (deref (heap s) (records_of (patient_data s) patients)) ->
  In (img_patient_id im) patients.
Proof.
  intros (_ & _ & Hgroups) Him.
  apply deref_In in Him as (a & Ha & Him).
  apply records_of_In in Ha as (pid & addrs & Hpid & Eget & Ha).
  apply dict_get_Some_In in Eget.
  destruct (Hgroups pid addrs Eget) as [_ Hall].
  rewrite Forall_forall in Hall. destruct (Hall a Ha) as (im' & Him' & Hid).
  assert (im' = im) by congruence. subst im'. now rewrite Hid.
Qed.

(** X14. When the patient groups and the store fit together, every row
    of an image table that [create_splits] returns carries the name of
    its split in ['split'] and belongs to a patient of that split's
    patient list. *)
Theorem image_tables_follow_patient_lists {G}
        (np_shuffle : G -> list string -> list string * G)
        (train_ratio val_ratio test_ratio : Q) (s s' : @state G) (sp : splits_t) :
  well_grouped s ->
  create_splits np_shuffle train_ratio val_ratio test_ratio s = (Ok sp, s') ->
  forall name df patients,
    In (name, df, patients)
       [ ("train", train sp, train_patients sp); ("val", val sp, val_patients sp);
         ("test", test sp, test_patients sp) ] ->
    Forall (fun im => img_split im = Some name /\ In (img_patient_id im) patients) df.
Proof.
  intros Hwg E name df patients Hin.
  assert (Hdf : df = map (with_split name)
                         (deref (heap s) (records_of (patient_data s) patients))).
  { destruct (create_splits_tables np_shuffle _ _ _ s s' sp E) as (H1 & H2 & H3).
    destruct Hin as [H|[H|[H|[]]]]; injection H as <- <- <-; assumption. }
  rewrite Hdf. apply Forall_forall. intros im Him.
  apply in_map_iff in Him as (im0 & <- & Him0). split; [reflexivity|].
  simpl. now apply (deref_records_patient s patients im0).
Qed.

Section Leakage.
Context {G : Type}.
Variable np_shuffle : G -> list string -> list string * G.
Hypothesis shuffle_permutes : forall g l, Permutation l (fst (np_shuffle g l)).

(** X15. No leakage at the image level: for patient groups that fit the
    store and have source-prefixed keys, and accepted ratios whose train
    and val ratios are not negative, no patient has images in two of the
    three image tables that [create_splits] returns. *)
Theorem no_patient_in_two_image_tables
        (train_ratio val_ratio test_ratio : Q) (s s' : @state G) (sp : splits_t) :
  well_grouped s ->
  Forall source_prefixed (keys (patient_data s)) ->
  ratios_ok train_ratio val_ratio test_ratio = true ->
  (0 <= train_ratio)%Q -> (0 <= val_ratio)%Q ->
  create_splits np_shuffle train_ratio val_ratio test_ratio s = (Ok sp, s') ->
  forall im1 im2,
    (In im1 (train sp) /\ In im2 (val sp)) \/
    (In im1 (train sp) /\ In im2 (test sp)) \/
    (In im1 (val sp) /\ In im2 (test sp)) ->
    img_patient_id im1 <> img_patient_id im2.
Proof.
  intros Hwg Hpre Hok Ht Hv E im1 im2 Hin.
  destruct (create_splits_partitions np_shuffle shuffle_permutes _ _ _ s s' sp
              (proj1 Hwg) Hpre Hok Ht Hv E) as ((D1 & D2 & D3 & _) & _).
  destruct (create_splits_tables np_shuffle _ _ _ s s' sp E) as (H1 & H2 & H3).
  assert (Hrow : forall name patients im,
             In im (map (with_split name)
                        (deref (heap s) (records_of (patient_data s) patients))) ->
             In (img_patient_id im) patients).
  { intros name patients im Him. apply in_map_iff in Him as (im0 & <- & Him0).
    simpl. now apply (deref_records_patient s patients im0). }
  rewrite H1, H2, H3 in Hin. intros Heq.
  destruct Hin as [[A B]|[[A B]|[A B]]];
    apply Hrow in A; apply Hrow in B; rewrite Heq in A.
  - now apply (D1 _ A).
  - now apply (D2 _ A).
  - now apply (D3 _ A).
Qed.
End Leakage.

(** ** The concrete inventories are well grouped *)

Lemma NoDup_by_nodup (l : list string) : nodup string_dec l = l -> NoDup l.
Proof. intros <-. apply NoDup_nodup. Qed.

Lemma demo_four_well_grouped :
  well_grouped (Demo.prepared Demo.four_chexpert Demo.no_captions).
Proof.
  assert (Epd : patient_data (Demo.prepared Demo.four_chexpert Demo.no_captions)
                = [ ("chexpert_patient00001", [0; 1]%nat);
                    ("chexpert_patient00002", [2%nat]);
                    ("chexpert_patient00003", [3%nat]);
                    ("chexpert_patient00004", [4%nat]) ])
    by (vm_compute; reflexivity).
  unfold well_grouped. rewrite Epd. split; [|split].
  - apply NoDup_by_nodup. vm_compute. reflexivity.
  - replace (List.length (heap (Demo.prepared Demo.four_chexpert Demo.no_captions)))
      with 5%nat by (vm_compute; reflexivity).
    apply Permutation_refl.
  - intros pid addrs Hin.
    repeat (destruct Hin as [Hin|Hin];
            [injection Hin as <- <-; split; [discriminate|];
             repeat (constructor; [eexists; split; vm_compute; reflexivity|]);
             constructor|]).
    destruct Hin.
Qed.

Lemma demo_mixed_well_grouped :
  well_grouped (Demo.prepared Demo.mixed Demo.no_captions).
Proof.
  assert (Epd : patient_data (Demo.prepared Demo.mixed Demo.no_captions)
                = [ ("chexpert_patient00001", [0%nat]);
                    ("chexpert_patient00002", [1%nat]);
                    ("chexpert_patient00003", [2%nat]);
                    ("chexpert_patient00004", [3%nat]);
                    ("radiopaedia_5", [4%nat]); ("radiopaedia_9", [5%nat]);
                    ("radiopaedia_11", [6%nat]); ("radiopaedia_12", [7%nat]) ])
    by (vm_compute; reflexivity).
  unfold well_grouped. rewrite Epd. split; [|split].
  - apply NoDup_by_nodup. vm_compute. reflexivity.
  - replace (List.length (heap (Demo.prepared Demo.mixed Demo.no_captions)))
      with 8%nat by (vm_compute; reflexivity).
    apply Permutation_refl.
  - intros pid addrs Hin.
    repeat (destruct Hin as [Hin|Hin];
            [injection Hin as <- <-; split; [discriminate|];
             repeat (constructor; [eexists; split; vm_compute; reflexivity|]);
             constructor|]).
    destruct Hin.
Qed.

Lemma demo_mixed_prefixed :
  Forall source_prefixed
         (keys (patient_data (Demo.prepared Demo.mixed Demo.no_captions))).
Proof.
  replace (keys (patient_data (Demo.prepared Demo.mixed Demo.no_captions)))
    with [ "chexpert_patient00001"; "chexpert_patient00002"; "chexpert_patient00003";
           "chexpert_patient00004"; "radiopaedia_5"; "radiopaedia_9";
           "radiopaedia_11"; "radiopaedia_12" ]
    by (vm_compute; reflexivity).
  repeat (constructor; [first [left; reflexivity | right; reflexivity]|]). constructor.
Qed.

(** The rows of the test table of a split of four patients. *)
Lemma image_tables_follow_patient_lists_witness :
  let s := Demo.prepared Demo.four_chexpert Demo.no_captions in
  let run := create_splits Demo.shuffle 0.5 0.25 0.25 s in
  exists sp,
    fst run = Ok sp /\
    Forall (fun im => img_split im = Some "test" /\
                      In (img_patient_id im) (test_patients sp)) (test sp).
Proof.
  intros s run.
  assert (Hok : is_ok (fst run) = true) by (vm_compute; reflexivity).
  pose proof (surjective_pairing run) as E.
  destruct (fst run) as [sp|e]; [|discriminate Hok].
  exists sp. split; [reflexivity|].
  apply (image_tables_follow_patient_lists Demo.shuffle 0.5 0.25 0.25 s (snd run) sp
           demo_four_well_grouped E "test" (test sp) (test_patients sp)).
  right. right. left. reflexivity.
Defined.

(** Train and val rows of a split of the two-source inventory. *)
Lemma no_patient_in_two_image_tables_witness :
  let s := Demo.prepared Demo.mixed Demo.no_captions in
  let run := create_splits Demo.shuffle 0.5 0.25 0.25 s in
  exists sp,
    fst run = Ok sp /\
    forall im1 im2, In im1 (train sp) -> In im2 (val sp) ->
                    img_patient_id im1 <> img_patient_id im2.
Proof.
  intros s run.
  assert (Hok : is_ok (fst run) = true) by (vm_compute; reflexivity).
  pose proof (surjective_pairing run) as E.
  destruct (fst run) as [sp|e]; [|discriminate Hok].
  exists sp. split; [reflexivity|]. intros im1 im2 H1 H2.
  assert (Ht : (0 <= 0.5)%Q) by (unfold Qle; simpl; lia).
  assert (Hv : (0 <= 0.25)%Q) by (unfold Qle; simpl; lia).
  apply (no_patient_in_two_image_tables Demo.shuffle demo_shuffle_permutes
           0.5 0.25 0.25 s (snd run) sp demo_mixed_well_grouped demo_mixed_prefixed
           eq_refl Ht Hv E im1 im2).
  left. now split.
Defined.

(** ** Every image lands in one table *)

Lemma records_of_keys (pd : dict (list nat)) :
  NoDup (keys pd) -> records_of pd (keys pd) = List.concat (map snd pd).
Proof.
  intros Hnd. unfold records_of.
  assert (Hgen : forall l, incl l pd ->
            flat_map (fun pid => match dict_get pid pd with
                                 | Some addrs => addrs | None => [] end) (keys l)
            = List.concat (map snd l)).
  { induction l as [|[k v] l IH]; intros Hl; simpl; [reflexivity|].
    rewrite (dict_get_In_NoDup k v pd Hnd) by (apply Hl; now left).
    f_equal. apply IH. intros x Hx. apply Hl. now right. }
  apply Hgen, incl_refl.
Qed.

Lemma deref_seq_from (pre h : list image) :
  deref (pre ++ h) (seq (List.length pre) (List.length h)) = h.
Proof.
  revert pre. induction h as [|im h IH]; intros pre; simpl; [reflexivity|].
  rewrite nth_error_app2 by lia. rewrite Nat.sub_diag. simpl. f_equal.
  specialize (IH (pre ++ [im])). rewrite <- app_assoc, length_app in IH.
  simpl in IH. rewrite Nat.add_1_r in IH. exact IH.
Qed.

Lemma deref_seq (h : list image) : deref h (seq 0 (List.length h)) = h.
Proof. exact (deref_seq_from [] h). Qed.

Lemma map_img_row_with_split (name : string) (l : list image) :
  map img_row (map (with_split name) l) = map img_row l.
Proof. rewrite map_map. reflexivity. Qed.

Section Conservation.
Context {G : Type}.
Variable np_shuffle : G -> list string -> list string * G.
Hypothesis shuffle_permutes : forall g l, Permutation l (fst (np_shuffle g l)).

(** The three patient lists rearrange the keys of the patient groups. *)
Lemma create_splits_permutation train_ratio val_ratio test_ratio (s s' : @state G) sp :
  Forall source_prefixed (keys (patient_data s)) ->
  ratios_ok train_ratio val_ratio test_ratio = true ->
  (0 <= train_ratio)%Q -> (0 <= val_ratio)%Q ->
  create_splits np_shuffle train_ratio val_ratio test_ratio s = (Ok sp, s') ->
  Permutation (keys (patient_data s))
              (train_patients sp ++ val_patients sp ++ test_patients sp).
Proof.
  intros Hpre Hok Ht Hv E.
  destruct (create_splits_patients np_shuffle shuffle_permutes
              train_ratio val_ratio test_ratio s Hok Ht Hv)
    as (c & r & sp0 & s0 & Pc & Pr & E0 & _ & _ & Etr & Eva & Ete).
  rewrite E in E0. injection E0 as <- <-.
  rewrite Etr, Eva, Ete.
  rewrite Permutation_three_way, <- Pc, <- Pr.
  apply Permutation_filter_exclusive.
  eapply Forall_impl; [|exact Hpre]. apply source_prefix_exclusive.
Qed.

(** X16. Every image lands in exactly one table: for patient groups that
    fit the store and have source-prefixed keys, and accepted ratios
    whose train and val ratios are not negative, the rows of the three
    image tables that [create_splits] returns are, taken together, a
    rearrangement of the stored image rows, none missing and none
    twice. *)
Theorem image_tables_hold_every_image
        (train_ratio val_ratio test_ratio : Q) (s s' : @state G) (sp : splits_t) :
  well_grouped s ->
  Forall source_prefixed (keys (patient_data s)) ->
  ratios_ok train_ratio val_ratio test_ratio = true ->
  (0 <= train_ratio)%Q -> (0 <= val_ratio)%Q ->
  create_splits np_shuffle train_ratio val_ratio test_ratio s = (Ok sp, s') ->
  Permutation (map img_row (train sp ++ val sp ++ test sp)) (map img_row (heap s)) /\
  (List.length (train sp) + List.length (val sp) + List.length (test sp)
   = List.length (heap s))%nat.
Proof.
  intros (Hnd & Hperm & Hgroups) Hpre Hok Ht Hv E.
  pose proof (create_splits_permutation _ _ _ s s' sp Hpre Hok Ht Hv E) as Hlists.
  destruct (create_splits_tables np_shuffle _ _ _ s s' sp E) as (H1 & H2 & H3).
  assert (Hall : Permutation (map img_row (train sp ++ val sp ++ test sp))
                             (map img_row (heap s))).
  { rewrite H1, H2, H3, !map_app, !map_img_row_with_split, <- !map_app.
    apply Permutation_map.
    unfold deref, records_of. rewrite <- !flat_map_app.
    fold (records_of (patient_data s)
            (train_patients sp ++ val_patients sp ++ test_patients sp)).
    fold (deref (heap s) (records_of (patient_data s)
            (train_patients sp ++ val_patients sp ++ test_patients sp))).
    rewrite <- (deref_seq (heap s)) at 2.
    unfold deref. apply Permutation_flat_map.
    rewrite <- Hperm, <- (records_of_keys _ Hnd).
    unfold records_of. apply Permutation_flat_map. now symmetry. }
  split; [exact Hall|].
  apply Permutation_length in Hall. rewrite !length_map, !length_app in Hall. lia.
Qed.
End Conservation.

(** The eight images of the two-source inventory. *)
Lemma image_tables_hold_every_image_witness :
  let s := Demo.prepared Demo.mixed Demo.no_captions in
  let run := create_splits Demo.shuffle 0.5 0.25 0.25 s in
  exists sp,
    fst run = Ok sp /\
    Permutation (map img_row (train sp ++ val sp ++ test sp)) (map img_row (heap s)) /\
    (List.length (train sp) + List.length (val sp) + List.length (test sp)
     = List.length (heap s))%nat.
Proof.
  intros s run.
  assert (Hok : is_ok (fst run) = true) by (vm_compute; reflexivity).
  pose proof (surjective_pairing run) as E.
  destruct (fst run) as [sp|e]; [|discriminate Hok].
  exists sp. split; [reflexivity|].
  assert (Ht : (0 <= 0.5)%Q) by (unfold Qle; simpl; lia).
  assert (Hv : (0 <= 0.25)%Q) by (unfold Qle; simpl; lia).
  exact (image_tables_hold_every_image Demo.shuffle demo_shuffle_permutes
           0.5 0.25 0.25 s (snd run) sp demo_mixed_well_grouped demo_mixed_prefixed
           eq_refl Ht Hv E).
Defined.

(** ** The value the allocator returns *)

Lemma stratified_split_patients_value {G}
      (np_shuffle : G -> list string -> list string * G)
      patient_ids tr vr te (s s' : @state G) r :
  stratified_split_patients np_shuffle patient_ids tr vr te s = (Ok r, s') ->
  r = fst (split_groups np_shuffle tr vr (group_by_label (disease_labels s) patient_ids)
             (np_random s) (mk_patient_split [] [] [])).
Proof.
  unfold stratified_split_patients. destruct (ratios_ok tr vr te); [|discriminate].
  destruct (split_groups _ _ _ _ _ _) as [r' g']. intros H. now injection H as <- _.
Qed.

(** ** Which files share a patient identifier *)

Lemma search_digits_after_unfold (lit s : string) :
  PyStr.search_digits_after lit s =
  match match_here lit s with
  | Some ds => Some ds
  | None =>
      match s with
      | EmptyString => None
      | String _ t => PyStr.search_digits_after lit t
      end
  end.
Proof. destruct s; reflexivity. Qed.

Lemma strip_prefix_spec (lit s rest : string) :
  PyStr.strip_prefix lit s = Some rest <-> s = lit ^^ rest.
Proof.
  revert s. induction lit as [|a lit IH]; intros s; simpl.
  - split; [intros H; now injection H | now intros ->].
  - destruct s as [|b s]; [split; discriminate|].
    destruct (Ascii.eqb a b) eqn:E.
    + apply Ascii.eqb_eq in E. subst b. rewrite IH. split; [now intros -> |].
      intros H. now injection H.
    + split; [discriminate|]. intros H. injection H as -> _.
      rewrite Ascii.eqb_refl in E. discriminate.
Qed.

Lemma take_digits_spec (s : string) :
  exists rest, s = PyStr.take_digits s ^^ rest /\
               all_digits (PyStr.take_digits s) = true /\
               starts_with_digit rest = false.
Proof.
  induction s as [|c t (rest & E & D & R)]; simpl.
  - now exists "".
  - destruct (PyStr.is_digit c) eqn:Ec.
    + exists rest. simpl. rewrite Ec, D. now rewrite <- E.
    + exists (String c t). simpl. now rewrite Ec.
Qed.

Lemma match_here_some (lit s ds : string) :
  match_here lit s = Some ds ->
  exists rest, s = lit ^^ ds ^^ rest /\ ds <> "" /\ all_digits ds = true /\
               starts_with_digit rest = false.
Proof.
  unfold match_here. destruct (PyStr.strip_prefix lit s) as [r|] eqn:E; [|discriminate].
  apply strip_prefix_spec in E. subst s.
  destruct (take_digits_spec r) as (rest & Er & D & R).
  destruct (PyStr.take_digits r) as [|c t] eqn:Et; [discriminate|].
  intros H. injection H as <-. exists rest. rewrite <- Er.
  repeat split; try assumption. discriminate.
Qed.

Lemma match_here_none (lit s : string) (c : ascii) (q : string) :
  match_here lit s = None -> PyStr.is_digit c = true -> s <> lit ^^ String c q.
Proof.
  unfold match_here. intros H Hc ->.
  rewrite (proj2 (strip_prefix_spec lit _ (String c q)) eq_refl) in H.
  simpl in H. rewrite Hc in H. discriminate.
Qed.

(** [re.search] with the pattern [lit(\d+)]: the model returns the
    capture of the leftmost match, and [None] exactly when there is no
    match. *)
Lemma search_digits_after_spec (lit s : string) :
  match PyStr.search_digits_after lit s with
  | Some ds => leftmost_capture lit s ds
  | None => ~ digits_follow lit s
  end.
Proof.
  induction s as [|a t IH]; rewrite search_digits_after_unfold.
  - destruct (match_here lit "") as [ds|] eqn:E.
    + apply match_here_some in E as (rest & E & N & D & R).
      exists "", rest. repeat split; try assumption. intros; simpl; lia.
    + intros (pre & c & rest & Hc & Hs).
      destruct pre; [|discriminate]. now apply (match_here_none lit "" c rest).
  - destruct (match_here lit (String a t)) as [ds|] eqn:E.
    + apply match_here_some in E as (rest & E & N & D & R).
      exists "", rest. repeat split; try assumption. intros; simpl; lia.
    + destruct (PyStr.search_digits_after lit t) as [ds|].
      * destruct IH as (pre & rest & Es & N & D & R & L).
        exists (String a pre), rest. simpl. rewrite <- Es.
        repeat split; try assumption.
        intros p c q Hc Hp. destruct p as [|b p].
        -- now apply (match_here_none lit (String a t) c q) in Hp.
        -- simpl in Hp. injection Hp as _ Hp. simpl. apply le_n_S. now apply (L p c q).
      * intros (pre & c & rest & Hc & Hs). destruct pre as [|b pre].
        -- now apply (match_here_none lit (String a t) c rest) in Hs.
        -- simpl in Hs. injection Hs as _ Hs. apply IH. now exists pre, c, rest.
Qed.

Lemma of_Z_inj (a b : Z) : PyStr.of_Z a = PyStr.of_Z b -> a = b.
Proof.
  unfold PyStr.of_Z. intros H.
  assert (Hnn : forall z, Z.to_int z <> Decimal.Pos Decimal.Nil /\
                          Z.to_int z <> Decimal.Neg Decimal.Nil).
  { intros [|p|p]; simpl; split; try discriminate;
      intros E; injection E as E; now apply DecimalPos.Unsigned.to_uint_nonnil in E. }
  apply DecimalZ.to_int_inj.
  assert (E : Some (Z.to_int a) = Some (Z.to_int b)).
  { rewrite <- (NilZero.isi (Z.to_int a)) by apply Hnn.
    rewrite <- (NilZero.isi (Z.to_int b)) by apply Hnn. now rewrite H. }
  now injection E.
Qed.

Lemma append_length_inj (a b c d : string) :
  String.length a = String.length c -> a ^^ b = c ^^ d -> a = c /\ b = d.
Proof.
  revert c. induction a as [|x a IH]; intros [|y c] L E; try discriminate.
  - now split.
  - simpl in L, E. injection L as L. injection E as -> E.
    destruct (IH c L E) as [-> ->]. now split.
Qed.

Lemma append_cancel (a b c : string) : a ^^ b = a ^^ c -> b = c.
Proof. intros H. now apply (append_length_inj a b a c eq_refl). Qed.

Lemma digit_run_unique (d1 r1 d2 r2 : string) :
  all_digits d1 = true -> all_digits d2 = true ->
  starts_with_digit r1 = false -> starts_with_digit r2 = false ->
  d1 ^^ r1 = d2 ^^ r2 -> d1 = d2.
Proof.
  revert d2. induction d1 as [|c d1 IH]; intros [|c2 d2] D1 D2 R1 R2 E; simpl in *.
  - reflexivity.
  - subst r1. simpl in R1. apply andb_true_iff in D2 as [D2 _]. congruence.
  - subst r2. simpl in R2. apply andb_true_iff in D1 as [D1 _]. congruence.
  - injection E as -> E. apply andb_true_iff in D1 as [_ D1].
    apply andb_true_iff in D2 as [_ D2]. f_equal. now apply IH.
Qed.

Lemma leftmost_capture_unique (lit s d1 d2 : string) :
  leftmost_capture lit s d1 -> leftmost_capture lit s d2 -> d1 = d2.
Proof.
  intros (p1 & r1 & E1 & N1 & D1 & R1 & L1) (p2 & r2 & E2 & N2 & D2 & R2 & L2).
  assert (Hlen : String.length p1 = String.length p2).
  { apply Nat.le_antisymm.
    - destruct d2 as [|c d2]; [congruence|]. simpl in D2.
      apply andb_true_iff in D2 as [Hc _]. now apply (L1 p2 c (d2 ^^ r2)).
    - destruct d1 as [|c d1]; [congruence|]. simpl in D1.
      apply andb_true_iff in D1 as [Hc _]. now apply (L2 p1 c (d1 ^^ r1)). }
  rewrite E1 in E2. apply append_length_inj in E2 as [_ E2]; [|exact Hlen].
  apply append_cancel in E2. now apply (digit_run_unique d1 r1 d2 r2).
Qed.

Lemma leftmost_capture_follows (lit s ds : string) :
  leftmost_capture lit s ds -> digits_follow lit s.
Proof.
  intros (pre & rest & E & N & D & _). destruct ds as [|c ds]; [congruence|].
  simpl in D. apply andb_true_iff in D as [Hc _]. now exists pre, c, (ds ^^ rest).
Qed.

Lemma search_digits_after_some (lit s ds : string) :
  PyStr.search_digits_after lit s = Some ds <-> leftmost_capture lit s ds.
Proof.
  pose proof (search_digits_after_spec lit s) as H.
  destruct (PyStr.search_digits_after lit s) as [d|]; split.
  - now intros [= <-].
  - intros H'. f_equal. now apply (leftmost_capture_unique lit s).
  - discriminate.
  - intros H'. now apply leftmost_capture_follows in H'.
Qed.

Lemma search_digits_after_none (lit s : string) :
  PyStr.search_digits_after lit s = None <-> ~ digits_follow lit s.
Proof.
  pose proof (search_digits_after_spec lit s) as H.
  destruct (PyStr.search_digits_after lit s) as [d|]; split.
  - discriminate.
  - intros H'. now apply leftmost_capture_follows in H.
  - now intros _.
  - reflexivity.
Qed.

(** X19. [extract_patient_id] reads the identifier off the leftmost
    place of the filename where the source's literal ("patient" for
    CheXpert, "radiopaedia_" for Radiopaedia) is followed by a digit: the
    identifier is the source's prefix and the whole run of digits found
    there, leading zeros kept. Such a place gives a capture whenever it
    exists, and when there is none the identifier is the source's
    "unknown" prefix with [hash(filename)]. *)
Theorem extract_patient_id_follows_the_pattern
        (hash : string -> Z) (fname src lit parsed fallback : string) :
  In (src, lit, parsed, fallback) id_patterns ->
  (forall ds, leftmost_capture lit fname ds ->
              extract_patient_id hash fname src = Ok (parsed ^^ ds)) /\
  (digits_follow lit fname -> exists ds, leftmost_capture lit fname ds) /\
  (~ digits_follow lit fname ->
   extract_patient_id hash fname src = Ok (fallback ^^ PyStr.of_Z (hash fname))).
Proof.
  intros Hin. unfold extract_patient_id.
  pose proof (search_digits_after_spec lit fname) as Hs.
  destruct Hin as [E|[E|[]]]; injection E as <- <- <- <-; cbn [String.eqb Ascii.eqb Bool.eqb].
  - split; [|split].
    + intros ds H. apply search_digits_after_some in H. now rewrite H.
    + intros H. destruct (PyStr.search_digits_after "patient" fname) as [ds|];
        [now exists ds | contradiction].
    + intros H. apply search_digits_after_none in H. now rewrite H.
  - split; [|split].
    + intros ds H. apply search_digits_after_some in H. now rewrite H.
    + intros H. destruct (PyStr.search_digits_after "radiopaedia_" fname) as [ds|];
        [now exists ds | contradiction].
    + intros H. apply search_digits_after_none in H. now rewrite H.
Qed.

(** A CheXpert path and a Radiopaedia name without case number. *)
Lemma extract_patient_id_follows_the_pattern_witness :
  extract_patient_id Demo.hash0 "train/patient00012/study1/view1_frontal.jpg" "CheXpert"
  = Ok "chexpert_patient00012" /\
  extract_patient_id Demo.hash0 "scan_17.png" "Radiopaedia"
  = Ok ("radiopaedia_unknown_" ^^ PyStr.of_Z (Demo.hash0 "scan_17.png")).
Proof.
  split.
  - apply (proj1 (extract_patient_id_follows_the_pattern Demo.hash0
                    "train/patient00012/study1/view1_frontal.jpg"
                    "CheXpert" "patient" "chexpert_patient" "chexpert_unknown_"
                    (or_introl eq_refl)) "00012").
    apply search_digits_after_some. reflexivity.
  - apply (proj2 (proj2 (extract_patient_id_follows_the_pattern Demo.hash0
                    "scan_17.png"
                    "Radiopaedia" "radiopaedia_" "radiopaedia_" "radiopaedia_unknown_"
                    (or_intror (or_introl eq_refl))))).
    apply search_digits_after_none. reflexivity.
Defined.

Lemma extract_patient_id_inv (hash : string -> Z) (fname src pid : string) :
  extract_patient_id hash fname src = Ok pid ->
  exists lit parsed fallback,
    In (src, lit, parsed, fallback) id_patterns /\
    ((exists ds, leftmost_capture lit fname ds /\ pid = parsed ^^ ds) \/
     (~ digits_follow lit fname /\ pid = fallback ^^ PyStr.of_Z (hash fname))).
Proof.
  unfold extract_patient_id. intros H.
  destruct (String.eqb src "CheXpert") eqn:E1.
  - apply String.eqb_eq in E1. subst src.
    exists "patient", "chexpert_patient", "chexpert_unknown_".
    split; [now left|].
    destruct (PyStr.search_digits_after "patient" fname) as [ds|] eqn:Es;
      injection H as <-.
    + left. exists ds. split; [now apply search_digits_after_some | reflexivity].
    + right. split; [now apply search_digits_after_none | reflexivity].
  - destruct (String.eqb src "Radiopaedia") eqn:E2; [|discriminate].
    apply String.eqb_eq in E2. subst src.
    exists "radiopaedia_", "radiopaedia_", "radiopaedia_unknown_".
    split; [right; now left|].
    destruct (PyStr.search_digits_after "radiopaedia_" fname) as [ds|] eqn:Es;
      injection H as <-.
    + left. exists ds. split; [now apply search_digits_after_some | reflexivity].
    + right. split; [now apply search_digits_after_none | reflexivity].
Qed.

Lemma capture_not_unknown (lit s h : string) :
  ~ leftmost_capture lit s ("unknown_" ^^ h).
Proof. intros (_ & _ & _ & _ & D & _). discriminate D. Qed.

(** X20. Two files that [extract_patient_id] gives the same identifier
    have the same source tag, and either the same run of digits was
    captured in both, or neither filename matches the source's pattern
    and both have the same hash. So an unparsed file never joins the
    group of a parsed patient, and files of different sources never share
    a group. *)
Theorem same_patient_id_same_capture
        (hash : string -> Z) (fname1 src1 fname2 src2 pid : string) :
  extract_patient_id hash fname1 src1 = Ok pid ->
  extract_patient_id hash fname2 src2 = Ok pid ->
  src1 = src2 /\
  exists lit parsed fallback,
    In (src1, lit, parsed, fallback) id_patterns /\
    ((exists ds, leftmost_capture lit fname1 ds /\ leftmost_capture lit fname2 ds) \/
     (~ digits_follow lit fname1 /\ ~ digits_follow lit fname2 /\
      hash fname1 = hash fname2)).
Proof.
  intros H1 H2.
  apply extract_patient_id_inv in H1 as (l1 & p1 & f1 & In1 & C1).
  apply extract_patient_id_inv in H2 as (l2 & p2 & f2 & In2 & C2).
  destruct In1 as [E1|[E1|[]]]; injection E1 as <- <- <- <-;
    (destruct In2 as [E2|[E2|[]]]; injection E2 as <- <- <- <-);
    destruct C1 as [(d1 & L1 & P1)|(N1 & P1)];
    destruct C2 as [(d2 & L2 & P2)|(N2 & P2)];
    subst pid; try discriminate P2.
  - split; [reflexivity|]. eexists _, _, _. split; [now left|]. left.
    apply (append_cancel "chexpert_patient") in P2. subst d2. now exists d1.
  - split; [reflexivity|]. eexists _, _, _. split; [now left|]. right.
    apply (append_cancel "chexpert_unknown_") in P2. apply of_Z_inj in P2.
    now repeat split.
  - split; [reflexivity|]. eexists _, _, _. split; [right; now left|]. left.
    apply (append_cancel "radiopaedia_") in P2. subst d2. now exists d1.
  - apply (append_cancel "radiopaedia_" _ ("unknown_" ^^ _)) in P2. subst d1.
    now apply capture_not_unknown in L1.
  - apply (append_cancel "radiopaedia_" ("unknown_" ^^ _)) in P2. subst d2.
    now apply capture_not_unknown in L2.
  - split; [reflexivity|]. eexists _, _, _. split; [right; now left|]. right.
    apply (append_cancel "radiopaedia_unknown_") in P2. apply of_Z_inj in P2.
    now repeat split.
Qed.

(** Two studies of one CheXpert patient. *)
Lemma same_patient_id_same_capture_witness :
  let fname1 := "train/patient00012/study1/view1_frontal.jpg" in
  let fname2 := "train/patient00012/study2/view1_lateral.jpg" in
  exists lit parsed fallback,
    In ("CheXpert", lit, parsed, fallback) id_patterns /\
    ((exists ds, leftmost_capture lit fname1 ds /\ leftmost_capture lit fname2 ds) \/
     (~ digits_follow lit fname1 /\ ~ digits_follow lit fname2 /\
      Demo.hash0 fname1 = Demo.hash0 fname2)).
Proof.
  intros fname1 fname2.
  exact (proj2 (same_patient_id_same_capture Demo.hash0 fname1 "CheXpert" fname2
                  "CheXpert" "chexpert_patient00012" eq_refl eq_refl)).
Defined.

(** ** Disease prevalence in a split *)

Lemma unique_spec (l : list string) :
  NoDup (unique l) /\ forall x, In x (unique l) <-> In x l.
Proof.
  unfold unique. split.
  - apply NoDup_rev, NoDup_nodup.
  - intros x. rewrite <- in_rev, nodup_In, <- in_rev. reflexivity.
Qed.

Lemma dict_get_counter_incr (d k : string) (c : dict nat) :
  dict_get d (counter_incr k c) =
  if String.eqb d k then Some (S (counter_get d c)) else dict_get d c.
Proof.
  unfold counter_get. induction c as [|[k' n] c IH]; simpl.
  - destruct (String.eqb d k); reflexivity.
  - destruct (String.eqb k k') eqn:Ek; simpl.
    + apply String.eqb_eq in Ek. subst k'.
      destruct (String.eqb d k); reflexivity.
    + destruct (String.eqb d k') eqn:Ed.
      * apply String.eqb_eq in Ed. subst k'.
        rewrite String.eqb_sym in Ek. now rewrite Ek.
      * exact IH.
Qed.

Lemma counter_get_incr (d k : string) (c : dict nat) :
  counter_get d (counter_incr k c)
  = (counter_get d c + if String.eqb d k then 1 else 0)%nat.
Proof.
  unfold counter_get at 1. rewrite dict_get_counter_incr.
  destruct (String.eqb d k); [lia|]. unfold counter_get. lia.
Qed.

Lemma keys_counter_incr (k : string) (c : dict nat) :
  keys (counter_incr k c) = if mem k (keys c) then keys c else keys c ++ [k].
Proof.
  unfold mem. induction c as [|[k' n] c IH]; simpl; [reflexivity|].
  destruct (String.eqb k k'); simpl; [reflexivity|].
  unfold keys in *. rewrite IH. now destruct (existsb _ _).
Qed.

Lemma counter_incr_ok (k : string) (c : dict nat) :
  counter_ok c -> counter_ok (counter_incr k c).
Proof.
  intros [Hnd Hpos]. split.
  - rewrite keys_counter_incr. destruct (mem k (keys c)) eqn:E; [assumption|].
    apply NoDup_snoc; [assumption|]. now apply mem_false.
  - clear Hnd. induction c as [|[k' n] c IH]; simpl.
    + repeat constructor.
    + inversion Hpos as [|? ? Hn Hrest]; subst.
      destruct (String.eqb k k'); constructor; simpl in *; auto; lia.
Qed.

Lemma counter_update (ds : list string) :
  forall c, counter_ok c ->
    counter_ok (fold_left (fun c d => counter_incr d c) ds c) /\
    forall d, counter_get d (fold_left (fun c d => counter_incr d c) ds c)
              = (counter_get d c + count_occ string_dec ds d)%nat.
Proof.
  induction ds as [|x ds IH]; intros c Hc; simpl.
  - split; [assumption|]. intros; lia.
  - destruct (IH (counter_incr x c) (counter_incr_ok x c Hc)) as [Hok Hget].
    split; [assumption|]. intros d. rewrite Hget, counter_get_incr.
    destruct (string_dec x d) as [->|Hne].
    + rewrite String.eqb_refl. lia.
    + destruct (String.eqb d x) eqn:E; [apply String.eqb_eq in E; congruence | lia].
Qed.

Lemma counter_update_patients (labels : dict (list string)) (pids : list string) :
  forall c, counter_ok c ->
    let counts :=
      fold_left (fun counts pid =>
                   fold_left (fun c d => counter_incr d c)
                             (match dict_get pid labels with Some ds => ds | None => [] end)
                             counts)
                pids c in
    counter_ok counts /\
    forall d, counter_get d counts = (counter_get d c + carriers labels pids d)%nat.
Proof.
  induction pids as [|pid pids IH]; intros c Hc; cbv zeta; simpl.
  - split; [assumption|]. intros. unfold carriers. simpl. lia.
  - destruct (counter_update (labels_of labels pid) c Hc) as [Hok Hget].
    destruct (IH _ Hok) as [Hok' Hget'].
    split; [exact Hok'|]. intros d. unfold labels_of in *. rewrite Hget', Hget.
    unfold carriers. simpl. unfold labels_of. lia.
Qed.

Lemma counter_ok_get (c : dict nat) (d : string) :
  counter_ok c ->
  dict_get d c = if (counter_get d c =? 0)%nat then None else Some (counter_get d c).
Proof.
  intros [_ Hpos]. unfold counter_get.
  induction c as [|[k n] c IH]; simpl; [reflexivity|].
  inversion Hpos as [|? ? Hn Hrest]; subst. simpl in Hn.
  destruct (String.eqb d k).
  - destruct n; [lia | reflexivity].
  - now apply IH.
Qed.

Lemma dict_get_map_values {A B} (f : A -> B) (d : string) (c : dict A) :
  dict_get d (map (fun entry => (fst entry, f (snd entry))) c)
  = option_map f (dict_get d c).
Proof.
  induction c as [|[k v] c IH]; simpl; [reflexivity|].
  now destruct (String.eqb d k).
Qed.

Lemma carriers_le (labels : dict (list string)) (pids : list string) (d : string) :
  (forall pid ds, dict_get pid labels = Some ds -> NoDup ds) ->
  (carriers labels pids d <= List.length pids)%nat.
Proof.
  intros Hset. unfold carriers. induction pids as [|pid pids IH]; simpl; [lia|].
  assert (count_occ string_dec (labels_of labels pid) d <= 1)%nat.
  { unfold labels_of. destruct (dict_get pid labels) as [ds|] eqn:E; [|simpl; lia].
    apply (proj1 (NoDup_count_occ string_dec ds)). now apply (Hset pid). }
  lia.
Qed.

(** X21. [get_disease_distribution] raises [KeyError] on a table without
    rows. On any other table it counts each distinct patient of the table
    once, and returns one entry for each disease listed for at least one
    of these patients (a patient without labels counts in the total and
    adds no disease): the number of listings of the disease among these
    patients divided by the number of distinct patients. When no
    patient's label list repeats a disease, that number is at most the
    number of patients, so no prevalence exceeds 1. *)
Theorem get_disease_distribution_spec (labels : dict (list string)) (df : dataframe) :
  (df = [] -> get_disease_distribution labels df = Raise (KeyError "patient_id")) /\
  (df <> [] ->
   let patients := unique (map img_patient_id df) in
   let total := List.length patients in
   NoDup patients /\ (forall pid, In pid patients <-> In pid (map img_patient_id df)) /\
   exists dist,
     get_disease_distribution labels df = Ok dist /\
     NoDup (keys dist) /\
     (forall disease,
        dict_get disease dist =
        if (carriers labels patients disease =? 0)%nat then None
        else Some (inject_Z (Z.of_nat (carriers labels patients disease))
                   / inject_Z (Z.of_nat total))) /\
     ((forall pid ds, dict_get pid labels = Some ds -> NoDup ds) ->
      forall disease, (carriers labels patients disease <= total)%nat)).
Proof.
  split; [now intros ->|].
  intros Hne patients total.
  destruct (unique_spec (map img_patient_id df)) as [Hnd Hin].
  split; [exact Hnd|]. split; [exact Hin|].
  unfold get_disease_distribution, column.
  destruct df as [|im df]; [congruence|]. cbn [bind].
  fold patients. fold total.
  assert (Hempty : counter_ok []) by (split; constructor).
  destruct (counter_update_patients labels patients [] Hempty) as [Hok Hget].
  cbv zeta in Hok, Hget.
  eexists. split; [reflexivity|]. split; [|split].
  - unfold keys. rewrite map_map. cbn [fst]. apply Hok.
  - intros disease.
    rewrite (dict_get_map_values
               (fun n => inject_Z (Z.of_nat n) / inject_Z (Z.of_nat total))).
    rewrite (counter_ok_get _ disease Hok), Hget.
    change (counter_get disease []) with 0%nat. cbn [Nat.add].
    now destruct (carriers labels patients disease =? 0)%nat.
  - intros Hset disease. now apply carriers_le.
Qed.

(** Three images of two patients. *)
Lemma get_disease_distribution_spec_witness :
  let labels := [ ("chexpert_patient1", ["pneumonia"; "edema"]);
                  ("chexpert_patient2", ["pneumonia"]) ] in
  let row := mk_row "f.jpg" "CheXpert" "f.jpg" "f.txt" true in
  let df := [ mk_image row "chexpert_patient1" (Some "train");
              mk_image row "chexpert_patient2" (Some "train");
              mk_image row "chexpert_patient1" (Some "train") ] in
  exists dist,
    get_disease_distribution labels df = Ok dist /\
    dict_get "pneumonia" dist = Some (inject_Z 2 / inject_Z 2) /\
    dict_get "edema" dist = Some (inject_Z 1 / inject_Z 2) /\
    dict_get "normal" dist = None.
Proof.
  intros labels row df.
  assert (Hne : df <> []) by discriminate.
  destruct (proj2 (get_disease_distribution_spec labels df) Hne)
    as (_ & _ & dist & E & _ & Hget & _).
  exists dist. split; [exact E|].
  split; [exact (Hget "pneumonia")|]. split; [exact (Hget "edema") | exact (Hget "normal")].
Defined.

(** ** Grouping in processes with different string hashes *)

Lemma digits_follow_search (lit s ds : string) :
  PyStr.search_digits_after lit s = Some ds -> digits_follow lit s.
Proof.
  intros H. apply search_digits_after_some in H. now apply leftmost_capture_follows in H.
Qed.

Lemma extract_patient_id_parsed (hash1 hash2 : string -> Z) (row : csv_row) :
  parses row ->
  extract_patient_id hash1 (filename row) (source row)
  = extract_patient_id hash2 (filename row) (source row).
Proof.
  intros [Hc Hr]. unfold extract_patient_id.
  destruct (String.eqb (source row) "CheXpert") eqn:E1.
  - apply String.eqb_eq in E1. specialize (Hc E1).
    destruct (PyStr.search_digits_after "patient" (filename row)) eqn:Es; [reflexivity|].
    now apply search_digits_after_none in Es.
  - destruct (String.eqb (source row) "Radiopaedia") eqn:E2; [|reflexivity].
    apply String.eqb_eq in E2. specialize (Hr E2).
    destruct (PyStr.search_digits_after "radiopaedia_" (filename row)) eqn:Es;
      [reflexivity|].
    now apply search_digits_after_none in Es.
Qed.

Lemma for_each_ext {G A} (f g : A -> @M G unit) (l : list A) :
  Forall (fun x => forall s, f x s = g x s) l ->
  forall s, for_each l f s = for_each l g s.
Proof.
  induction 1 as [|x l Hx _ IH]; intros s; simpl; [reflexivity|].
  unfold bindM. rewrite Hx. destruct (g x s) as [[[]|e] s1]; [apply IH | reflexivity].
Qed.

(** X22. When the filename of every row of the loaded inventory matches
    the pattern of the row's source, [group_by_patient] returns the same
    groups and leaves the same splitter (patient identifiers, their
    order, the stored image dictionaries) for any two string hash
    functions: only filenames that do not parse make the grouping depend
    on the process's hash salt. *)
Theorem parsed_names_make_grouping_independent_of_hash {G}
        (hash1 hash2 : string -> Z) (s : @state G) :
  (forall t, master_df s = Some t -> Forall parses (rows t)) ->
  group_by_patient hash1 s = group_by_patient hash2 s.
Proof.
  intros H. unfold group_by_patient, bindM, gets.
  destruct (master_df s) as [t|]; [|reflexivity].
  rewrite (for_each_ext (group_row hash1) (group_row hash2) (rows t)); [reflexivity|].
  eapply Forall_impl; [|exact (H t eq_refl)].
  intros row Hrow s0. unfold group_row.
  now rewrite (extract_patient_id_parsed hash1 hash2 row Hrow).
Qed.

(** ** Keywords inside longer phrases *)

Lemma append_assoc (a b c : string) : (a ^^ b) ^^ c = a ^^ b ^^ c.
Proof. induction a as [|x a IH]; simpl; [reflexivity | now rewrite IH]. Qed.

Lemma substring_of_trans (a b c : string) :
  PyStr.substring_of a b -> PyStr.substring_of b c -> PyStr.substring_of a c.
Proof.
  intros (p1 & q1 & ->) (p2 & q2 & ->). exists (p2 ^^ p1), (q1 ^^ q2).
  now rewrite !append_assoc.
Qed.

(** Membership in the extractor's result, for a tag of the table. *)
Lemma extracted_tag_spec (read_caption : string -> option string)
      (path raw tag : string) :
  read_caption path = Some raw -> tag <> "unspecified" ->
  (In tag (extract_diseases_from_caption read_caption path)
   <-> keyword_match (PyStr.lower raw) tag).
Proof.
  intros E Htag. unfold extract_diseases_from_caption. rewrite E.
  rewrite <- matched_tags_spec.
  destruct (map fst (filter _ disease_keywords)) as [|d ds]; [|reflexivity].
  simpl. split; [intros [H|[]]; now symmetry in H | contradiction].
Qed.

Lemma keyword_match_short (text tag short long : string) (others : list string) :
  In (tag, others) disease_keywords ->
  NoDup (keys disease_keywords) ->
  In short others -> PyStr.substring_of short long ->
  (forall keyword, In keyword others -> keyword = short \/ keyword = long) ->
  (keyword_match text tag <-> PyStr.substring_of short text).
Proof.
  intros Hin Hnd Hshort Hsub Hall. split.
  - intros (keywords & keyword & Hk & Hkw & Ht).
    assert (keywords = others).
    { assert (E1 : dict_get tag disease_keywords = Some keywords)
        by now apply dict_get_In_NoDup.
      assert (E2 : dict_get tag disease_keywords = Some others)
        by now apply dict_get_In_NoDup.
      congruence. }
    subst keywords. destruct (Hall keyword Hkw) as [->| ->]; [assumption|].
    now apply (substring_of_trans short long text).
  - intros Ht. now exists others, short.
Qed.

Lemma extracted_of_match (read_caption : string -> option string)
      (path raw tag : string) :
  read_caption path = Some raw -> keyword_match (PyStr.lower raw) tag ->
  In tag (extract_diseases_from_caption read_caption path).
Proof.
  intros E H. unfold extract_diseases_from_caption. rewrite E.
  apply matched_tags_spec in H.
  destruct (map fst (filter _ disease_keywords)) as [|d ds]; [contradiction | exact H].
Qed.

Lemma disease_keywords_keys_NoDup : NoDup (keys disease_keywords).
Proof. repeat (constructor; [simpl; intuition discriminate|]). constructor. Qed.

(** X23. On a readable caption the extractor reports a tag for every
    phrase of the lower-cased text that contains one of the tag's
    keywords, whatever surrounds the keyword: a negation before it or a
    longer word around it. Hence the phrases "pleural effusion",
    "pulmonary edema" and "rib fracture" of the table decide nothing:
    their tags are reported exactly when "effusion", "edema" and
    "fracture" occur. *)
Theorem keywords_match_inside_longer_phrases
        (read_caption : string -> option string) (path raw : string) :
  read_caption path = Some raw ->
  let result := extract_diseases_from_caption read_caption path in
  let text := PyStr.lower raw in
  (forall tag keywords keyword phrase,
      In (tag, keywords) disease_keywords -> In keyword keywords ->
      PyStr.substring_of keyword phrase -> PyStr.substring_of phrase text ->
      In tag result) /\
  (In "pleural_effusion" result <-> PyStr.substring_of "effusion" text) /\
  (In "edema" result <-> PyStr.substring_of "edema" text) /\
  (In "fracture" result <-> PyStr.substring_of "fracture" text).
Proof.
  intros E result text. split; [|split; [|split]].
  - intros tag keywords keyword phrase Ht Hk Hsub Hphrase.
    apply (extracted_of_match read_caption path raw tag E).
    exists keywords, keyword. repeat split; try assumption.
    now apply (substring_of_trans keyword phrase).
  - unfold result. rewrite (extracted_tag_spec _ _ raw) by (assumption || discriminate).
    apply (keyword_match_short text "pleural_effusion" "effusion" "pleural effusion"
             ["pleural effusion"; "effusion"]).
    + simpl. tauto.
    + exact disease_keywords_keys_NoDup.
    + simpl. tauto.
    + now exists "pleural ", "".
    + simpl. intros k [<-|[<-|[]]]; tauto.
  - unfold result. rewrite (extracted_tag_spec _ _ raw) by (assumption || discriminate).
    apply (keyword_match_short text "edema" "edema" "pulmonary edema"
             ["edema"; "pulmonary edema"]).
    + simpl. tauto.
    + exact disease_keywords_keys_NoDup.
    + simpl. tauto.
    + now exists "pulmonary ", "".
    + simpl. intros k [<-|[<-|[]]]; tauto.
  - unfold result. rewrite (extracted_tag_spec _ _ raw) by (assumption || discriminate).
    apply (keyword_match_short text "fracture" "fracture" "rib fracture"
             ["fracture"; "rib fracture"]).
    + simpl. tauto.
    + exact disease_keywords_keys_NoDup.
    + simpl. tauto.
    + now exists "rib ", "".
    + simpl. intros k [<-|[<-|[]]]; tauto.
Qed.

(** A caption that denies pneumonia and calls the heart abnormal. *)
Lemma keywords_match_inside_longer_phrases_witness :
  let read_caption := fun _ : string => Some "No pneumonia. Abnormal cardiac contour." in
  let result := extract_diseases_from_caption read_caption "captions/a.txt" in
  In "pneumonia" result /\ In "normal" result /\
  (In "edema" result <-> PyStr.substring_of "edema" "no pneumonia. abnormal cardiac contour.").
Proof.
  intros read_caption result.
  destruct (keywords_match_inside_longer_phrases read_caption "captions/a.txt"
              "No pneumonia. Abnormal cardiac contour." eq_refl)
    as (Hany & _ & Hedema & _).
  split; [|split].
  - apply (Hany "pneumonia" ["pneumonia"; "consolidation"; "infiltrate"]
                "pneumonia" "no pneumonia").
    + simpl. tauto.
    + simpl. tauto.
    + now exists "no ", "".
    + apply contains_spec. reflexivity.
  - apply (Hany "normal" ["no acute"; "normal"; "clear lungs"; "unremarkable"]
                "normal" "abnormal").
    + simpl. tauto.
    + simpl. tauto.
    + now exists "ab", "".
    + apply contains_spec. reflexivity.
  - exact Hedema.
Defined.

(** ** The allocator in binary64 arithmetic *)

Lemma binary_round_aux_sign (s : bool) (m e : Z) (l : SpecFloat.location) :
  sign_is s (SpecFloat.binary_round_aux Binary64.prec Binary64.emax s m e l).
Proof.
  unfold SpecFloat.binary_round_aux.
  destruct (SpecFloat.shr_fexp _ _ m e l) as [mrs e'].
  destruct (SpecFloat.shr_fexp _ _ _ e' _) as [mrs2 e2].
  destruct (SpecFloat.shr_m mrs2); simpl; [reflexivity | | exact I].
  destruct (Z.leb _ _); reflexivity.
Qed.

Lemma of_nat_sign (n : nat) : sign_is false (Binary64.of_int (Z.of_nat n)).
Proof.
  unfold Binary64.of_int, SpecFloat.binary_normalize.
  destruct (Z.of_nat n) as [|p|p] eqn:E; [reflexivity | | lia].
  unfold SpecFloat.binary_round.
  destruct (SpecFloat.shl_align _ _ _) as [mz ez]. apply binary_round_aux_sign.
Qed.

Lemma to_int_sign (x : Binary64.float) (z : Z) :
  sign_is false x -> Binary64.to_int x = Ok z -> (0 <= z)%Z.
Proof.
  destruct x as [s|s| |s m e]; simpl; intros Hs H; try discriminate.
  - injection H as <-. lia.
  - subst s. injection H as <-. apply Z.shiftl_nonneg. lia.
Qed.

Lemma not_negative_cases (x : Binary64.float) :
  not_negative x -> (exists s, x = SpecFloat.S754_zero s) \/ sign_is false x.
Proof.
  unfold not_negative. destruct x as [s|s| |s m e]; intros H.
  - left. now exists s.
  - right. destruct s; [discriminate H | reflexivity].
  - discriminate H.
  - right. destruct s; [discriminate H | reflexivity].
Qed.

Lemma mul_sign (x y : Binary64.float) :
  sign_is false x -> sign_is false y -> sign_is false (Binary64.mul x y).
Proof.
  destruct x as [sx|sx| |sx mx ex], y as [sy|sy| |sy my ey]; simpl;
    try (intros -> ->; reflexivity); try (intros; exact I).
  intros -> ->. apply binary_round_aux_sign.
Qed.

Lemma mul_zero (x : Binary64.float) (s : bool) (z : Z) :
  Binary64.to_int (Binary64.mul x (SpecFloat.S754_zero s)) = Ok z -> z = 0%Z.
Proof.
  destruct x as [sx|sx| |sx mx ex]; simpl; intros H; try discriminate;
    now injection H.
Qed.

Lemma cut_size_not_negative (n : nat) (ratio : Binary64.float) (z : Z) :
  not_negative ratio -> Binary64.cut_size n ratio = Ok z -> (0 <= z)%Z.
Proof.
  intros Hr. unfold Binary64.cut_size, Binary64.int_mul.
  pose proof (of_nat_sign n) as Hn.
  destruct (not_negative_cases ratio Hr) as [[s ->]|Hs].
  - destruct (Binary64.of_int (Z.of_nat n)) as [sx|sx| |sx mx ex] eqn:E;
      cbn [bind]; intros H; try discriminate;
      apply mul_zero in H; lia.
  - assert (Hm : sign_is false (Binary64.mul (Binary64.of_int (Z.of_nat n)) ratio))
      by now apply mul_sign.
    destruct (Binary64.of_int (Z.of_nat n)) as [sx|sx| |sx mx ex] eqn:E;
      cbn [bind]; intros H; try discriminate; now apply to_int_sign in H.
Qed.

Lemma cut_size_is_cut_count (n : nat) (ratio : Binary64.float) :
  not_negative ratio -> is_ok (Binary64.cut_size n ratio) = true ->
  Binary64.cut_size n ratio = Ok (Z.of_nat (cut_count ratio n)).
Proof.
  intros Hr Hok. unfold cut_count.
  destruct (Binary64.cut_size n ratio) as [z|e] eqn:E; [|discriminate Hok].
  apply cut_size_not_negative in E; [|exact Hr]. now rewrite Z2Nat.id.
Qed.

Lemma cut_count_spec (ratio : Binary64.float) (n : nat) (z : Z) :
  Binary64.cut_size n ratio = Ok z -> cut_count ratio n = Z.to_nat z.
Proof. unfold cut_count. now intros ->. Qed.

(** For ratios that are not negative the three slices are the first
    [a], the next [b] and the rest. *)
Lemma cut_group_pieces (train_ratio val_ratio : Binary64.float) (n : nat)
      (l : list string) :
  not_negative train_ratio -> not_negative val_ratio ->
  no_overflow train_ratio val_ratio n ->
  let a := cut_count train_ratio n in
  let b := cut_count val_ratio n in
  Binary64.cut_group train_ratio val_ratio n l
  = Ok (mk_patient_split (firstn a l) (firstn b (skipn a l)) (skipn (a + b) l)).
Proof.
  intros Ht Hv [Ot Ov] a b. unfold Binary64.cut_group.
  destruct (Binary64.cut_size n train_ratio) as [x|e] eqn:Ex; [|discriminate Ot].
  destruct (Binary64.cut_size n val_ratio) as [y|e] eqn:Ey; [|discriminate Ov].
  pose proof (cut_size_not_negative n _ x Ht Ex) as Hx.
  pose proof (cut_size_not_negative n _ y Hv Ey) as Hy.
  cbn [bind]. rewrite slice_head, slice_middle, slice_tail by lia.
  rewrite Z2Nat.inj_add by lia.
  unfold a, b. now rewrite (cut_count_spec _ _ _ Ex), (cut_count_spec _ _ _ Ey).
Qed.

Section BinaryAllocator.
Context {G : Type}.
Variable np_shuffle : G -> list string -> list string * G.
Hypothesis shuffle_permutes : forall g l, Permutation l (fst (np_shuffle g l)).

Lemma shuffled_groups_permute (groups : dict (list string)) :
  forall g, Forall2 (fun group shuffled => Permutation (snd group) shuffled)
                    groups (shuffled_groups np_shuffle groups g).
Proof.
  induction groups as [|[label patients] rest IH]; intros g; simpl; [constructor|].
  pose proof (shuffle_permutes g patients) as Hp.
  destruct (np_shuffle g patients) as [shuffled g']. constructor; [exact Hp | apply IH].
Qed.

Lemma split_groups_pieces (train_ratio val_ratio : Binary64.float) :
  not_negative train_ratio -> not_negative val_ratio ->
  forall groups g acc,
    Forall (fun shuffled => no_overflow train_ratio val_ratio (List.length shuffled))
           (shuffled_groups np_shuffle groups g) ->
    let a shuffled := cut_count train_ratio (List.length shuffled) in
    let b shuffled := cut_count val_ratio (List.length shuffled) in
    exists g',
      Binary64.split_groups np_shuffle train_ratio val_ratio groups g acc =
      (Ok (mk_patient_split
             (ps_train acc ++
              List.concat (map (fun shuffled => firstn (a shuffled) shuffled)
                               (shuffled_groups np_shuffle groups g)))
             (ps_val acc ++
              List.concat (map (fun shuffled =>
                                  firstn (b shuffled) (skipn (a shuffled) shuffled))
                               (shuffled_groups np_shuffle groups g)))
             (ps_test acc ++
              List.concat (map (fun shuffled => skipn (a shuffled + b shuffled) shuffled)
                               (shuffled_groups np_shuffle groups g)))),
       g').
Proof.
  intros Ht Hv. induction groups as [|[label patients] rest IH]; intros g acc Hall a b.
  - exists g. simpl. rewrite !app_nil_r. now destruct acc.
  - simpl in *.
    pose proof (shuffle_permutes g patients) as Hp.
    destruct (np_shuffle g patients) as [shuffled g1]. simpl in Hp.
    inversion Hall as [|? ? Hhere Hrest]; subst.
    rewrite (Permutation_length Hp).
    rewrite (cut_group_pieces train_ratio val_ratio _ shuffled Ht Hv Hhere).
    destruct (IH g1 (mk_patient_split
                       (ps_train acc ++ firstn (a shuffled) shuffled)
                       (ps_val acc ++ firstn (b shuffled) (skipn (a shuffled) shuffled))
                       (ps_test acc ++ skipn (a shuffled + b shuffled) shuffled))
                 Hrest) as [g' E].
    exists g'. cbn [ps_train ps_val ps_test]. fold a b in E |- *.
    unfold a, b in *. rewrite E. cbn [ps_train ps_val ps_test].
    now rewrite <- !app_assoc.
Qed.

(** C2. For ratios that pass the entry check and are not negative, and
    groups for which no product [n * ratio] overflows, the allocator
    returns, and of every group, shuffled, it has given the first
    [int(n * train_ratio)] identifiers to train, the next
    [int(n * val_ratio)] to val and all the remaining ones to test, the
    products being binary64 products of the group's size [n]; the three
    lists it returns are these pieces, group after group. The three
    pieces of a group make up the shuffled group, a rearrangement of the
    group: every member is allocated, once, whatever the rounding. *)
Theorem allocator_cuts_every_group
        (patient_ids : list string) (train_ratio val_ratio test_ratio : Binary64.float)
        (s : @state G) :
  Binary64.ratios_ok train_ratio val_ratio test_ratio = true ->
  not_negative train_ratio -> not_negative val_ratio ->
  let groups := group_by_label (disease_labels s) patient_ids in
  let shuffled_all := shuffled_groups np_shuffle groups (np_random s) in
  let a shuffled := cut_count train_ratio (List.length shuffled) in
  let b shuffled := cut_count val_ratio (List.length shuffled) in
  Forall (fun shuffled => no_overflow train_ratio val_ratio (List.length shuffled))
         shuffled_all ->
  exists r g',
    Binary64.stratified_split_patients np_shuffle patient_ids
      train_ratio val_ratio test_ratio s = (Ok r, with_np_random g' s) /\
    Forall2 (fun group shuffled => Permutation (snd group) shuffled) groups shuffled_all /\
    ps_train r =
      List.concat (map (fun shuffled => firstn (a shuffled) shuffled) shuffled_all) /\
    ps_val r =
      List.concat (map (fun shuffled => firstn (b shuffled) (skipn (a shuffled) shuffled))
                       shuffled_all) /\
    ps_test r =
      List.concat (map (fun shuffled => skipn (a shuffled + b shuffled) shuffled)
                       shuffled_all) /\
    Forall (fun shuffled =>
              Binary64.cut_size (List.length shuffled) train_ratio
              = Ok (Z.of_nat (a shuffled)) /\
              Binary64.cut_size (List.length shuffled) val_ratio
              = Ok (Z.of_nat (b shuffled)) /\
              firstn (a shuffled) shuffled ++
              firstn (b shuffled) (skipn (a shuffled) shuffled) ++
              skipn (a shuffled + b shuffled) shuffled = shuffled)
           shuffled_all.
Proof.
  intros Hok Ht Hv groups shuffled_all a b Hall.
  destruct (split_groups_pieces train_ratio val_ratio Ht Hv groups (np_random s)
              (mk_patient_split [] [] []) Hall) as [g' E].
  eexists. exists g'. unfold Binary64.stratified_split_patients. rewrite Hok.
  fold groups. rewrite E. cbn [ps_train ps_val ps_test app].
  split; [reflexivity|]. split; [apply shuffled_groups_permute|].
  split; [reflexivity|]. split; [reflexivity|]. split; [reflexivity|].
  eapply Forall_impl; [|exact Hall]. intros shuffled [Ot Ov].
  split; [now apply cut_size_is_cut_count|].
  split; [now apply cut_size_is_cut_count | apply firstn_skipn_three].
Qed.
End BinaryAllocator.

Lemma no_overflow_forallb (train_ratio val_ratio : Binary64.float)
      (l : list (list string)) :
  forallb (fun shuffled =>
             is_ok (Binary64.cut_size (List.length shuffled) train_ratio) &&
             is_ok (Binary64.cut_size (List.length shuffled) val_ratio)) l = true ->
  Forall (fun shuffled => no_overflow train_ratio val_ratio (List.length shuffled)) l.
Proof.
  intros H. apply Forall_forall. intros shuffled Hin.
  apply (proj1 (forallb_forall _ l) H) in Hin. now apply andb_true_iff in Hin.
Qed.

(** Ten patients in one group with the ratios 0.8, 0.1, 0.1. *)
Lemma allocator_cuts_every_group_witness :
  let s := Demo.prepared Demo.ten_chexpert Demo.no_captions in
  let train_ratio := Binary64.literal 8 10 in
  let val_ratio := Binary64.literal 1 10 in
  let test_ratio := Binary64.literal 1 10 in
  exists r g',
    Binary64.stratified_split_patients Demo.shuffle (keys (patient_data s))
      train_ratio val_ratio test_ratio s = (Ok r, with_np_random g' s) /\
    List.length (ps_train r) = 8%nat /\
    List.length (ps_val r) = 1%nat /\
    List.length (ps_test r) = 1%nat.
Proof.
  intros s train_ratio val_ratio test_ratio.
  assert (Hok : Binary64.ratios_ok train_ratio val_ratio test_ratio = true)
    by (vm_compute; reflexivity).
  assert (Ht : not_negative train_ratio) by (vm_compute; reflexivity).
  assert (Hv : not_negative val_ratio) by (vm_compute; reflexivity).
  assert (Hall : Forall (fun shuffled =>
                           no_overflow train_ratio val_ratio (List.length shuffled))
                        (shuffled_groups Demo.shuffle
                           (group_by_label (disease_labels s) (keys (patient_data s)))
                           (np_random s)))
    by (apply no_overflow_forallb; vm_compute; reflexivity).
  destruct (allocator_cuts_every_group Demo.shuffle demo_shuffle_permutes
              (keys (patient_data s)) train_ratio val_ratio test_ratio s
              Hok Ht Hv Hall) as (r & g' & E & _ & Etrain & Eval & Etest & _).
  exists r, g'. split; [exact E|].
  rewrite Etrain, Eval, Etest.
  split; [vm_compute; reflexivity|]. split; vm_compute; reflexivity.
Defined.

(** C2 as stated fails. The cut size is [int()] of a binary64 product:
    for a group of 90 and the train ratio 0.7 the product is below 63
    and train gets 62 identifiers, not [floor(90 * 0.7) = 63]; one more
    goes to test. And a negative ratio passes the entry check: with the
    ratios -0.5, 0.5, 1.0 a group of four gives its first two
    identifiers to train, none to val and all four to test. *)
Theorem allocator_cut_differs_from_exact_floor :
  let s := init Demo.seed "metadata/master_index.csv" 42 in
  (let train_ratio := Binary64.literal 7 10 in
   let val_ratio := Binary64.literal 2 10 in
   let test_ratio := Binary64.literal 1 10 in
   Binary64.ratios_ok train_ratio val_ratio test_ratio = true /\
   not_negative train_ratio /\ not_negative val_ratio /\
   List.length (group_by_label (disease_labels s) ninety_patients) = 1%nat /\
   Qfloor (inject_Z 90 * (7 # 10)) = 63%Z /\
   Binary64.cut_size 90 train_ratio = Ok 62%Z /\
   exists r,
     fst (Binary64.stratified_split_patients Demo.shuffle ninety_patients
            train_ratio val_ratio test_ratio s) = Ok r /\
     List.length (ps_train r) = 62%nat /\
     List.length (ps_val r) = 18%nat /\
     List.length (ps_test r) = 10%nat) /\
  (let train_ratio := Binary64.literal (-5) 10 in
   let val_ratio := Binary64.literal 5 10 in
   let test_ratio := Binary64.of_int 1 in
   let four := firstn 4 ninety_patients in
   Binary64.ratios_ok train_ratio val_ratio test_ratio = true /\
   List.length (group_by_label (disease_labels s) four) = 1%nat /\
   Binary64.cut_size 4 train_ratio = Ok (-2)%Z /\
   Binary64.cut_size 4 val_ratio = Ok 2%Z /\
   exists r,
     fst (Binary64.stratified_split_patients Demo.shuffle four
            train_ratio val_ratio test_ratio s) = Ok r /\
     List.length (ps_train r) = 2%nat /\
     ps_val r = [] /\
     List.length (ps_test r) = 4%nat).
Proof.
  intros s. split.
  - intros train_ratio val_ratio test_ratio.
    split; [vm_compute; reflexivity|]. split; [vm_compute; reflexivity|].
    split; [vm_compute; reflexivity|]. split; [vm_compute; reflexivity|].
    split; [vm_compute; reflexivity|]. split; [vm_compute; reflexivity|].
    eexists. split; [vm_compute; reflexivity|].
    split; [vm_compute; reflexivity|]. split; vm_compute; reflexivity.
  - intros train_ratio val_ratio test_ratio four.
    split; [vm_compute; reflexivity|]. split; [vm_compute; reflexivity|].
    split; [vm_compute; reflexivity|]. split; [vm_compute; reflexivity|].
    eexists. split; [vm_compute; reflexivity|].
    split; [vm_compute; reflexivity|]. split; vm_compute; reflexivity.
Qed.

(** ** No patient is dropped by the split *)

Lemma slice_index_le (n : nat) (i : Z) : (slice_index n i <= n)%nat.
Proof. unfold slice_index. destruct (Z.ltb_spec i 0); lia. Qed.

Lemma In_firstn {A} (n : nat) (l : list A) (x : A) : In x (firstn n l) -> In x l.
Proof. intros H. rewrite <- (firstn_skipn n l). apply in_or_app. now left. Qed.

Lemma In_skipn {A} (n : nat) (l : list A) (x : A) : In x (skipn n l) -> In x l.
Proof. intros H. rewrite <- (firstn_skipn n l). apply in_or_app. now right. Qed.

Lemma slice_In {A} (lo hi : option Z) (l : list A) (x : A) :
  In x (slice lo hi l) -> In x l.
Proof.
  unfold slice. intros H. apply In_firstn in H. now apply In_skipn in H.
Qed.

Lemma In_firstn_le {A} (a c : nat) (l : list A) (x : A) :
  (c <= a)%nat -> In x (firstn c l) -> In x (firstn a l).
Proof.
  intros Hle H. replace c with (Nat.min c a) in H by lia.
  rewrite <- firstn_firstn in H. now apply In_firstn in H.
Qed.

(** Whatever the two cut points, the three slices leave nobody out. *)
Lemma slices_cover {A} (a c : Z) (l : list A) (x : A) :
  In x l ->
  In x (slice None (Some a) l ++ slice (Some a) (Some c) l ++ slice (Some c) None l).
Proof.
  intros Hin. unfold slice.
  pose proof (slice_index_le (List.length l) a) as Ha.
  pose proof (slice_index_le (List.length l) c) as Hc.
  set (i := slice_index (List.length l) a) in *.
  set (j := slice_index (List.length l) c) in *.
  rewrite Nat.sub_0_r. cbn [skipn].
  rewrite (firstn_all2 (skipn j l)) by (rewrite length_skipn; lia).
  rewrite !in_app_iff.
  rewrite <- (firstn_skipn j l) in Hin. apply in_app_iff in Hin as [Hin|Hin];
    [|now right; right].
  destruct (Nat.le_gt_cases j i) as [Hle|Hlt].
  - left. now apply (In_firstn_le i j).
  - rewrite <- (firstn_skipn i (firstn j l)) in Hin.
    apply in_app_iff in Hin as [Hin|Hin].
    + left. rewrite firstn_firstn in Hin. now replace (Nat.min i j) with i in Hin by lia.
    + right. left. rewrite skipn_firstn_comm in Hin. exact Hin.
Qed.

Lemma cut_at_members (a c : Z) (l : list string) (x : string) :
  In x (slice None (Some a) l ++ slice (Some a) (Some c) l ++ slice (Some c) None l)
  <-> In x l.
Proof.
  split; [|apply slices_cover].
  rewrite !in_app_iff. intros [H|[H|H]]; now apply slice_In in H.
Qed.

Lemma allocated_app (acc c : patient_split) (x : string) :
  allocated (mk_patient_split (ps_train acc ++ ps_train c) (ps_val acc ++ ps_val c)
                              (ps_test acc ++ ps_test c)) x
  <-> allocated acc x \/ allocated c x.
Proof. unfold allocated. cbn [ps_train ps_val ps_test]. rewrite !in_app_iff. tauto. Qed.

Section Coverage.
Context {G : Type}.
Variable np_shuffle : G -> list string -> list string * G.
Hypothesis shuffle_permutes : forall g l, Permutation l (fst (np_shuffle g l)).

Lemma split_groups_allocates (train_ratio val_ratio : Q) :
  forall groups g acc x,
    allocated (fst (split_groups np_shuffle train_ratio val_ratio groups g acc)) x
    <-> allocated acc x \/ In x (List.concat (map snd groups)).
Proof.
  induction groups as [|[label patients] rest IH]; intros g acc x.
  - simpl. tauto.
  - rewrite split_groups_cons, IH, allocated_app.
    cbn [map snd List.concat]. rewrite in_app_iff.
    unfold allocated at 2, cut_group. cbn [ps_train ps_val ps_test].
    rewrite cut_at_members.
    pose proof (shuffle_permutes g patients) as Hp.
    assert (Hs : In x (fst (np_shuffle g patients)) <-> In x patients).
    { split; intros H; [now apply (Permutation_in _ (Permutation_sym Hp))
                       | now apply (Permutation_in _ Hp)]. }
    rewrite Hs. tauto.
Qed.

Lemma stratified_split_patients_allocates patient_ids tr vr te (s s' : @state G) r :
  stratified_split_patients np_shuffle patient_ids tr vr te s = (Ok r, s') ->
  forall x, allocated r x <-> In x patient_ids.
Proof.
  intros E x. apply stratified_split_patients_value in E. subst r.
  rewrite split_groups_allocates. unfold allocated. cbn.
  pose proof (group_by_label_members (disease_labels s) patient_ids) as Hp.
  split.
  - intros [[]|H]. now apply (Permutation_in _ Hp).
  - intros H. right. now apply (Permutation_in _ (Permutation_sym Hp)).
Qed.

Lemma binary_split_groups_allocates (train_ratio val_ratio : Binary64.float) :
  forall groups g acc r g',
    Binary64.split_groups np_shuffle train_ratio val_ratio groups g acc = (Ok r, g') ->
    forall x, allocated r x <-> allocated acc x \/ In x (List.concat (map snd groups)).
Proof.
  induction groups as [|[label patients] rest IH]; intros g acc r g' E x.
  - simpl in E. injection E as <- _. simpl. tauto.
  - simpl in E. pose proof (shuffle_permutes g patients) as Hp.
    destruct (np_shuffle g patients) as [shuffled g1]. simpl in Hp.
    destruct (Binary64.cut_group _ _ _ shuffled) as [c|e] eqn:Ec; [|discriminate E].
    rewrite (IH _ _ _ _ E), allocated_app.
    cbn [map snd List.concat]. rewrite in_app_iff.
    assert (Hc : allocated c x <-> In x shuffled).
    { unfold Binary64.cut_group in Ec.
      destruct (Binary64.cut_size _ train_ratio) as [a|]; [|discriminate Ec].
      destruct (Binary64.cut_size _ val_ratio) as [b|]; [|discriminate Ec].
      cbn [bind] in Ec. injection Ec as <-. unfold allocated. cbn [ps_train ps_val ps_test].
      apply cut_at_members. }
    assert (Hs : In x shuffled <-> In x patients).
    { split; intros H; [now apply (Permutation_in _ (Permutation_sym Hp))
                       | now apply (Permutation_in _ Hp)]. }
    rewrite Hc, Hs. tauto.
Qed.

Lemma binary_stratified_split_patients_state patient_ids tr vr te (s s' : @state G) r :
  Binary64.stratified_split_patients np_shuffle patient_ids tr vr te s = (Ok r, s') ->
  exists g, s' = with_np_random g s.
Proof.
  unfold Binary64.stratified_split_patients.
  destruct (Binary64.ratios_ok tr vr te); [|discriminate].
  destruct (Binary64.split_groups _ _ _ _ _ _) as [r' g']. intros H.
  injection H as _ <-. now exists g'.
Qed.

Lemma binary_stratified_split_patients_allocates patient_ids tr vr te
      (s s' : @state G) r :
  Binary64.stratified_split_patients np_shuffle patient_ids tr vr te s = (Ok r, s') ->
  forall x, allocated r x <-> In x patient_ids.
Proof.
  unfold Binary64.stratified_split_patients.
  destruct (Binary64.ratios_ok tr vr te); [|discriminate].
  destruct (Binary64.split_groups _ _ _ _ _ _) as [r' g'] eqn:E. intros H x.
  injection H as -> _. rewrite (binary_split_groups_allocates _ _ _ _ _ _ _ E).
  unfold allocated. cbn.
  pose proof (group_by_label_members (disease_labels s) patient_ids) as Hp.
  split.
  - intros [[]|H]. now apply (Permutation_in _ Hp).
  - intros H. right. now apply (Permutation_in _ (Permutation_sym Hp)).
Qed.

(** The combined lists hold the two prefix selections. *)
Lemma combined_members (c r : patient_split) (pids : list string) (x : string) :
  (forall y, allocated c y <-> In y (filter is_chexpert pids)) ->
  (forall y, allocated r y <-> In y (filter is_radiopaedia pids)) ->
  Forall source_prefixed pids ->
  (In x ((ps_train c ++ ps_train r) ++ (ps_val c ++ ps_val r) ++ ps_test c ++ ps_test r)
   <-> In x pids).
Proof.
  intros Hc Hr Hpre.
  assert (E : In x ((ps_train c ++ ps_train r) ++ (ps_val c ++ ps_val r)
                    ++ ps_test c ++ ps_test r)
              <-> allocated c x \/ allocated r x).
  { unfold allocated. rewrite !in_app_iff. tauto. }
  rewrite E, Hc, Hr, !filter_In. split; [tauto|].
  intros H. rewrite Forall_forall in Hpre. destruct (Hpre x H); tauto.
Qed.

Lemma create_splits_covers tr vr te (s s' : @state G) sp :
  Forall source_prefixed (keys (patient_data s)) ->
  create_splits np_shuffle tr vr te s = (Ok sp, s') ->
  forall pid,
    In pid (train_patients sp ++ val_patients sp ++ test_patients sp)
    <-> In pid (keys (patient_data s)).
Proof.
  intros Hpre H pid. unfold create_splits in H.
  apply bindM_ok in H as (pd & s1 & E1 & H). injection E1 as <- <-.
  apply bindM_ok in H as (c & s2 & E2 & H).
  pose proof (stratified_split_patients_allocates _ _ _ _ _ _ _ E2) as Hc.
  apply stratified_split_patients_state in E2 as [g2 ->].
  apply bindM_ok in H as (r & s3 & E3 & H).
  pose proof (stratified_split_patients_allocates _ _ _ _ _ _ _ E3) as Hr.
  apply bindM_ok in H as (df1 & s4 & E4 & H).
  apply bindM_ok in H as (df2 & s5 & E5 & H).
  apply bindM_ok in H as (df3 & s6 & E6 & H).
  apply bindM_ok in H as ([] & s7 & E7 & H).
  injection H as <- _. cbn [train_patients val_patients test_patients].
  now apply combined_members.
Qed.

Lemma binary_create_splits_covers tr vr te (s s' : @state G) sp :
  Forall source_prefixed (keys (patient_data s)) ->
  Binary64.create_splits np_shuffle tr vr te s = (Ok sp, s') ->
  forall pid,
    In pid (train_patients sp ++ val_patients sp ++ test_patients sp)
    <-> In pid (keys (patient_data s)).
Proof.
  intros Hpre H pid. unfold Binary64.create_splits in H.
  apply bindM_ok in H as (pd & s1 & E1 & H). injection E1 as <- <-.
  apply bindM_ok in H as (c & s2 & E2 & H).
  pose proof (binary_stratified_split_patients_allocates _ _ _ _ _ _ _ E2) as Hc.
  apply binary_stratified_split_patients_state in E2 as [g2 ->].
  apply bindM_ok in H as (r & s3 & E3 & H).
  pose proof (binary_stratified_split_patients_allocates _ _ _ _ _ _ _ E3) as Hr.
  apply bindM_ok in H as (df1 & s4 & E4 & H).
  apply bindM_ok in H as (df2 & s5 & E5 & H).
  apply bindM_ok in H as (df3 & s6 & E6 & H).
  apply bindM_ok in H as ([] & s7 & E7 & H).
  injection H as <- _. cbn [train_patients val_patients test_patients].
  now apply combined_members.
Qed.
End Coverage.

Section PrefixCover.
Context {G : Type}.
Variable np_shuffle : G -> list string -> list string * G.
Hypothesis shuffle_permutes : forall g l, Permutation l (fst (np_shuffle g l)).
Variable hash : string -> Z.

(** C10. [extract_patient_id] raises exactly when the source tag is
    neither "CheXpert" nor "Radiopaedia", and every identifier it returns
    starts with "chexpert_" or "radiopaedia_". Hence whenever
    [create_splits] returns on the patients that [group_by_patient]
    produced, whatever the ratios, in exact and in binary64 arithmetic,
    its three patient lists together hold every one of these patients
    and nobody else: the two prefix selections drop no patient. *)
Theorem extract_patient_id_prefix_covers :
  (forall fname src,
      (is_ok (extract_patient_id hash fname src) = false <->
       src <> "CheXpert" /\ src <> "Radiopaedia") /\
      (forall pid, extract_patient_id hash fname src = Ok pid -> source_prefixed pid)) /\
  (forall (s s1 : @state G) patient_groups,
      patient_data s = [] ->
      group_by_patient hash s = (Ok patient_groups, s1) ->
      patient_data s1 = patient_groups /\
      Forall source_prefixed (keys patient_groups) /\
      forall (s2 s' : @state G) (sp : splits_t),
        patient_data s2 = patient_groups ->
        (forall train_ratio val_ratio test_ratio,
            create_splits np_shuffle train_ratio val_ratio test_ratio s2 = (Ok sp, s') ->
            forall pid,
              In pid (keys patient_groups) <->
              In pid (train_patients sp ++ val_patients sp ++ test_patients sp)) /\
        (forall train_ratio val_ratio test_ratio,
            Binary64.create_splits np_shuffle train_ratio val_ratio test_ratio s2
            = (Ok sp, s') ->
            forall pid,
              In pid (keys patient_groups) <->
              In pid (train_patients sp ++ val_patients sp ++ test_patients sp))).
Proof.
  split.
  - intros fname src. split; [apply extract_patient_id_raises|].
    intros pid H. apply extract_patient_id_cases in H as [[_ H]|[_ H]];
      [now left | now right].
  - intros s s1 pd Hempty E.
    destruct (group_by_patient_keys hash s s1 pd) as [HP _]; try assumption;
      try (rewrite Hempty; constructor).
    apply group_by_patient_ok in E as [Epd _].
    split; [now symmetry|]. split; [exact HP|].
    intros s2 s' sp E2. rewrite <- E2 in HP. split.
    + intros tr vr te Hrun pid. rewrite <- E2. symmetry.
      now apply (create_splits_covers np_shuffle shuffle_permutes tr vr te s2 s').
    + intros tr vr te Hrun pid. rewrite <- E2. symmetry.
      now apply (binary_create_splits_covers np_shuffle shuffle_permutes tr vr te s2 s').
Qed.
End PrefixCover.

(** The inventory with two sources, split with the default ratios. *)
Lemma extract_patient_id_prefix_covers_witness :
  let s := with_master_df (Some Demo.mixed)
                          (init Demo.seed "metadata/master_index.csv" 42) in
  let grouped := group_by_patient Demo.hash0 s in
  let run := Binary64.create_splits Demo.shuffle (Binary64.literal 8 10)
               (Binary64.literal 1 10) (Binary64.literal 1 10) (snd grouped) in
  exists sp,
    fst run = Ok sp /\
    forall pid,
      In pid (keys (patient_data (snd grouped))) <->
      In pid (train_patients sp ++ val_patients sp ++ test_patients sp).
Proof.
  intros s grouped run.
  assert (Hg : is_ok (fst grouped) = true) by (vm_compute; reflexivity).
  assert (Hr : is_ok (fst run) = true) by (vm_compute; reflexivity).
  pose proof (surjective_pairing grouped) as Eg.
  pose proof (surjective_pairing run) as Er.
  destruct (fst grouped) as [pd|e]; [|discriminate Hg].
  destruct (fst run) as [sp|e]; [|discriminate Hr].
  exists sp. split; [reflexivity|].
  destruct (proj2 (extract_patient_id_prefix_covers Demo.shuffle demo_shuffle_permutes
                     Demo.hash0) s (snd grouped) pd eq_refl Eg)
    as (Epd & _ & Hcover).
  rewrite Epd.
  exact (proj2 (Hcover (snd grouped) (snd run) sp Epd) _ _ _ Er).
Defined.

(** ** Groups too small to give anybody to val *)

Lemma slice_empty {A} (a : Z) (l : list A) : slice (Some a) (Some a) l = [].
Proof. unfold slice. now rewrite Nat.sub_diag. Qed.

Lemma binary_split_groups_val_starved {G}
      (np_shuffle : G -> list string -> list string * G)
      (train_ratio val_ratio : Binary64.float) :
  forall groups g acc,
    Forall (starved train_ratio val_ratio) groups ->
    exists r g',
      Binary64.split_groups np_shuffle train_ratio val_ratio groups g acc = (Ok r, g') /\
      ps_val r = ps_val acc.
Proof.
  induction groups as [|[label patients] rest IH]; intros g acc Hall.
  - now exists acc, g.
  - inversion Hall as [|? ? [Ht Hv] Hrest]; subst. cbn [snd] in Ht, Hv.
    simpl. destruct (np_shuffle g patients) as [shuffled g1].
    unfold Binary64.cut_group. rewrite Hv.
    destruct (Binary64.cut_size _ train_ratio) as [a|e]; [|discriminate Ht].
    cbn [bind ps_train ps_val ps_test].
    rewrite Z.add_0_r, slice_empty, app_nil_r.
    destruct (IH g1 (mk_patient_split (ps_train acc ++ slice None (Some a) shuffled)
                                      (ps_val acc)
                                      (ps_test acc ++ slice (Some a) None shuffled))
                 Hrest) as (r & g' & E & Hval).
    exists r, g'. now split.
Qed.

Lemma binary_stratified_val_starved {G}
      (np_shuffle : G -> list string -> list string * G)
      (patient_ids : list string) (tr vr te : Binary64.float) (s : @state G) :
  Binary64.ratios_ok tr vr te = true ->
  Forall (starved tr vr) (group_by_label (disease_labels s) patient_ids) ->
  exists r g',
    Binary64.stratified_split_patients np_shuffle patient_ids tr vr te s
    = (Ok r, with_np_random g' s) /\
    ps_val r = [].
Proof.
  intros Hok Hall. unfold Binary64.stratified_split_patients. rewrite Hok.
  destruct (binary_split_groups_val_starved np_shuffle tr vr _ (np_random s)
              (mk_patient_split [] [] []) Hall) as (r & g' & E & Hval).
  rewrite E. now exists r, g'.
Qed.

Lemma default_cuts_below_ten (n : nat) :
  (n < 10)%nat ->
  is_ok (Binary64.cut_size n (Binary64.literal 8 10)) = true /\
  Binary64.cut_size n (Binary64.literal 1 10) = Ok 0%Z.
Proof.
  intros H.
  do 10 (destruct n as [|n]; [split; vm_compute; reflexivity|]). lia.
Qed.

(** X18. When the ratios pass the entry check and every stratification
    group of either source has the val cut size [int(n * val_ratio)]
    equal to 0 (and a train cut size that can be computed),
    [create_splits] returns a split whose val patient list and val
    image table are both empty, and [validate_splits] on the splitter so
    left raises: [KeyError] for the 'source' column of an empty table,
    or [ZeroDivisionError] when there is no patient at all. With the
    default ratios 0.8 and 0.1 every group of fewer than ten patients is
    such a group. The cut sizes are those of binary64 arithmetic. *)
Theorem small_groups_starve_val {G} (np_shuffle : G -> list string -> list string * G)
        (train_ratio val_ratio test_ratio : Binary64.float) (s : @state G) :
  Binary64.ratios_ok train_ratio val_ratio test_ratio = true ->
  Forall (starved train_ratio val_ratio)
         (group_by_label (disease_labels s)
            (filter is_chexpert (keys (patient_data s))) ++
          group_by_label (disease_labels s)
            (filter is_radiopaedia (keys (patient_data s)))) ->
  (exists sp s',
      Binary64.create_splits np_shuffle train_ratio val_ratio test_ratio s = (Ok sp, s') /\
      val_patients sp = [] /\ val sp = [] /\
      (validate_splits s' = (Raise (KeyError "source"), s') \/
       validate_splits s' = (Raise ZeroDivisionError, s'))) /\
  (forall group,
      (List.length (snd group) < 10)%nat ->
      starved (Binary64.literal 8 10) (Binary64.literal 1 10) group).
Proof.
  intros Hok Hall. split; [|intros group Hn; now apply default_cuts_below_ten].
  apply Forall_app in Hall as [Hc Hr].
  destruct (binary_stratified_val_starved np_shuffle _ train_ratio val_ratio test_ratio
              s Hok Hc) as (c & g1 & Ec & Vc).
  destruct (binary_stratified_val_starved np_shuffle
              (filter is_radiopaedia (keys (patient_data s)))
              train_ratio val_ratio test_ratio (with_np_random g1 s) Hok Hr)
    as (r & g2 & Er & Vr).
  unfold Binary64.create_splits.
  unfold bindM at 1. unfold gets at 1.
  unfold bindM at 1. rewrite Ec.
  unfold bindM at 1. cbn [patient_data with_np_random] in Er. rewrite Er.
  rewrite Vc, Vr.
  unfold bindM, patients_to_dataframe, modify, ret. cbn.
  eexists. eexists. split; [reflexivity|]. cbn [val_patients val].
  split; [reflexivity|]. split; [reflexivity|].
  unfold validate_splits. cbn [splits with_splits]. unfold validation_report.
  cbn [train_patients val_patients test_patients train val test].
  destruct (_ =? 0)%nat; [now right|]. left.
  match goal with
  | |- context [has_both_sources ?df] => destruct df as [|i1 l1]; [reflexivity|]
  end.
  destruct (has_both_sources_nonempty (i1 :: l1)) as [tb ->]; [discriminate|].
  reflexivity.
Qed.

(** Four patients in one group with the default ratios. *)
Lemma small_groups_starve_val_witness :
  let s := Demo.prepared Demo.four_chexpert Demo.no_captions in
  exists sp s',
    Binary64.create_splits Demo.shuffle (Binary64.literal 8 10)
      (Binary64.literal 1 10) (Binary64.literal 1 10) s = (Ok sp, s') /\
    val_patients sp = [] /\ val sp = [] /\
    (validate_splits s' = (Raise (KeyError "source"), s') \/
     validate_splits s' = (Raise ZeroDivisionError, s')).
Proof.
  intros s.
  assert (Hok : Binary64.ratios_ok (Binary64.literal 8 10) (Binary64.literal 1 10)
                  (Binary64.literal 1 10) = true) by (vm_compute; reflexivity).
  assert (Hsmall : Forall (fun group => (List.length (snd group) < 10)%nat)
                     (group_by_label (disease_labels s)
                        (filter is_chexpert (keys (patient_data s))) ++
                      group_by_label (disease_labels s)
                        (filter is_radiopaedia (keys (patient_data s)))))
    by (vm_compute; repeat constructor).
  assert (Hall : Forall (starved (Binary64.literal 8 10) (Binary64.literal 1 10))
                     (group_by_label (disease_labels s)
                        (filter is_chexpert (keys (patient_data s))) ++
                      group_by_label (disease_labels s)
                        (filter is_radiopaedia (keys (patient_data s))))).
  { eapply Forall_impl; [|exact Hsmall]. intros group Hn.
    now apply default_cuts_below_ten. }
  exact (proj1 (small_groups_starve_val Demo.shuffle (Binary64.literal 8 10)
                  (Binary64.literal 1 10) (Binary64.literal 1 10) s Hok Hall)).
Defined.

(** ** [create_splits] and the entry check in binary64 arithmetic *)

Lemma binary_cut_group_cases (tr vr : Binary64.float) (n : nat) (l : list string) :
  (no_overflow tr vr n -> is_ok (Binary64.cut_group tr vr n l) = true) /\
  (forall e, Binary64.cut_group tr vr n l = Raise e ->
             Binary64.cut_size n tr = Raise e \/ Binary64.cut_size n vr = Raise e).
Proof.
  unfold Binary64.cut_group, no_overflow.
  destruct (Binary64.cut_size n tr) as [a|e1]; cbn [bind].
  - destruct (Binary64.cut_size n vr) as [b|e2]; cbn [bind].
    + split; [reflexivity | discriminate].
    + split; [intros [_ H]; discriminate H | intros e H; injection H as <-; now right].
  - split; [intros [H _]; discriminate H | intros e H; injection H as <-; now left].
Qed.

Lemma binary_split_groups_cases {G} (np_shuffle : G -> list string -> list string * G)
      (tr vr : Binary64.float) :
  forall groups g acc,
    (Forall (fun group => no_overflow tr vr (List.length (snd group))) groups ->
     is_ok (fst (Binary64.split_groups np_shuffle tr vr groups g acc)) = true) /\
    (forall e, fst (Binary64.split_groups np_shuffle tr vr groups g acc) = Raise e ->
       exists group ratio,
         In group groups /\ (ratio = tr \/ ratio = vr) /\
         Binary64.cut_size (List.length (snd group)) ratio = Raise e).
Proof.
  induction groups as [|[label patients] rest IH]; intros g acc.
  - simpl. split; [reflexivity | discriminate].
  - simpl. destruct (np_shuffle g patients) as [shuffled g1].
    destruct (binary_cut_group_cases tr vr (List.length patients) shuffled) as [Hok Hraise].
    destruct (Binary64.cut_group tr vr (List.length patients) shuffled) as [c|e0].
    + destruct (IH g1 (mk_patient_split (ps_train acc ++ ps_train c)
                                        (ps_val acc ++ ps_val c)
                                        (ps_test acc ++ ps_test c))) as [IHok IHraise].
      split.
      * intros Hall. inversion Hall; subst. now apply IHok.
      * intros e He. destruct (IHraise e He) as (group & ratio & Hin & Hr & Hc).
        exists group, ratio. split; [now right | now split].
    + split.
      * intros Hall. inversion Hall as [|? ? Hhere _]; subst.
        apply Hok in Hhere. discriminate Hhere.
      * simpl. intros e He. injection He as <-.
        exists (label, patients). destruct (Hraise e0 eq_refl) as [H|H];
          [exists tr | exists vr]; (split; [now left|]); split; auto.
Qed.

Lemma binary_stratified_cases {G} (np_shuffle : G -> list string -> list string * G)
      (patient_ids : list string) (tr vr te : Binary64.float) (s : @state G) :
  Binary64.ratios_ok tr vr te = true ->
  let groups := group_by_label (disease_labels s) patient_ids in
  exists g,
    snd (Binary64.stratified_split_patients np_shuffle patient_ids tr vr te s)
    = with_np_random g s /\
    (Forall (fun group => no_overflow tr vr (List.length (snd group))) groups ->
     is_ok (fst (Binary64.stratified_split_patients np_shuffle patient_ids tr vr te s))
     = true) /\
    (forall e,
        fst (Binary64.stratified_split_patients np_shuffle patient_ids tr vr te s)
        = Raise e ->
        exists group ratio,
          In group groups /\ (ratio = tr \/ ratio = vr) /\
          Binary64.cut_size (List.length (snd group)) ratio = Raise e).
Proof.
  intros Hok groups. unfold Binary64.stratified_split_patients. rewrite Hok.
  fold groups.
  destruct (binary_split_groups_cases np_shuffle tr vr groups (np_random s)
              (mk_patient_split [] [] [])) as [H1 H2].
  destruct (Binary64.split_groups _ _ _ _ _ _) as [r g']. exists g'.
  split; [reflexivity|]. split; assumption.
Qed.

Lemma binary_create_splits_cases {G}
      (np_shuffle : G -> list string -> list string * G)
      (tr vr te : Binary64.float) (s : @state G) :
  Binary64.ratios_ok tr vr te = true ->
  let groups :=
    group_by_label (disease_labels s) (filter is_chexpert (keys (patient_data s))) ++
    group_by_label (disease_labels s) (filter is_radiopaedia (keys (patient_data s))) in
  ((exists sp s', Binary64.create_splits np_shuffle tr vr te s = (Ok sp, s') /\
                  splits s' = Some sp) \/
   (exists e g,
       Binary64.create_splits np_shuffle tr vr te s = (Raise e, with_np_random g s) /\
       ~ Forall (fun group => no_overflow tr vr (List.length (snd group))) groups /\
       exists group ratio,
         In group groups /\ (ratio = tr \/ ratio = vr) /\
         Binary64.cut_size (List.length (snd group)) ratio = Raise e)).
Proof.
  intros Hok groups.
  destruct (binary_stratified_cases np_shuffle
              (filter is_chexpert (keys (patient_data s))) tr vr te s Hok)
    as (g1 & S1 & Ok1 & Raise1).
  destruct (binary_stratified_cases np_shuffle
              (filter is_radiopaedia (keys (patient_data s)))
              tr vr te (with_np_random g1 s) Hok)
    as (g2 & S2 & Ok2 & Raise2).
  cbn [disease_labels with_np_random] in Ok2, Raise2.
  destruct (Binary64.stratified_split_patients np_shuffle
              (filter is_chexpert (keys (patient_data s))) tr vr te s)
    as [[c|e1] s1] eqn:E1; cbn [fst snd] in *; subst s1.
  - destruct (Binary64.stratified_split_patients np_shuffle
                (filter is_radiopaedia (keys (patient_data s))) tr vr te
                (with_np_random g1 s))
      as [[r|e2] s2] eqn:E2; cbn [fst snd] in *; subst s2.
    + left. unfold Binary64.create_splits.
      unfold bindM at 1. unfold gets at 1. unfold bindM at 1. rewrite E1.
      unfold bindM at 1. cbn [patient_data with_np_random]. rewrite E2.
      unfold bindM, patients_to_dataframe, modify, ret. cbn.
      eexists. eexists. split; reflexivity.
    + right. exists e2, g2. unfold Binary64.create_splits.
      unfold bindM at 1. unfold gets at 1. unfold bindM at 1. rewrite E1.
      unfold bindM at 1. cbn [patient_data with_np_random]. rewrite E2.
      split; [reflexivity|]. split.
      * intros Hall. apply Forall_app in Hall as [_ Hall].
        apply Ok2 in Hall. discriminate Hall.
      * destruct (Raise2 e2 eq_refl) as (group & ratio & Hin & Hr & Hc).
        exists group, ratio. split; [apply in_or_app; now right | now split].
  - right. exists e1, g1. unfold Binary64.create_splits.
    unfold bindM at 1. unfold gets at 1. unfold bindM at 1. rewrite E1.
    split; [reflexivity|]. split.
    + intros Hall. apply Forall_app in Hall as [Hall _].
      apply Ok1 in Hall. discriminate Hall.
    + destruct (Raise1 e1 eq_refl) as (group & ratio & Hin & Hr & Hc).
      exists group, ratio. split; [apply in_or_app; now left | now split].
Qed.

(** X6. [create_splits] in binary64 arithmetic. When the entry check
    [abs(train_ratio + val_ratio + test_ratio - 1.0) < 0.001] fails it
    raises the assertion error and nothing is changed: no shuffle is
    consumed, no record stamped, [self.splits] not set. When the check
    passes, also with a negative ratio, it returns if every cut size
    can be computed, and then [self.splits] holds what it returned;
    otherwise it raises what [int()] raised on the product of some
    group's size and the train or val ratio, and only the generator has
    advanced. *)
Theorem binary_create_splits_outcome {G}
        (np_shuffle : G -> list string -> list string * G)
        (train_ratio val_ratio test_ratio : Binary64.float) (s : @state G) :
  let run := Binary64.create_splits np_shuffle train_ratio val_ratio test_ratio s in
  let groups :=
    group_by_label (disease_labels s) (filter is_chexpert (keys (patient_data s))) ++
    group_by_label (disease_labels s) (filter is_radiopaedia (keys (patient_data s))) in
  (Binary64.ratios_ok train_ratio val_ratio test_ratio = false ->
   run = (Raise (AssertionError "Ratios must sum to 1.0"), s)) /\
  (Binary64.ratios_ok train_ratio val_ratio test_ratio = true ->
   (Forall (fun group => no_overflow train_ratio val_ratio (List.length (snd group)))
           groups ->
    is_ok (fst run) = true) /\
   (forall sp, fst run = Ok sp -> splits (snd run) = Some sp) /\
   (forall e, fst run = Raise e ->
      (exists group ratio,
          In group groups /\ (ratio = train_ratio \/ ratio = val_ratio) /\
          Binary64.cut_size (List.length (snd group)) ratio = Raise e) /\
      exists g, snd run = with_np_random g s)).
Proof.
  intros run groups. split.
  - intros Hno. unfold run, Binary64.create_splits.
    unfold bindM at 1. unfold gets at 1. unfold bindM at 1.
    unfold Binary64.stratified_split_patients. now rewrite Hno.
  - intros Hok.
    destruct (binary_create_splits_cases np_shuffle train_ratio val_ratio test_ratio
                s Hok) as [(sp & s' & E & Hsp)|(e & g & E & Hnot & Hcut)];
      fold run in E; rewrite E; cbn [fst snd].
    + split; [reflexivity|]. split; [|intros e H; discriminate H].
      intros sp' H. now injection H as <-.
    + split; [intros Hall; contradiction|]. split; [intros sp H; discriminate H|].
      intros e' H. injection H as <-. split; [exact Hcut | now exists g].
Qed.

(** A rejected triple, and an accepted one with a negative ratio. *)
Lemma binary_create_splits_outcome_witness :
  let s := Demo.prepared Demo.four_chexpert Demo.no_captions in
  Binary64.create_splits Demo.shuffle (Binary64.literal 7 10) (Binary64.literal 2 10)
    (Binary64.literal 2 10) s
  = (Raise (AssertionError "Ratios must sum to 1.0"), s) /\
  is_ok (fst (Binary64.create_splits Demo.shuffle (Binary64.literal (-5) 10)
                (Binary64.literal 5 10) (Binary64.of_int 1) s)) = true.
Proof.
  intros s. split.
  - apply (proj1 (binary_create_splits_outcome Demo.shuffle (Binary64.literal 7 10)
                    (Binary64.literal 2 10) (Binary64.literal 2 10) s)).
    vm_compute. reflexivity.
  - apply (proj2 (binary_create_splits_outcome Demo.shuffle (Binary64.literal (-5) 10)
                    (Binary64.literal 5 10) (Binary64.of_int 1) s)).
    + vm_compute. reflexivity.
    + apply Forall_forall. intros group Hin.
      assert (Hlen : forallb (fun group =>
                is_ok (Binary64.cut_size (List.length (snd group))
                         (Binary64.literal (-5) 10)) &&
                is_ok (Binary64.cut_size (List.length (snd group))
                         (Binary64.literal 5 10)))
              (group_by_label (disease_labels s)
                 (filter is_chexpert (keys (patient_data s))) ++
               group_by_label (disease_labels s)
                 (filter is_radiopaedia (keys (patient_data s)))) = true)
        by (vm_compute; reflexivity).
      apply (proj1 (forallb_forall _ _) Hlen) in Hin.
      now apply andb_true_iff in Hin.
Defined.

(** ** Grouping under two hashes *)

(** The inventory of ten parsed CheXpert names under two hashes. *)
Lemma parsed_names_make_grouping_independent_of_hash_witness :
  let s := with_master_df (Some Demo.ten_chexpert)
                          (init Demo.seed "metadata/master_index.csv" 42) in
  group_by_patient Demo.hash_run1 s = group_by_patient Demo.hash_run2 s.
Proof.
  intros s.
  apply (parsed_names_make_grouping_independent_of_hash Demo.hash_run1 Demo.hash_run2 s).
  intros t E. injection E as <-.
  repeat (constructor;
          [split; intros Hsrc;
           [eapply digits_follow_search; reflexivity | discriminate Hsrc]|]).
  constructor.
Defined.

(** ** The partition in binary64 arithmetic *)

Lemma pieces_permutation (a b : list string -> nat) (groups : list (list string)) :
  Permutation
    (List.concat (map (fun l => firstn (a l) l) groups) ++
     List.concat (map (fun l => firstn (b l) (skipn (a l) l)) groups) ++
     List.concat (map (fun l => skipn (a l + b l) l) groups))
    (List.concat groups).
Proof.
  induction groups as [|l groups IH]; simpl; [constructor|].
  rewrite Permutation_three_way, firstn_skipn_three.
  now apply Permutation_app_head.
Qed.

Lemma concat_permutation (groups : dict (list string)) (shuffled : list (list string)) :
  Forall2 (fun group l => Permutation (snd group) l) groups shuffled ->
  Permutation (List.concat (map snd groups)) (List.concat shuffled).
Proof.
  induction 1 as [|group l groups shuffled Hp _ IH]; simpl; [constructor|].
  now apply Permutation_app.
Qed.

Lemma shuffled_groups_sizes {G} (np_shuffle : G -> list string -> list string * G)
      (P : nat -> Prop) :
  (forall g l, Permutation l (fst (np_shuffle g l))) ->
  forall groups g,
    Forall (fun group => P (List.length (snd group))) groups ->
    Forall (fun l => P (List.length l)) (shuffled_groups np_shuffle groups g).
Proof.
  intros Hperm. induction groups as [|[label patients] rest IH]; intros g Hall; simpl;
    [constructor|].
  inversion Hall as [|? ? Hhere Hrest]; subst.
  pose proof (Hperm g patients) as Hp.
  destruct (np_shuffle g patients) as [l g']. simpl in Hp. constructor.
  - rewrite <- (Permutation_length Hp). exact Hhere.
  - now apply IH.
Qed.

Section BinaryPartition.
Context {G : Type}.
Variable np_shuffle : G -> list string -> list string * G.
Hypothesis shuffle_permutes : forall g l, Permutation l (fst (np_shuffle g l)).

Lemma binary_stratified_members (patient_ids : list string)
      (tr vr te : Binary64.float) (s : @state G) :
  Binary64.ratios_ok tr vr te = true -> not_negative tr -> not_negative vr ->
  Forall (fun group => no_overflow tr vr (List.length (snd group)))
         (group_by_label (disease_labels s) patient_ids) ->
  exists r g',
    Binary64.stratified_split_patients np_shuffle patient_ids tr vr te s
    = (Ok r, with_np_random g' s) /\
    Permutation patient_ids (ps_train r ++ ps_val r ++ ps_test r).
Proof.
  intros Hok Ht Hv Hall.
  set (groups := group_by_label (disease_labels s) patient_ids) in *.
  assert (Hsh : Forall (fun l => no_overflow tr vr (List.length l))
                       (shuffled_groups np_shuffle groups (np_random s)))
    by now apply (shuffled_groups_sizes np_shuffle (no_overflow tr vr)).
  destruct (split_groups_pieces np_shuffle shuffle_permutes tr vr Ht Hv groups
              (np_random s) (mk_patient_split [] [] []) Hsh) as [g' E].
  eexists. exists g'. unfold Binary64.stratified_split_patients. rewrite Hok.
  fold groups. rewrite E. split; [reflexivity|].
  cbn [ps_train ps_val ps_test app].
  rewrite pieces_permutation.
  rewrite <- (concat_permutation groups _
                (shuffled_groups_permute np_shuffle shuffle_permutes groups (np_random s))).
  symmetry. apply group_by_label_members.
Qed.

(** X24. In binary64 arithmetic, for ratios that pass the entry check
    and are not negative and groups for which no product [n * ratio]
    overflows: on identifiers without duplicates the allocator returns
    three lists that are pairwise disjoint, free of repetition and hold
    exactly the identifiers given; and on distinct, source-prefixed
    patient keys [create_splits] returns, sets [self.splits], and its
    three patient lists split the patients in the same way. *)
Theorem binary_split_partitions (train_ratio val_ratio test_ratio : Binary64.float) :
  Binary64.ratios_ok train_ratio val_ratio test_ratio = true ->
  not_negative train_ratio -> not_negative val_ratio ->
  (forall patient_ids (s : @state G),
      NoDup patient_ids ->
      Forall (fun group => no_overflow train_ratio val_ratio (List.length (snd group)))
             (group_by_label (disease_labels s) patient_ids) ->
      exists r s',
        Binary64.stratified_split_patients np_shuffle patient_ids
          train_ratio val_ratio test_ratio s = (Ok r, s') /\
        partitions patient_ids (ps_train r) (ps_val r) (ps_test r)) /\
  (forall (s : @state G),
      NoDup (keys (patient_data s)) ->
      Forall source_prefixed (keys (patient_data s)) ->
      Forall (fun group => no_overflow train_ratio val_ratio (List.length (snd group)))
             (group_by_label (disease_labels s)
                (filter is_chexpert (keys (patient_data s))) ++
              group_by_label (disease_labels s)
                (filter is_radiopaedia (keys (patient_data s)))) ->
      exists sp s',
        Binary64.create_splits np_shuffle train_ratio val_ratio test_ratio s
        = (Ok sp, s') /\
        splits s' = Some sp /\
        partitions (keys (patient_data s))
                   (train_patients sp) (val_patients sp) (test_patients sp)).
Proof.
  intros Hok Ht Hv. split.
  - intros patient_ids s Hnd Hall.
    destruct (binary_stratified_members patient_ids train_ratio val_ratio test_ratio s
                Hok Ht Hv Hall) as (r & g' & E & P).
    exists r, (with_np_random g' s). split; [exact E|].
    now apply partitions_of_permutation.
  - intros s Hnd Hpre Hall. apply Forall_app in Hall as [Hc Hr].
    destruct (binary_stratified_members (filter is_chexpert (keys (patient_data s)))
                train_ratio val_ratio test_ratio s Hok Ht Hv Hc)
      as (c & g1 & Ec & Pc).
    destruct (binary_stratified_members (filter is_radiopaedia (keys (patient_data s)))
                train_ratio val_ratio test_ratio (with_np_random g1 s) Hok Ht Hv Hr)
      as (r & g2 & Er & Pr).
    unfold Binary64.create_splits.
    unfold bindM at 1. unfold gets at 1.
    unfold bindM at 1. rewrite Ec.
    unfold bindM at 1. cbn [patient_data with_np_random] in Er. rewrite Er.
    unfold bindM, patients_to_dataframe, modify, ret. cbn.
    eexists. eexists. split; [reflexivity|]. split; [reflexivity|].
    cbn [train_patients val_patients test_patients].
    apply partitions_of_permutation; [exact Hnd|].
    rewrite Permutation_three_way, <- Pc, <- Pr.
    apply Permutation_filter_exclusive.
    eapply Forall_impl; [|exact Hpre]. apply source_prefix_exclusive.
Qed.
End BinaryPartition.

(** The inventory with two sources and the default ratios. *)
Lemma binary_split_partitions_witness :
  let s := Demo.prepared Demo.mixed Demo.no_captions in
  exists sp s',
    Binary64.create_splits Demo.shuffle (Binary64.literal 8 10) (Binary64.literal 1 10)
      (Binary64.literal 1 10) s = (Ok sp, s') /\
    splits s' = Some sp /\
    partitions (keys (patient_data s))
               (train_patients sp) (val_patients sp) (test_patients sp).
Proof.
  intros s.
  assert (Hok : Binary64.ratios_ok (Binary64.literal 8 10) (Binary64.literal 1 10)
                  (Binary64.literal 1 10) = true) by (vm_compute; reflexivity).
  assert (Ht : not_negative (Binary64.literal 8 10)) by (vm_compute; reflexivity).
  assert (Hv : not_negative (Binary64.literal 1 10)) by (vm_compute; reflexivity).
  apply (proj2 (binary_split_partitions Demo.shuffle demo_shuffle_permutes
                  (Binary64.literal 8 10) (Binary64.literal 1 10)
                  (Binary64.literal 1 10) Hok Ht Hv) s).
  - apply demo_mixed_well_grouped.
  - apply demo_mixed_prefixed.
  - apply Forall_forall. intros group Hin.
    assert (Hlen : forallb (fun group =>
              is_ok (Binary64.cut_size (List.length (snd group))
                       (Binary64.literal 8 10)) &&
              is_ok (Binary64.cut_size (List.length (snd group))
                       (Binary64.literal 1 10)))
            (group_by_label (disease_labels s)
               (filter is_chexpert (keys (patient_data s))) ++
             group_by_label (disease_labels s)
               (filter is_radiopaedia (keys (patient_data s)))) = true)
      by (vm_compute; reflexivity).
    apply (proj1 (forallb_forall _ _) Hlen) in Hin.
    now apply andb_true_iff in Hin.
Defined.
